(** * bitget_flex_manager_cli: the planners and the account registry

    A shallow embedding of the parts of [bg_flex_manager_cli.py] that decide
    what is planned: the savings planner ([step3_user_selection]), the
    transfer planner ([transfer_step2_user_selection]), the tier analysis of
    [step5_final_query], the credential filter of the two query steps and the
    slot registry ([check_config_needs_update],
    [update_config_with_subaccounts]).

    Conventions.
    - A Python [float] is a binary64 [float] of the kernel; the integer [0]
      that the source mixes with floats is the float zero (they compare and
      add alike).
    - A number that the source reads with [float(d.get(key, '0'))] is carried
      by the record field as [option float]: [None] is the missing key, and
      the value is what [float] returns for the text.
    - Text is [string] (bytes); [strip], [lower] and [int] are modelled on
      ASCII text.
    - A [dict] is an association list in insertion order, without repeated
      keys when it comes from a JSON file.
    - [print] calls are left out; [input] calls are arguments, [None] being a
      [KeyboardInterrupt] at the prompt. *)

From Stdlib Require Import ZArith List String Ascii Bool Lia Permutation Sorted.
From Stdlib Require Import DecimalString DecimalNat.
From Stdlib Require Import Floats.
Import ListNotations.

Set Implicit Arguments.

Open Scope string_scope.
Open Scope list_scope.

(* ================================================================== *)
(** ** Python values and built-ins *)

Module Py.

(** Exceptions that leave a function of the source. *)
Inductive exn : Type :=
| KeyError
| IndexError
| TypeError
| ValueError
| OverflowError.

(** The result of a call: a value, or an exception that propagates. *)
Inductive outcome (A : Type) : Type :=
| Ret (a : A)
| Raise (e : exn).

Arguments Ret {A} a.
Arguments Raise {A} e.

Definition bind {A B : Type} (m : outcome A) (k : A -> outcome B) : outcome B :=
  match m with
  | Ret a => k a
  | Raise e => Raise e
  end.

Notation "x <- m ;; k" := (bind m (fun x => k))
  (at level 61, m at next level, right associativity).

Fixpoint mapM {A B : Type} (f : A -> outcome B) (l : list A) : outcome (list B) :=
  match l with
  | [] => Ret []
  | x :: t => y <- f x ;; ys <- mapM f t ;; Ret (y :: ys)
  end.

(** *** Floats *)

Definition fzero : float := 0x0p+0%float.

(** [min(a, b)]: the first argument unless the second is smaller. *)
Definition py_min (a b : float) : float :=
  if (b <? a)%float then b else a.

(** [max(a, b)]: the first argument unless the second is larger. *)
Definition py_max (a b : float) : float :=
  if (a <? b)%float then b else a.

(** A float is a number when it equals itself (a NaN does not). *)
Definition is_number (x : float) : bool := (x =? x)%float.

(** [float(n)] for the length of a list, as [x * len(l)] converts it. *)
Definition float_of_nat (n : nat) : float :=
  SF2Prim (binary_normalize prec emax (Z.of_nat n) 0 false).

(** [int(x)] on a float: truncation toward zero; [OverflowError] on an
    infinity and [ValueError] on a NaN. *)
Definition int_of_float (x : float) : outcome Z :=
  match Prim2SF x with
  | S754_zero _ => Ret 0%Z
  | S754_infinity _ => Raise OverflowError
  | S754_nan => Raise ValueError
  | S754_finite s m e =>
      let v := Z.shiftl (Z.pos m) e in
      Ret (if s then (- v)%Z else v)
  end.

(** *** Text *)

(** ASCII white space, as [str.strip] and [int] see it. *)
Definition is_space (c : ascii) : bool :=
  let n := nat_of_ascii c in
  ((9 <=? n)%nat && (n <=? 13)%nat) || ((28 <=? n)%nat && (n <=? 32)%nat).

Fixpoint lstrip (s : string) : string :=
  match s with
  | String c t => if is_space c then lstrip t else s
  | EmptyString => EmptyString
  end.

Fixpoint rstrip (s : string) : string :=
  match s with
  | String c t =>
      match rstrip t with
      | EmptyString => if is_space c then EmptyString else String c EmptyString
      | t' => String c t'
      end
  | EmptyString => EmptyString
  end.

Definition strip (s : string) : string := rstrip (lstrip s).

Definition lower_char (c : ascii) : ascii :=
  let n := nat_of_ascii c in
  if (65 <=? n)%nat && (n <=? 90)%nat then ascii_of_nat (n + 32) else c.

Fixpoint lower (s : string) : string :=
  match s with
  | String c t => String (lower_char c) (lower t)
  | EmptyString => EmptyString
  end.

(** [c in s] for a one-character [c]. *)
Fixpoint contains (c : ascii) (s : string) : bool :=
  match s with
  | String d t => Ascii.eqb c d || contains c t
  | EmptyString => false
  end.

(** [s.split(c)]: the pieces between the occurrences of [c]; never empty. *)
Fixpoint split (c : ascii) (s : string) : list string :=
  match s with
  | EmptyString => [EmptyString]
  | String d t =>
      if Ascii.eqb c d then EmptyString :: split c t
      else
        match split c t with
        | p :: ps => String d p :: ps
        | [] => [String d EmptyString]
        end
  end.

Definition digit_of (c : ascii) : option Z :=
  let n := nat_of_ascii c in
  if (48 <=? n)%nat && (n <=? 57)%nat then Some (Z.of_nat (n - 48)) else None.

(** The digits of an [int] literal after its first digit: digits, each
    optionally preceded by one underscore. [acc] is the value read so far. *)
Fixpoint int_digits (acc : Z) (s : string) : option Z :=
  match s with
  | EmptyString => Some acc
  | String c t =>
      match digit_of c with
      | Some d => int_digits (acc * 10 + d) t
      | None =>
          if Ascii.eqb c "_" then
            match t with
            | String c' t' =>
                match digit_of c' with
                | Some d => int_digits (acc * 10 + d) t'
                | None => None
                end
            | EmptyString => None
            end
          else None
      end
  end.

Definition int_unsigned (s : string) : option Z :=
  match s with
  | String c t =>
      match digit_of c with
      | Some d => int_digits d t
      | None => None
      end
  | EmptyString => None
  end.

(** [int(s)] in base ten: [None] is the [ValueError]. *)
Definition int_of_string (s : string) : option Z :=
  match strip s with
  | String c t =>
      if Ascii.eqb c "+" then int_unsigned t
      else if Ascii.eqb c "-" then option_map Z.opp (int_unsigned t)
      else int_unsigned (String c t)
  | EmptyString => None
  end.

(** [str(n)] for a natural number. *)
Definition str_of_nat (n : nat) : string :=
  NilEmpty.string_of_uint (Nat.to_uint n).

(** Truth of an optional text: [d.get(key)] used as a condition. *)
Definition truthy (o : option string) : bool :=
  match o with
  | Some (String _ _) => true
  | _ => false
  end.

Definition opt_string_eqb (a b : option string) : bool :=
  match a, b with
  | Some x, Some y => String.eqb x y
  | None, None => true
  | _, _ => false
  end.

(** *** Dictionaries with text keys *)

Definition dict (V : Type) : Type := list (string * V).

Fixpoint dict_get {V : Type} (d : dict V) (k : string) : option V :=
  match d with
  | [] => None
  | (k', v) :: t => if String.eqb k k' then Some v else dict_get t k
  end.

(** [d[k] = v]: the value of an existing key is replaced where it stands, a
    new key goes last. *)
Fixpoint dict_set {V : Type} (d : dict V) (k : string) (v : V) : dict V :=
  match d with
  | [] => [(k, v)]
  | (k', v') :: t =>
      if String.eqb k k' then (k, v) :: t else (k', v') :: dict_set t k v
  end.

(** *** Sorting *)

Section Sorted.
Variable A : Type.

(** [x] goes before the first element whose key is not smaller: elements
    with equal keys keep the order they arrived in. *)
Fixpoint insert_by_key (x : Z * A) (s : list (Z * A)) : list (Z * A) :=
  match s with
  | [] => [x]
  | y :: t =>
      if (fst x <=? fst y)%Z then x :: y :: t else y :: insert_by_key x t
  end.

Definition sort_keyed (l : list (Z * A)) : list (Z * A) :=
  fold_right insert_by_key [] l.

(** [sorted(l, key=key)]: every key is computed first (an exception of
    [key] propagates), then the elements are sorted stably by key. *)
Definition sorted (key : A -> outcome Z) (l : list A) : outcome (list A) :=
  ks <- mapM (fun x => k <- key x ;; Ret (k, x)) l ;;
  Ret (map snd (sort_keyed ks)).

End Sorted.

End Py.

(* ================================================================== *)
(** ** The slot registry *)

Module Registry.
Import Py.

Definition TARGET_SUBACCOUNT_COUNT : nat := 4.

(** An entry of [config['accounts']]; a field is [None] when the key is
    missing. *)
Record account_info : Type := mk_account_info {
  acc_type : option string;
  uuid : option string;
  apikey : option string;
  secret : option string;
  passphrase : option string
}.

(** The configuration file as [load_config] returns it: the ['accounts']
    entry, if there is one, and the names of the other top-level keys. *)
Record config : Type := mk_config {
  accounts : option (dict account_info);
  other_keys : list string
}.

(** An entry of the exchange's [subAccountList]. *)
Record subaccount : Type := mk_subaccount {
  subAccountUid : option string;
  subAccountName : option string
}.

(** The three credential fields carried over by uid. *)
Record credentials : Type := mk_credentials {
  c_apikey : string;
  c_secret : string;
  c_passphrase : string
}.

(** Truth of the loaded configuration: [None] and the empty dict are false. *)
Definition config_truthy (c : config) : bool :=
  match accounts c, other_keys c with
  | None, [] => false
  | _, _ => true
  end.

(** [config.get('accounts', {})]. *)
Definition config_accounts (c : config) : dict account_info :=
  match accounts c with
  | Some d => d
  | None => []
  end.

Definition is_sub (v : account_info) : bool :=
  opt_string_eqb (acc_type v) (Some "sub").

(** [int(x.get('subAccountUid'))], the sort key. *)
Definition uid_key (x : subaccount) : outcome Z :=
  match subAccountUid x with
  | None => Raise TypeError
  | Some s =>
      match int_of_string s with
      | Some z => Ret z
      | None => Raise ValueError
      end
  end.

(** [sorted(subaccounts[:TARGET_SUBACCOUNT_COUNT], key=...)]. *)
Definition subaccounts_sorted (subaccounts : list subaccount)
  : outcome (list subaccount) :=
  sorted uid_key (firstn TARGET_SUBACCOUNT_COUNT subaccounts).

(** The loop of [check_config_needs_update] over [enumerate(sorted)], from
    index [i]: true as soon as slot [str(i + 1)] is missing or holds another
    uid. *)
Fixpoint uuid_order_differs (existing : dict account_info) (i : nat)
  (l : list subaccount) : bool :=
  match l with
  | [] => false
  | sub :: t =>
      match dict_get existing (str_of_nat (i + 1)) with
      | None => true
      | Some info =>
          if negb (opt_string_eqb (uuid info) (subAccountUid sub)) then true
          else uuid_order_differs existing (S i) t
      end
  end.

Definition existing_sub_accounts (c : config) : dict account_info :=
  filter (fun kv => is_sub (snd kv)) (config_accounts c).

(** [check_config_needs_update(subaccounts)], with the result of
    [load_config()] as [loaded]. *)
Definition check_config_needs_update (loaded : option config)
  (subaccounts : list subaccount) : outcome bool :=
  match loaded with
  | None => Ret true
  | Some cfg =>
      if negb (config_truthy cfg) then Ret true
      else
        srt <- subaccounts_sorted subaccounts ;;
        let existing := existing_sub_accounts cfg in
        if negb (List.length existing =? List.length srt)%nat then Ret true
        else Ret (uuid_order_differs existing 0 srt)
  end.

Definition get_or_empty (o : option string) : string :=
  match o with
  | Some s => s
  | None => ""
  end.

(** The credentials kept for an entry, a missing field read as ['']. *)
Definition credentials_of (info : account_info) : credentials :=
  mk_credentials (get_or_empty (apikey info)) (get_or_empty (secret info))
    (get_or_empty (passphrase info)).

(** One turn of the first loop of [update_config_with_subaccounts]: a sub
    entry with a uid is recorded under that uid. *)
Definition remember (m : dict credentials) (kv : string * account_info)
  : dict credentials :=
  let info := snd kv in
  if is_sub info && truthy (uuid info) then
    dict_set m (get_or_empty (uuid info)) (credentials_of info)
  else m.

(** The first loop: uid to credentials; a later entry with the same uid
    replaces the earlier one. *)
Definition existing_uuid_to_config (c : config) : dict credentials :=
  fold_left remember (config_accounts c) [].

(** The entry written for a sub-account: the known credentials of its uid,
    or empty ones. *)
Definition slot_entry (m : dict credentials) (sub : subaccount) : account_info :=
  let uid := subAccountUid sub in
  match dict_get m (get_or_empty uid) with
  | Some cr =>
      mk_account_info (Some "sub") uid (Some (c_apikey cr))
        (Some (c_secret cr)) (Some (c_passphrase cr))
  | None => mk_account_info (Some "sub") uid (Some "") (Some "") (Some "")
  end.

(** The second loop: [config['accounts'][str(i + 1)] = entry] for each sorted
    sub-account; [KeyError] when the configuration has no ['accounts']. *)
Fixpoint record_slots (m : dict credentials) (i : nat) (l : list subaccount)
  (accs : option (dict account_info)) : outcome (option (dict account_info)) :=
  match l with
  | [] => Ret accs
  | sub :: t =>
      match accs with
      | None => Raise KeyError
      | Some d =>
          record_slots m (S i) t
            (Some (dict_set d (str_of_nat (i + 1)) (slot_entry m sub)))
      end
  end.

(** [update_config_with_subaccounts(subaccounts)]: the value returned and
    the configuration handed to [save_config], if any. *)
Definition update_config_with_subaccounts (loaded : option config)
  (subaccounts : list subaccount) : outcome (bool * option config) :=
  match loaded with
  | None => Ret (false, None)
  | Some cfg =>
      if negb (config_truthy cfg) then Ret (false, None)
      else
        let m := existing_uuid_to_config cfg in
        srt <- subaccounts_sorted subaccounts ;;
        accs <- record_slots m 0 srt (accounts cfg) ;;
        Ret (true, Some (mk_config accs (other_keys cfg)))
  end.

(** The sub-account slot ids of a configuration, in file order. *)
Definition sub_slot_ids (c : config) : list string :=
  map fst (existing_sub_accounts c).

End Registry.

(* ================================================================== *)
(** ** The savings workflow *)

Module Savings.
Import Py Registry.

(** A rate tier of a product ([apyList] entry); only the upper bound is
    read by the planner, the other fields are printed. *)
Record apy : Type := mk_apy {
  maxStepVal : option float;
  currentApy : option string
}.

Record product : Type := mk_product {
  productId : option string;
  apyList : list apy
}.

(** An entry of [data.resultList] of the savings-assets response. *)
Record savings_item : Type := mk_savings_item {
  item_productId : option string;
  holdAmount : option float
}.

(** The savings-assets response: its [code] and [data.resultList] (empty
    when missing). *)
Record savings_response : Type := mk_savings_response {
  savings_code : option string;
  resultList : list savings_item
}.

Record wallet_item : Type := mk_wallet_item {
  available : option float;
  frozen : option float
}.

(** The spot-assets response: its [code] and [data] (empty when missing). *)
Record wallet_response : Type := mk_wallet_response {
  wallet_code : option string;
  wallet_data : list wallet_item
}.

(** What [step2_query_current_assets] keeps per account (the subscribe-info
    response is stored too but never read again). *)
Record status : Type := mk_status {
  account_info_of : account_info;
  savings_result : savings_response;
  wallet_result : wallet_response
}.

Definition is_success (code : option string) : bool :=
  opt_string_eqb code (Some "00000").

(** [float(d.get(key, '0'))]. *)
Definition float_or_zero (o : option float) : float :=
  match o with
  | Some f => f
  | None => fzero
  end.

(** The first item of the product in the result list gives the holding. *)
Fixpoint find_holding (product_id : option string) (l : list savings_item)
  : float :=
  match l with
  | [] => fzero
  | item :: t =>
      if opt_string_eqb (item_productId item) product_id
      then float_or_zero (holdAmount item)
      else find_holding product_id t
  end.

(** The holding read from a savings-assets response: zero unless the code
    is ['00000'] (lines 511-518, and [get_account_holding]). *)
Definition personal_holding (product_id : option string)
  (r : savings_response) : float :=
  if is_success (savings_code r) then find_holding product_id (resultList r)
  else fzero.

(** The wallet balance read from a spot-assets response: zero unless the
    code is ['00000'] and there is data (lines 521-526, and
    [get_account_wallet]). *)
Definition wallet_available (r : wallet_response) : float :=
  if is_success (wallet_code r) then
    match wallet_data r with
    | w :: _ => float_or_zero (available w)
    | [] => fzero
    end
  else fzero.

(** [get_account_holding(account_data, product_id)]; [None] is the empty
    dict that [original_account_status.get(account_id, {})] may give. *)
Definition get_account_holding (account_data : option status)
  (product_id : option string) : float :=
  match account_data with
  | Some st => personal_holding product_id (savings_result st)
  | None => fzero
  end.

Definition get_account_wallet (account_data : option status) : float :=
  match account_data with
  | Some st => wallet_available (wallet_result st)
  | None => fzero
  end.

(** The credential filter of the two query steps: type main or sub, and a
    non-empty [apikey] and [secret]. *)
Definition has_credentials (info : account_info) : bool :=
  (opt_string_eqb (acc_type info) (Some "main")
   || opt_string_eqb (acc_type info) (Some "sub"))
  && truthy (apikey info) && truthy (secret info).

Definition queried_accounts (cfg : config) : dict account_info :=
  filter (fun kv => has_credentials (snd kv)) (config_accounts cfg).

(** [step2_query_current_assets]: [None] is the [False] it returns; [gateway]
    answers the savings-assets and spot-assets queries of an account. *)
Definition step2_query_current_assets (loaded : option config)
  (gateway : string -> savings_response * wallet_response)
  : option (dict status) :=
  match loaded with
  | None => None
  | Some cfg =>
      if negb (config_truthy cfg) then None
      else
        match queried_accounts cfg with
        | [] => None
        | accs =>
            Some (map (fun kv =>
                         (fst kv,
                          mk_status (snd kv) (fst (gateway (fst kv)))
                            (snd (gateway (fst kv)))))
                    accs)
        end
  end.

(** An entry of [valid_accounts]. *)
Record valid_account : Type := mk_valid_account {
  va_id : string;
  va_name : string;
  va_type : option string;
  holding : float;
  wallet : float;
  space_to_tier1 : float
}.

Definition account_name (account_type : option string) (account_id : string)
  : string :=
  if opt_string_eqb account_type (Some "main") then "主帳戶"
  else "子帳戶" ++ account_id.

(** The upper bound of the first tier (the loop of lines 492-497). *)
Definition tier1_limit_of (apy_list : list apy) : float :=
  match apy_list with
  | a :: _ => float_or_zero (maxStepVal a)
  | [] => fzero
  end.

(** The body of the overview loop (lines 507-541). *)
Definition overview (product_id : option string) (tier1_limit : float)
  (kv : string * status) : valid_account :=
  let account_id := fst kv in
  let st := snd kv in
  let account_type := acc_type (account_info_of st) in
  let h := personal_holding product_id (savings_result st) in
  let w := wallet_available (wallet_result st) in
  mk_valid_account account_id (account_name account_type account_id)
    account_type h w (py_max fzero (tier1_limit - h)%float).

Inductive action : Type :=
| subscribe
| redeem.

(** A planned operation (the [reason] text of a subscription is left out). *)
Record operation : Type := mk_operation {
  op_account_id : string;
  op_account_name : string;
  op_action : action;
  amount : float
}.

Definition min_subscribe : float := 0x1.999999999999ap-4%float.

(** The body of the planning loop (lines 583-612) for one account. *)
Definition plan_account (op_choice : string) (tier1_limit : float)
  (account : valid_account) : list operation :=
  if String.eqb op_choice "1" then
    let can_deposit := py_min (wallet account) (space_to_tier1 account) in
    if (min_subscribe <=? can_deposit)%float then
      [mk_operation (va_id account) (va_name account) subscribe can_deposit]
    else []
  else if String.eqb op_choice "2" then
    if (tier1_limit <? holding account)%float then
      [mk_operation (va_id account) (va_name account) redeem
         (holding account - tier1_limit)%float]
    else []
  else if String.eqb op_choice "3" then
    if (fzero <? holding account)%float then
      [mk_operation (va_id account) (va_name account) redeem (holding account)]
    else []
  else [].

Definition plan_operations (op_choice : string) (tier1_limit : float)
  (selected_accounts : list valid_account) : list operation :=
  flat_map (plan_account op_choice tier1_limit) selected_accounts.

(** The account selection (lines 549-564): [0] is every account, [1..n] one
    account; anything else, text that [int] rejects included, cancels. *)
Definition select_accounts (valid_accounts : list valid_account)
  (choice : option string) : option (list valid_account) :=
  match choice with
  | None => None
  | Some raw =>
      match int_of_string (strip raw) with
      | None => None
      | Some n =>
          if (n =? 0)%Z then Some valid_accounts
          else if ((1 <=? n)%Z && (n <=? Z.of_nat (List.length valid_accounts))%Z)
          then
            match nth_error valid_accounts (Z.to_nat (n - 1)) with
            | Some a => Some [a]
            | None => None
            end
          else None
      end
  end.

Definition confirmed (answer : option string) : bool :=
  match answer with
  | Some raw => String.eqb (lower (strip raw)) "y"
  | None => false
  end.

(** [step3_user_selection]: [None] is the [None] it returns when the user
    cancels or an input is invalid. *)
Definition step3_user_selection (selected_product : product)
  (account_status : dict status) (choice op_choice confirm : option string)
  : option (list operation) :=
  match apyList selected_product with
  | [] => None
  | apy_list =>
      let tier1_limit := tier1_limit_of apy_list in
      let valid_accounts :=
        map (overview (productId selected_product) tier1_limit) account_status in
      match select_accounts valid_accounts choice with
      | None => None
      | Some selected_accounts =>
          match op_choice with
          | None => None
          | Some raw =>
              let oc := strip raw in
              if negb (String.eqb oc "1" || String.eqb oc "2" || String.eqb oc "3")
              then None
              else
                match plan_operations oc tier1_limit selected_accounts with
                | [] => Some []
                | operations =>
                    if confirmed confirm then Some operations else None
                end
          end
      end
  end.

(** The line printed for an account by the tier analysis of
    [step5_final_query] (lines 793-808). *)
Inductive tier_line : Type :=
| SecondTier
| OverFirstTier
| FirstTier
| NotInvested.

Definition tier_line_of (n_tiers : nat) (tier1_limit after_holding : float)
  : tier_line :=
  if (tier1_limit <? after_holding)%float && (1 <? n_tiers)%nat then SecondTier
  else if (tier1_limit <? after_holding)%float then OverFirstTier
  else if (fzero <? after_holding)%float then FirstTier
  else NotInvested.

(** The counting loop of the tier analysis: [(tier1_accounts,
    tier2_accounts)]. The two first-tier branches read [apy_list[0]]. *)
Fixpoint tier_analysis (product_id : option string) (apy_list : list apy)
  (tier1_limit : float) (final_account_status : dict status)
  (counts : nat * nat) : outcome (nat * nat) :=
  match final_account_status with
  | [] => Ret counts
  | kv :: t =>
      let after_holding := get_account_holding (Some (snd kv)) product_id in
      match tier_line_of (List.length apy_list) tier1_limit after_holding with
      | SecondTier =>
          tier_analysis product_id apy_list tier1_limit t
            (fst counts, S (snd counts))
      | OverFirstTier | FirstTier =>
          match apy_list with
          | [] => Raise IndexError
          | _ :: _ =>
              tier_analysis product_id apy_list tier1_limit t
                (S (fst counts), snd counts)
          end
      | NotInvested => tier_analysis product_id apy_list tier1_limit t counts
      end
  end.

(** The tier summary of [step5_final_query] for the re-queried statuses. *)
Definition tier_summary (selected_product : product)
  (final_account_status : dict status) : outcome (nat * nat) :=
  tier_analysis (productId selected_product) (apyList selected_product)
    (tier1_limit_of (apyList selected_product)) final_account_status (0, 0)%nat.

End Savings.

(* ================================================================== *)
(** ** The transfer workflow *)

Module Transfer.
Import Py Registry Savings.

(** What [transfer_step1_query_balances] keeps per account. *)
Record balance_info : Type := mk_balance_info {
  balance_account_info : account_info;
  balance_wallet_result : wallet_response
}.

(** [transfer_step1_query_balances]: the same credential filter as the
    savings query; [gateway] answers the spot-assets query of an account. *)
Definition transfer_step1_query_balances (loaded : option config)
  (gateway : string -> wallet_response) : option (dict balance_info) :=
  match loaded with
  | None => None
  | Some cfg =>
      if negb (config_truthy cfg) then None
      else
        match queried_accounts cfg with
        | [] => None
        | accs =>
            Some (map (fun kv =>
                         (fst kv, mk_balance_info (snd kv) (gateway (fst kv))))
                    accs)
        end
  end.

(** An entry of [sub_accounts]. *)
Record sub_account : Type := mk_sub_account {
  sub_id : string;
  sub_name : string;
  sub_uuid : option string;
  balance : float
}.

Inductive transfer_type : Type :=
| main_to_sub
| sub_to_main.

(** A planned transfer; [peer_uuid] is [to_uuid] of a transfer to a
    sub-account and [from_uuid] of a transfer back (the [description] text
    is left out). *)
Record transfer : Type := mk_transfer {
  t_type : transfer_type;
  from_account : string;
  to_account : string;
  peer_uuid : option string;
  t_amount : float
}.

(** The sub-account a transfer is planned for: the target of a transfer
    from the main account, the source of a transfer back to it. *)
Definition sub_account_side (t : transfer) : string :=
  match t_type t with
  | main_to_sub => to_account t
  | sub_to_main => from_account t
  end.

(** What is typed at an amount prompt, as [float(input().strip())] reads
    it. *)
Inductive amount_input : Type :=
| Interrupted
| NotANumber
| Amount (a : float).

(** The answers to the prompts of [transfer_step2_user_selection]; a prompt
    that is not reached is not read. *)
Record answers : Type := mk_answers {
  direction_choice : option string;
  amount_text : amount_input;
  target_choice : option string;
  auto_select : option string;
  transfer_mode : option string;
  source_choice : option string;
  confirm : option string
}.

Definition available_of (b : balance_info) : float :=
  wallet_available (balance_wallet_result b).

(** The analysis loop (lines 976-994): the balance of the main account (the
    last one, if several) and the other accounts in order. *)
Definition main_balance_of (account_balances : dict balance_info) : float :=
  fold_left
    (fun acc kv =>
       if opt_string_eqb (acc_type (balance_account_info (snd kv))) (Some "main")
       then available_of (snd kv) else acc)
    account_balances fzero.

Definition sub_accounts_of (account_balances : dict balance_info)
  : list sub_account :=
  flat_map
    (fun kv =>
       if opt_string_eqb (acc_type (balance_account_info (snd kv))) (Some "main")
       then []
       else [mk_sub_account (fst kv) ("子帳戶" ++ fst kv)
               (uuid (balance_account_info (snd kv))) (available_of (snd kv))])
    account_balances.

Fixpoint ints_of_strings (l : list string) : option (list Z) :=
  match l with
  | [] => Some []
  | x :: t =>
      match int_of_string (strip x), ints_of_strings t with
      | Some n, Some ns => Some (n :: ns)
      | _, _ => None
      end
  end.

Definition in_range (n : Z) (len : nat) : bool :=
  (1 <=? n)%Z && (n <=? Z.of_nat len)%Z.

(** The loop over the numbers of a multiple choice: the first number out of
    range gives up the whole selection. *)
Fixpoint pick_all (candidates : list sub_account) (nums : list Z)
  : option (list sub_account) :=
  match nums with
  | [] => Some []
  | n :: t =>
      if in_range n (List.length candidates) then
        match nth_error candidates (Z.to_nat (n - 1)), pick_all candidates t with
        | Some c, Some cs => Some (c :: cs)
        | _, _ => None
        end
      else None
  end.

(** The selection among the listed candidates, written three times in the
    source (lines 1038-1070, 1151-1183, 1225-1257): ['0'] is all of them,
    text with a comma is a list of numbers, other text is one number. *)
Definition parse_selection (candidates : list sub_account)
  (typed : option string) : option (list sub_account) :=
  match typed with
  | None => None
  | Some raw =>
      let choice := strip raw in
      if String.eqb choice "0" then Some candidates
      else if contains "," choice then
        match ints_of_strings (split "," choice) with
        | Some nums => pick_all candidates nums
        | None => None
        end
      else
        match int_of_string choice with
        | Some n =>
            if in_range n (List.length candidates) then
              match nth_error candidates (Z.to_nat (n - 1)) with
              | Some c => Some [c]
              | None => None
              end
            else None
        | None => None
        end
  end.

Definition to_sub (amount : float) (sub : sub_account) : transfer :=
  mk_transfer main_to_sub "main" (sub_id sub) (sub_uuid sub) amount.

Definition to_main (amount : float) (sub : sub_account) : transfer :=
  mk_transfer sub_to_main (sub_id sub) "main" (sub_uuid sub) amount.

(** The end of the function (lines 1275-1297): nothing to do, or the final
    confirmation. *)
Definition finish (operations : list transfer) (a : answers)
  : option (list transfer) :=
  match operations with
  | [] => Some []
  | _ => if confirmed (confirm a) then Some operations else None
  end.

(** The truncation offered when the total exceeds the main balance (lines
    1074-1101): [None] when it is refused or impossible. A NaN quotient is
    a [ValueError], which the enclosing [try] turns into [None]; an infinite
    one is an [OverflowError], which it does not catch. *)
Definition reduce_targets (main_balance per_account : float)
  (selected_subs : list sub_account) (a : answers)
  : outcome (option (list sub_account)) :=
  match int_of_float (main_balance / per_account)%float with
  | Raise ValueError => Ret None
  | Raise e => Raise e
  | Ret max_accounts =>
      if (0 <? max_accounts)%Z then
        if confirmed (auto_select a)
        then Ret (Some (firstn (Z.to_nat max_accounts) selected_subs))
        else Ret None
      else Ret None
  end.

(** The branch of direction ['1'] (lines 1012-1116). *)
Definition plan_main_to_sub (main_balance : float)
  (sub_accounts : list sub_account) (a : answers)
  : outcome (option (list transfer)) :=
  if (main_balance <=? fzero)%float then Ret None
  else
    match amount_text a with
    | Interrupted | NotANumber => Ret None
    | Amount per_account =>
        if (per_account <=? fzero)%float then Ret None
        else
          match parse_selection sub_accounts (target_choice a) with
          | None => Ret None
          | Some selected_subs =>
              let total :=
                (per_account * float_of_nat (List.length selected_subs))%float in
              if (main_balance <? total)%float then
                r <- reduce_targets main_balance per_account selected_subs a ;;
                match r with
                | None => Ret None
                | Some reduced => Ret (finish (map (to_sub per_account) reduced) a)
                end
              else Ret (finish (map (to_sub per_account) selected_subs) a)
          end
    end.

(** The branch of direction ['2'] (lines 1118-1272). *)
Definition plan_sub_to_main (sub_accounts : list sub_account) (a : answers)
  : option (list transfer) :=
  let subs_with_balance :=
    filter (fun sub => (fzero <? balance sub)%float) sub_accounts in
  match subs_with_balance with
  | [] => None
  | _ =>
      match transfer_mode a with
      | None => None
      | Some raw =>
          let mode := strip raw in
          if String.eqb mode "1" then
            match parse_selection subs_with_balance (source_choice a) with
            | None => None
            | Some selected_subs =>
                finish (map (fun sub => to_main (balance sub) sub) selected_subs) a
            end
          else if String.eqb mode "2" then
            match amount_text a with
            | Interrupted | NotANumber => None
            | Amount per_account =>
                if (per_account <=? fzero)%float then None
                else
                  let eligible_subs :=
                    filter (fun sub => (per_account <=? balance sub)%float)
                      subs_with_balance in
                  match eligible_subs with
                  | [] => None
                  | _ =>
                      match parse_selection eligible_subs (source_choice a) with
                      | None => None
                      | Some selected_subs =>
                          finish (map (to_main per_account) selected_subs) a
                      end
                  end
            end
          else None
      end
  end.

(** [transfer_step2_user_selection]. *)
Definition transfer_step2_user_selection (account_balances : dict balance_info)
  (a : answers) : outcome (option (list transfer)) :=
  let main_balance := main_balance_of account_balances in
  let sub_accounts := sub_accounts_of account_balances in
  match direction_choice a with
  | None => Ret None
  | Some raw =>
      let d := strip raw in
      if String.eqb d "1" then plan_main_to_sub main_balance sub_accounts a
      else if String.eqb d "2" then Ret (plan_sub_to_main sub_accounts a)
      else Ret None
  end.

End Transfer.

(* ================================================================== *)
(** ** Concrete data for the examples *)

Module Examples.
Import Py Registry Savings Transfer.

Definition info (type uid key : string) : account_info :=
  mk_account_info (Some type) (Some uid) (Some key) (Some key) (Some key).

(** A product of two tiers, the first up to 300, and one of a single tier. *)
Definition two_tiers : product :=
  mk_product (Some "P1")
    [mk_apy (Some 300%float) (Some "10"); mk_apy (Some 120000000%float) (Some "3")].

Definition one_tier : product :=
  mk_product (Some "P1") [mk_apy (Some 300%float) (Some "10")].

Definition savings_ok (h : float) : savings_response :=
  mk_savings_response (Some "00000") [mk_savings_item (Some "P1") (Some h)].

Definition savings_failed : savings_response :=
  mk_savings_response (Some "40001") [mk_savings_item (Some "P1") (Some 500%float)].

Definition wallet_ok (w : float) : wallet_response :=
  mk_wallet_response (Some "00000") [mk_wallet_item (Some w) (Some 0%float)].

Definition wallet_failed : wallet_response :=
  mk_wallet_response (Some "40001") [mk_wallet_item (Some 50%float) (Some 0%float)].

Definition sub1 : account_info := info "sub" "1001" "k1".

Definition both_failed : status := mk_status sub1 savings_failed wallet_failed.

(** Three accounts after execution: nothing held, 100 held, 500 held. *)
Definition three_accounts : dict status :=
  [("main", mk_status (info "main" "1000" "k0") (savings_ok fzero) (wallet_ok fzero));
   ("1", mk_status sub1 (savings_ok 100%float) (wallet_ok fzero));
   ("2", mk_status (info "sub" "1002" "k2") (savings_ok 500%float) (wallet_ok fzero))].

Definition balance_of (id type : string) (w : float) : string * balance_info :=
  (id, mk_balance_info (info type ("10" ++ id)%string "k") (wallet_ok w)).

(** A main account holding 100 and five empty sub-accounts. *)
Definition main_and_five : dict balance_info :=
  [balance_of "main" "main" 100%float;
   balance_of "1" "sub" fzero; balance_of "2" "sub" fzero;
   balance_of "3" "sub" fzero; balance_of "4" "sub" fzero;
   balance_of "5" "sub" fzero].

(** 30 to each of all the sub-accounts, the reduced plan accepted and
    confirmed. *)
Definition thirty_to_all : answers :=
  mk_answers (Some "1") (Amount 30%float) (Some "0") (Some "y") None None
    (Some "y").

(** 30 to the sub-accounts numbered 1 and 2 in the list shown. *)
Definition thirty_to_first_two : answers :=
  mk_answers (Some "1") (Amount 30%float) (Some "1,2") None None None
    (Some "y").

(** Two sub-accounts with 50 in the wallet and nothing held. *)
Definition two_statuses : dict status :=
  [("1", mk_status sub1 (savings_ok fzero) (wallet_ok 50%float));
   ("2", mk_status (info "sub" "1002" "k2") (savings_ok fzero) (wallet_ok 50%float))].

(** A configuration whose second sub-account has no API key yet. *)
Definition partly_keyed : config :=
  mk_config
    (Some [("main", info "main" "1000" "k0");
           ("1", sub1);
           ("2", mk_account_info (Some "sub") (Some "1002") (Some "") (Some "")
                   (Some ""))])
    [].

(** A gateway that reports 50 in every wallet and nothing held. *)
Definition flat_gateway (account_id : string)
  : savings_response * wallet_response :=
  (savings_ok fzero, wallet_ok 50%float).

Definition exchange_sub (uid : string) : subaccount :=
  mk_subaccount (Some uid) (Some ("name" ++ uid)%string).

(** Slots 1 and 2 hold the uids 100 and 200 with their credentials. *)
Definition two_slots : config :=
  mk_config
    (Some [("main", info "main" "1000" "k0");
           ("1", info "sub" "100" "keyA");
           ("2", info "sub" "200" "keyB")])
    [].

(** Slots 1 and 2 hold the uids 200 and 300 with their credentials. *)
Definition shifted_slots : config :=
  mk_config
    (Some [("main", info "main" "1000" "k0");
           ("1", info "sub" "200" "keyB");
           ("2", info "sub" "300" "keyC")])
    [].

(** Slots 1 to 4 hold the uids 100, 200, 300 and 400. *)
Definition four_slots : config :=
  mk_config
    (Some [("main", info "main" "1000" "k0");
           ("1", info "sub" "100" "keyA");
           ("2", info "sub" "200" "keyB");
           ("3", info "sub" "300" "keyC");
           ("4", info "sub" "400" "keyD")])
    [].

(** Five sub-accounts as the exchange may list them, in two orders. *)
Definition five_ascending : list subaccount :=
  map exchange_sub ["100"; "200"; "300"; "400"; "500"].

Definition five_descending : list subaccount :=
  map exchange_sub ["500"; "400"; "300"; "200"; "100"].

(** 0.099999 and 0.1 as [float] reads them. *)
Definition just_below : float := 0x1.99988d2a1f8e4p-4%float.
Definition one_tenth : float := 0x1.999999999999ap-4%float.

End Examples.

(* ================================================================== *)
(** ** Requests to the exchange *)

Module Gateway.
Import Py Registry Savings Transfer.

(** What leaves a function that does not return: an exception of the
    language, one of the HTTP library, or an interrupt at a prompt. *)
Inductive raised : Type :=
| Python (e : exn)
| RequestException
| KeyboardInterrupt.

Inductive attempt (R : Type) : Type :=
| Returned (r : R)
| Thrown (x : raised).

Arguments Returned {R} r.
Arguments Thrown {R} x.

(** [get_account_config(account_key)] of [bitget_api.py], [loaded] being
    what [load_config()] returns at that moment. *)
Definition get_account_config (loaded : option config) (account_key : string)
  : option account_info :=
  match loaded with
  | None => None
  | Some cfg =>
      if config_truthy cfg then dict_get (config_accounts cfg) account_key
      else None
  end.

Definition get_current_account_config (loaded : option config)
  : option account_info :=
  get_account_config loaded "main".

(** An entry without any key is false as a condition. *)
Definition account_is_empty (i : account_info) : bool :=
  match acc_type i, uuid i, apikey i, secret i, passphrase i with
  | None, None, None, None, None => true
  | _, _, _, _, _ => false
  end.

Section Requests.
Variables W Q R : Type.

(** The exchange: from its state, the account whose credentials sign the
    request and the request, its next state and what the call ends in (the
    decoded answer, or an exception of the HTTP library). *)
Variable exchange : W -> account_info -> Q -> W * attempt R.

(** [make_bitget_request]: the account is looked up, by its key or the main
    one when no key is given; without an account the [error] response is
    returned and nothing is sent. The signature and the headers need the
    [secret], [apikey] and [passphrase] keys of the account. The result is
    the state of the exchange, the request sent (one or none) with the
    account that signed it, and the end of the call. *)
Definition make_bitget_request (loaded : option config)
  (account_key : option string) (error : R) (w : W) (request : Q)
  : W * list (account_info * Q) * attempt R :=
  let account_config :=
    match account_key with
    | Some (String c k) => get_account_config loaded (String c k)
    | _ => get_current_account_config loaded
    end in
  match account_config with
  | None => (w, [], Returned error)
  | Some i =>
      if account_is_empty i then (w, [], Returned error)
      else
        match secret i, apikey i, passphrase i with
        | Some _, Some _, Some _ =>
            (fst (exchange w i request), [(i, request)],
             snd (exchange w i request))
        | _, _, _ => (w, [], Thrown (Python KeyError))
        end
  end.

End Requests.

(** *** The uid of the main account *)

(** The response to the account-info query: its [code] and [data.userId]. *)
Record info_response : Type := mk_info_response {
  info_code : option string;
  userId : option string
}.

Definition info_error : info_response := mk_info_response (Some "ERROR") None.

(** [get_main_account_uid()]. *)
Definition get_main_account_uid (loaded : option config) : option string :=
  match loaded with
  | None => None
  | Some cfg =>
      if config_truthy cfg then
        match dict_get (config_accounts cfg) "main" with
        | Some i => uuid i
        | None => None
        end
      else None
  end.

Definition with_uuid (i : account_info) (u : option string) : account_info :=
  mk_account_info (acc_type i) u (apikey i) (secret i) (passphrase i).

Section MainUid.
Variable W : Type.
Variable exchange : W -> account_info -> unit -> W * attempt info_response.

(** [ensure_main_account_uid()]: the state of the exchange, the requests
    sent, the value returned and the configuration handed to [save_config],
    if any. Every exception of the query and of the update is caught. *)
Definition ensure_main_account_uid (loaded : option config) (w : W)
  : W * list (account_info * unit) * (bool * option config) :=
  match loaded with
  | None => (w, [], (false, None))
  | Some cfg =>
      if negb (config_truthy cfg) then (w, [], (false, None))
      else
        let main_config := dict_get (config_accounts cfg) "main" in
        let main_uid :=
          match main_config with
          | Some i => uuid i
          | None => None
          end in
        if truthy main_uid then (w, [], (true, None))
        else
          let q := make_bitget_request exchange loaded (Some "main")
                     info_error w tt in
          (fst (fst q), snd (fst q),
           match snd q with
           | Thrown _ => (false, None)
           | Returned r =>
               if is_success (info_code r) then
                 if truthy (userId r) then
                   match accounts cfg, main_config with
                   | Some d, Some i =>
                       (true,
                        Some (mk_config
                                (Some (dict_set d "main"
                                         (with_uuid i (userId r))))
                                (other_keys cfg)))
                   | _, _ => (false, None)
                   end
                 else (false, None)
               else (false, None)
           end)
  end.

End MainUid.

(** *** API keys for the sub-accounts *)

(** The request of [create_subaccount_apikey]; an empty [ipList] is left
    out of the body. *)
Record apikey_request : Type := mk_apikey_request {
  req_subAccountUid : string;
  req_passphrase : string;
  req_label : string;
  req_permList : list string;
  req_ipList : list string
}.

(** The response: its [code], and the two keys of [data], which a response
    of code ['00000'] carries as text. *)
Record apikey_response : Type := mk_apikey_response {
  apikey_code : option string;
  subAccountApiKey : string;
  secretKey : string
}.

Definition apikey_error : apikey_response :=
  mk_apikey_response (Some "ERROR") "" "".

(** A sub entry whose [apikey] is missing or blank. *)
Definition lacks_apikey (i : account_info) : bool :=
  is_sub i && String.eqb (strip (get_or_empty (apikey i))) "".

(** The first loop of [create_apikeys_for_subaccounts]: the sub entries
    that lack a key, with their uid ([account_info['uuid']], a [KeyError]
    when there is none). *)
Fixpoint subaccounts_to_create (d : dict account_info)
  : outcome (list (string * string)) :=
  match d with
  | [] => Ret []
  | (account_id, i) :: t =>
      if lacks_apikey i then
        match uuid i with
        | Some u =>
            rest <- subaccounts_to_create t ;; Ret ((account_id, u) :: rest)
        | None => Raise KeyError
        end
      else subaccounts_to_create t
  end.

Definition with_keys (i : account_info) (k s p : string) : account_info :=
  mk_account_info (acc_type i) (uuid i) (Some k) (Some s) (Some p).

(** [config['accounts'][account_id].update({...})]. *)
Definition store_keys (d : dict account_info) (account_id k s p : string)
  : outcome (dict account_info) :=
  match dict_get d account_id with
  | Some i => Ret (dict_set d account_id (with_keys i k s p))
  | None => Raise KeyError
  end.

Definition key_permissions : list string := ["transfer"; "read"; "spot_trade"].

Section CreateKeys.
Variable W : Type.
Variable exchange :
  W -> account_info -> apikey_request -> W * attempt apikey_response.

(** The passphrase that [generate_api_passphrase()] draws at its [n]-th
    call. *)
Variable generate_api_passphrase : nat -> string.

(** The creation loop over the accounts still to do, from the [n]-th of
    them: the accounts as updated so far and the number of successes go in
    and come out; an exception is not caught. *)
Fixpoint create_loop (loaded : option config) (ip_list : list string)
  (todo : list (string * string)) (n : nat) (w : W)
  (log : list (account_info * apikey_request)) (d : dict account_info)
  (success_count : nat)
  : W * list (account_info * apikey_request)
    * attempt (dict account_info * nat) :=
  match todo with
  | [] => (w, log, Returned (d, success_count))
  | (account_id, uid) :: t =>
      let passphrase := generate_api_passphrase n in
      let request :=
        mk_apikey_request uid passphrase ("auto_sub" ++ account_id)
          key_permissions ip_list in
      let q := make_bitget_request exchange loaded None apikey_error w request in
      match snd q with
      | Thrown x => (fst (fst q), log ++ snd (fst q), Thrown x)
      | Returned r =>
          if is_success (apikey_code r) then
            match store_keys d account_id (subAccountApiKey r) (secretKey r)
                    passphrase with
            | Ret d' =>
                create_loop loaded ip_list t (S n) (fst (fst q))
                  (log ++ snd (fst q)) d' (S success_count)
            | Raise e => (fst (fst q), log ++ snd (fst q), Thrown (Python e))
            end
          else
            create_loop loaded ip_list t (S n) (fst (fst q))
              (log ++ snd (fst q)) d success_count
      end
  end.

(** [create_apikeys_for_subaccounts()]: [bind_answer] is the answer to the
    question about binding the IP and [my_ip] what [get_my_ip()] returns.
    The result is the state of the exchange, the requests sent, and the
    value returned with the configuration handed to [save_config], if
    any. *)
Definition create_apikeys_for_subaccounts (loaded : option config)
  (bind_answer : option string) (my_ip : option string) (w : W)
  : W * list (account_info * apikey_request) * attempt (bool * option config) :=
  match loaded with
  | None => (w, [], Returned (false, None))
  | Some cfg =>
      if negb (config_truthy cfg) then (w, [], Returned (false, None))
      else
        match subaccounts_to_create (config_accounts cfg) with
        | Raise e => (w, [], Thrown (Python e))
        | Ret [] => (w, [], Returned (true, None))
        | Ret todo =>
            match bind_answer with
            | None => (w, [], Thrown KeyboardInterrupt)
            | Some raw =>
                let bind_ip := negb (String.eqb (lower (strip raw)) "n") in
                let ip_list :=
                  if bind_ip then
                    match my_ip with
                    | Some (String c ip) => [String c ip]
                    | _ => []
                    end
                  else [] in
                let q := create_loop loaded ip_list todo 0 w []
                           (config_accounts cfg) 0 in
                (fst (fst q), snd (fst q),
                 match snd q with
                 | Returned (d', n) =>
                     Returned ((0 <? n)%nat,
                               Some (mk_config (Some d') (other_keys cfg)))
                 | Thrown x => Thrown x
                 end)
            end
        end
  end.

End CreateKeys.

(** *** The sub-accounts of the exchange *)

(** The two requests of the first step of the initialisation:
    [get_virtual_subaccount_list] and [create_virtual_subaccount_batch]. *)
Inductive subaccount_request : Type :=
| ListSubaccounts
| CreateSubaccounts (subAccountList : list string).

(** The response to either: its [code] and [data.subAccountList], empty
    when missing; the lists of a creation response are only printed. *)
Record subaccount_response : Type := mk_subaccount_response {
  sub_code : option string;
  listed : list subaccount
}.

Definition subaccount_error : subaccount_response :=
  mk_subaccount_response (Some "ERROR") [].

(** The end of [ensure_target_subaccounts]: the configuration is rebuilt
    from the list when the check asks for it. *)
Definition record_if_needed (loaded : option config)
  (existing_subaccounts : list subaccount)
  : attempt (bool * option config) :=
  match check_config_needs_update loaded existing_subaccounts with
  | Raise e => Thrown (Python e)
  | Ret true =>
      match update_config_with_subaccounts loaded existing_subaccounts with
      | Raise e => Thrown (Python e)
      | Ret r => Returned r
      end
  | Ret false => Returned (true, None)
  end.

Section Subaccounts.
Variable W : Type.
Variable exchange :
  W -> account_info -> subaccount_request -> W * attempt subaccount_response.

(** The name that [generate_subaccount_name()] draws at its [n]-th call. *)
Variable generate_subaccount_name : nat -> string.

(** [ensure_target_subaccounts()]: the state of the exchange, the requests
    sent, and the value returned with the configuration handed to
    [save_config], if any. No exception is caught. *)
Definition ensure_target_subaccounts (loaded : option config) (w : W)
  : W * list (account_info * subaccount_request)
    * attempt (bool * option config) :=
  let q1 := make_bitget_request exchange loaded None subaccount_error w
              ListSubaccounts in
  match snd q1 with
  | Thrown x => (fst (fst q1), snd (fst q1), Thrown x)
  | Returned result =>
      if negb (is_success (sub_code result)) then
        (fst (fst q1), snd (fst q1), Returned (false, None))
      else
        let existing_count := List.length (listed result) in
        if (existing_count <? TARGET_SUBACCOUNT_COUNT)%nat then
          let needed_count := TARGET_SUBACCOUNT_COUNT - existing_count in
          let new_subaccounts :=
            map generate_subaccount_name (seq 0 needed_count) in
          let q2 := make_bitget_request exchange loaded None subaccount_error
                      (fst (fst q1)) (CreateSubaccounts new_subaccounts) in
          match snd q2 with
          | Thrown x =>
              (fst (fst q2), snd (fst q1) ++ snd (fst q2), Thrown x)
          | Returned create_result =>
              if is_success (sub_code create_result) then
                let q3 := make_bitget_request exchange loaded None
                            subaccount_error (fst (fst q2)) ListSubaccounts in
                (fst (fst q3),
                 snd (fst q1) ++ snd (fst q2) ++ snd (fst q3),
                 match snd q3 with
                 | Thrown x => Thrown x
                 | Returned result' =>
                     if negb (is_success (sub_code result')) then
                       Returned (false, None)
                     else record_if_needed loaded (listed result')
                 end)
              else
                (fst (fst q2), snd (fst q1) ++ snd (fst q2),
                 Returned (false, None))
          end
        else
          (fst (fst q1), snd (fst q1),
           record_if_needed loaded (listed result))
  end.

End Subaccounts.

(** *** Transfers *)

(** The body of [subaccount_transfer] (both business lines are ['spot']). *)
Record transfer_request : Type := mk_transfer_request {
  fromUserId : string;
  toUserId : string;
  req_coin : string;
  req_amount : float
}.

(** [str(x)] for a text that may be [None]. *)
Definition py_str (o : option string) : string :=
  match o with
  | Some s => s
  | None => "None"
  end.

Section Transfers.
Variable W : Type.

(** A response is read for its [code] only. *)
Variable exchange :
  W -> account_info -> transfer_request -> W * attempt (option string).

Definition subaccount_transfer (loaded : option config) (w : W)
  (from_user_id to_user_id coin : string) (amount : float)
  : W * list (account_info * transfer_request) * attempt (option string) :=
  make_bitget_request exchange loaded (Some "main") (Some "ERROR") w
    (mk_transfer_request from_user_id to_user_id coin amount).

(** [transfer_to_subaccount], called without the uid of the main account:
    it is read from the configuration, and without it nothing is sent. *)
Definition transfer_to_subaccount (loaded : option config) (w : W)
  (coin : string) (amount : float) (sub_account_uid : option string)
  : W * list (account_info * transfer_request) * attempt (option string) :=
  match get_main_account_uid loaded with
  | Some (String c u) =>
      subaccount_transfer loaded w (String c u) (py_str sub_account_uid) coin
        amount
  | _ => (w, [], Returned (Some "ERROR"))
  end.

(** [transfer_to_main_account], called with the uid of the main account. *)
Definition transfer_to_main_account (loaded : option config) (w : W)
  (coin : string) (amount : float) (sub_account_uid : option string)
  (main_account_uid : string)
  : W * list (account_info * transfer_request) * attempt (option string) :=
  subaccount_transfer loaded w (py_str sub_account_uid) main_account_uid coin
    amount.

(** One turn of the loop of [transfer_step3_execute_operations]. *)
Definition execute_transfer (loaded : option config) (coin : string) (w : W)
  (op : transfer)
  : W * list (account_info * transfer_request) * attempt (option string) :=
  match t_type op with
  | main_to_sub =>
      transfer_to_subaccount loaded w coin (t_amount op) (peer_uuid op)
  | sub_to_main =>
      match get_main_account_uid loaded with
      | Some (String c u) =>
          transfer_to_main_account loaded w coin (t_amount op) (peer_uuid op)
            (String c u)
      | _ => (w, [], Returned (Some "ERROR"))
      end
  end.

Definition succeeded (r : attempt (option string)) : bool :=
  match r with
  | Returned code => is_success code
  | Thrown _ => false
  end.

(** [transfer_step3_execute_operations]: every exception of a turn is
    caught; the step returns [True] in all cases, so the result here is the
    state of the exchange, the requests sent and [success_count]. *)
Fixpoint transfer_step3_execute_operations (loaded : option config)
  (coin : string) (operations : list transfer) (w : W)
  (log : list (account_info * transfer_request)) (success_count : nat)
  : W * list (account_info * transfer_request) * nat :=
  match operations with
  | [] => (w, log, success_count)
  | op :: t =>
      let q := execute_transfer loaded coin w op in
      transfer_step3_execute_operations loaded coin t (fst (fst q))
        (log ++ snd (fst q))
        (if succeeded (snd q) then S success_count else success_count)
  end.

End Transfers.

(** *** Subscriptions and redemptions *)

(** The body of [savings_subscribe] and [savings_redeem]. *)
Record savings_request : Type := mk_savings_request {
  req_action : action;
  req_productId : string;
  req_periodType : option string;
  req_savings_amount : float
}.

Section SavingsOrders.
Variable W : Type.
Variable exchange :
  W -> account_info -> savings_request -> W * attempt (option string).

(** One turn of the loop of [step4_execute_operations]: the request is
    signed by the account of the operation. *)
Definition execute_operation (loaded : option config)
  (product_id period_type : option string) (w : W) (op : operation)
  : W * list (account_info * savings_request) * attempt (option string) :=
  make_bitget_request exchange loaded (Some (op_account_id op)) (Some "ERROR") w
    (mk_savings_request (op_action op) (py_str product_id) period_type
       (amount op)).

(** [step4_execute_operations]: it returns [True] in all cases; the result
    here is the state of the exchange, the requests sent and
    [success_count]. *)
Fixpoint step4_execute_operations (loaded : option config)
  (product_id period_type : option string) (operations : list operation)
  (w : W) (log : list (account_info * savings_request)) (success_count : nat)
  : W * list (account_info * savings_request) * nat :=
  match operations with
  | [] => (w, log, success_count)
  | op :: t =>
      let q := execute_operation loaded product_id period_type w op in
      step4_execute_operations loaded product_id period_type t (fst (fst q))
        (log ++ snd (fst q))
        (if succeeded (snd q) then S success_count else success_count)
  end.

End SavingsOrders.

End Gateway.

(* ================================================================== *)
(** ** Further concrete data *)

Module MoreExamples.
Import Py Registry Savings Transfer Gateway Examples.

(** A main account with credentials whose uid is not recorded yet, and one
    sub-account. *)
Definition main_without_uid : account_info :=
  mk_account_info (Some "main") None (Some "k0") (Some "s0") (Some "p0").

Definition uid_not_recorded : config :=
  mk_config (Some [("main", main_without_uid); ("1", sub1)]) ["note"].

(** An exchange that counts the requests and fails the first one. *)
Definition fails_once (w : nat) (i : account_info) (q : transfer_request)
  : nat * attempt (option string) :=
  (S w,
   match w with
   | 0 => Thrown RequestException
   | S _ => Returned (Some "00000")
   end).

(** 30 out to the sub-account of uid 100, then 5 back from the one of uid
    200. *)
Definition out_and_back : list transfer :=
  [mk_transfer main_to_sub "main" "1" (Some "100") 30%float;
   mk_transfer sub_to_main "2" "main" (Some "200") 5%float].

(** An exchange without state that accepts every order. *)
Definition accepts_orders (w : unit) (i : account_info) (q : savings_request)
  : unit * attempt (option string) :=
  (w, Returned (Some "00000")).

(** 50 subscribed for the main account and for the sub-account 1. *)
Definition fifty_each : list operation :=
  [mk_operation "main" "主帳戶" subscribe 50%float;
   mk_operation "1" "子帳戶1" subscribe 50%float].

(** An exchange without state that tells the uid 1000. *)
Definition tells_uid (w : unit) (i : account_info) (q : unit)
  : unit * attempt info_response :=
  (w, Returned (mk_info_response (Some "00000") (Some "1000"))).

(** 49.999999 as [float] reads it. *)
Definition just_under_fifty : float := 0x1.8fffff79c843p+5%float.

(** A main account and three sub-accounts holding 80, 49.999999 and 0. *)
Definition subs_with_funds : dict balance_info :=
  [balance_of "main" "main" 10%float;
   balance_of "1" "sub" 80%float;
   balance_of "2" "sub" just_under_fifty;
   balance_of "3" "sub" fzero].

(** 50 back from every sub-account that can give it. *)
Definition fifty_back_from_all : answers :=
  mk_answers (Some "2") (Amount 50%float) None None (Some "2") (Some "0")
    (Some "y").

(** A sub-account of the given uid with the given [apikey] entry and no
    other credential. *)
Definition keyless (uid : string) (key : option string) : account_info :=
  mk_account_info (Some "sub") (Some uid) key None None.

(** A main account and three sub-accounts: the first with a blank key, the
    second with a key, the third without the [apikey] entry. *)
Definition two_without_keys : config :=
  mk_config
    (Some [("main", info "main" "1000" "k0");
           ("1", keyless "1001" (Some " "));
           ("2", info "sub" "1002" "k2");
           ("3", keyless "1003" None)])
    ["note"].

(** An exchange that counts the requests and issues a key to each. *)
Definition issues_keys (w : nat) (i : account_info) (q : apikey_request)
  : nat * attempt apikey_response :=
  (S w,
   Returned (mk_apikey_response (Some "00000")
               ("key" ++ req_subAccountUid q)%string
               ("secret" ++ req_subAccountUid q)%string)).

(** An exchange that refuses every key. *)
Definition refuses_keys (w : nat) (i : account_info) (q : apikey_request)
  : nat * attempt apikey_response :=
  (S w, Returned (mk_apikey_response (Some "40014") "" "")).

Definition numbered_passphrase (n : nat) : string :=
  ("pass" ++ str_of_nat n)%string.

(** The two requests for [two_without_keys], bound to the address given. *)
Definition two_key_requests (ip : list string)
  : list (account_info * apikey_request) :=
  [(info "main" "1000" "k0",
    mk_apikey_request "1001" "pass0" "auto_sub1" key_permissions ip);
   (info "main" "1000" "k0",
    mk_apikey_request "1003" "pass1" "auto_sub3" key_permissions ip)].

(** [two_without_keys] after both keys were issued. *)
Definition two_keys_issued : config :=
  mk_config
    (Some [("main", info "main" "1000" "k0");
           ("1", with_keys (keyless "1001" (Some " ")) "key1001" "secret1001"
                   "pass0");
           ("2", info "sub" "1002" "k2");
           ("3", with_keys (keyless "1003" None) "key1003" "secret1003"
                   "pass1")])
    ["note"].

(** An exchange without state that lists four sub-accounts, not in the
    order of their uids, and accepts every creation. *)
Definition four_listed : list subaccount :=
  [mk_subaccount (Some "1004") (Some "d");
   mk_subaccount (Some "1002") (Some "b");
   mk_subaccount (Some "1003") (Some "c");
   mk_subaccount (Some "1001") (Some "a")].

Definition lists_four (w : unit) (i : account_info) (q : subaccount_request)
  : unit * attempt subaccount_response :=
  (w, Returned (mk_subaccount_response (Some "00000") four_listed)).

(** An exchange that counts the requests and lists one sub-account. *)
Definition lists_one (w : nat) (i : account_info) (q : subaccount_request)
  : nat * attempt subaccount_response :=
  (S w,
   Returned (mk_subaccount_response (Some "00000")
               [mk_subaccount (Some "1001") (Some "a")])).

Definition numbered_name (n : nat) : string := ("name" ++ str_of_nat n)%string.

(** A configuration with the main account alone. *)
Definition main_alone : config :=
  mk_config (Some [("main", info "main" "1000" "k0")]) ["note"].

End MoreExamples.

(* ================================================================== *)
(** ** Facts about the built-ins *)

Module PyFacts.
Import Py.

(** *** The order of floats *)

Lemma SFcompare_antisym (a b : spec_float) (c : comparison) :
  SFcompare a b = Some c -> SFcompare b a = Some (CompOpp c).
Proof.
  destruct a as [sa|sa| |sa ma ea], b as [sb|sb| |sb mb eb]; simpl;
    intros H; inversion H; subst; clear H;
    try (destruct sa); try (destruct sb); try reflexivity.
  all: rewrite (Z.compare_antisym ea eb);
    destruct (ea ?= eb)%Z; simpl; try reflexivity;
    change (PosDef.Pos.compare_cont Eq mb ma) with (Pos.compare mb ma);
    change (PosDef.Pos.compare_cont Eq ma mb) with (Pos.compare ma mb);
    now rewrite (Pos.compare_antisym ma mb).
Qed.

Lemma SFcompare_defined (a b : spec_float) :
  SFcompare a a <> None -> SFcompare b b <> None -> SFcompare a b <> None.
Proof.
  destruct a, b; simpl; congruence.
Qed.

Lemma is_number_compare (x : float) :
  is_number x = true -> SFcompare (Prim2SF x) (Prim2SF x) <> None.
Proof.
  unfold is_number. rewrite eqb_spec. unfold SFeqb.
  destruct (SFcompare (Prim2SF x) (Prim2SF x)); congruence.
Qed.

Lemma compare_is_number (x y : float) (c : comparison) :
  SFcompare (Prim2SF x) (Prim2SF y) = Some c ->
  is_number x = true /\ is_number y = true.
Proof.
  unfold is_number. rewrite !eqb_spec. unfold SFeqb.
  destruct (Prim2SF x) as [sa|sa| |sa ma ea], (Prim2SF y) as [sb|sb| |sb mb eb];
    simpl; try discriminate; intros _;
    repeat match goal with
           | s : bool |- _ => destruct s
           end;
    rewrite ?Z.compare_refl;
    change (PosDef.Pos.compare_cont Eq) with Pos.compare;
    rewrite ?Pos.compare_refl; simpl; auto.
Qed.

Lemma ltb_asym (x y : float) : (x <? y)%float = true -> (y <? x)%float = false.
Proof.
  rewrite !ltb_spec. unfold SFltb.
  destruct (SFcompare (Prim2SF x) (Prim2SF y)) as [c|] eqn:E; try discriminate.
  apply SFcompare_antisym in E. rewrite E. destruct c; simpl; congruence.
Qed.

Lemma ltb_not_leb (x y : float) : (x <? y)%float = true -> (y <=? x)%float = false.
Proof.
  rewrite ltb_spec, leb_spec. unfold SFltb, SFleb.
  destruct (SFcompare (Prim2SF x) (Prim2SF y)) as [c|] eqn:E; try discriminate.
  apply SFcompare_antisym in E. rewrite E. destruct c; simpl; congruence.
Qed.

Lemma leb_not_ltb (x y : float) : (x <=? y)%float = true -> (y <? x)%float = false.
Proof.
  rewrite ltb_spec, leb_spec. unfold SFltb, SFleb.
  destruct (SFcompare (Prim2SF x) (Prim2SF y)) as [c|] eqn:E; try discriminate.
  apply SFcompare_antisym in E. rewrite E. destruct c; simpl; congruence.
Qed.

Lemma leb_is_number (x y : float) :
  (x <=? y)%float = true -> is_number x = true /\ is_number y = true.
Proof.
  rewrite leb_spec. unfold SFleb.
  destruct (SFcompare (Prim2SF x) (Prim2SF y)) as [c|] eqn:E; try discriminate.
  intros _. eapply compare_is_number; eassumption.
Qed.

Lemma ltb_is_number (x y : float) :
  (x <? y)%float = true -> is_number x = true /\ is_number y = true.
Proof.
  rewrite ltb_spec. unfold SFltb.
  destruct (SFcompare (Prim2SF x) (Prim2SF y)) as [c|] eqn:E; try discriminate.
  intros _. eapply compare_is_number; eassumption.
Qed.

(** Between numbers, "not above" is "at most". *)
Lemma not_ltb_leb (x y : float) :
  is_number x = true -> is_number y = true ->
  (x <? y)%float = false -> (y <=? x)%float = true.
Proof.
  intros Hx Hy. rewrite ltb_spec, leb_spec. unfold SFltb, SFleb.
  assert (D : SFcompare (Prim2SF x) (Prim2SF y) <> None)
    by (apply SFcompare_defined; apply is_number_compare; assumption).
  destruct (SFcompare (Prim2SF x) (Prim2SF y)) as [c|] eqn:E; try congruence.
  apply SFcompare_antisym in E. rewrite E. destruct c; simpl; congruence.
Qed.

Lemma leb_not_ltb_eqb (x y : float) :
  (x <=? y)%float = true -> (x <? y)%float = false -> (y =? x)%float = true.
Proof.
  rewrite ltb_spec, leb_spec, eqb_spec. unfold SFltb, SFleb, SFeqb.
  destruct (SFcompare (Prim2SF x) (Prim2SF y)) as [c|] eqn:E; try discriminate.
  apply SFcompare_antisym in E. rewrite E. destruct c; simpl; congruence.
Qed.

Lemma eqb_not_ltb (x y : float) :
  (x =? y)%float = true -> (y <? x)%float = false /\ (x <? y)%float = false.
Proof.
  rewrite !ltb_spec, eqb_spec. unfold SFltb, SFeqb.
  destruct (SFcompare (Prim2SF x) (Prim2SF y)) as [c|] eqn:E; try discriminate.
  apply SFcompare_antisym in E. rewrite E. destruct c; simpl; try discriminate; auto.
Qed.

Lemma ltb_leb (x y : float) : (x <? y)%float = true -> (x <=? y)%float = true.
Proof.
  rewrite ltb_spec, leb_spec. unfold SFltb, SFleb.
  destruct (SFcompare (Prim2SF x) (Prim2SF y)) as [[| |]|]; congruence.
Qed.

Lemma leb_refl (x : float) : is_number x = true -> (x <=? x)%float = true.
Proof.
  unfold is_number. rewrite eqb_spec, leb_spec. unfold SFeqb, SFleb.
  destruct (SFcompare (Prim2SF x) (Prim2SF x)) as [[| |]|]; congruence.
Qed.

(** On numbers, [min] gives one of its arguments, at most both of them. *)
Lemma py_min_is_min (a b : float) :
  is_number a = true -> is_number b = true ->
  (py_min a b = a \/ py_min a b = b)
  /\ (py_min a b <=? a)%float = true /\ (py_min a b <=? b)%float = true.
Proof.
  intros Ha Hb. unfold py_min. destruct (b <? a)%float eqn:E.
  - split; [now right|]. split; [now apply ltb_leb | now apply leb_refl].
  - split; [now left|]. split; [now apply leb_refl | now apply not_ltb_leb].
Qed.

(** On numbers, [max] gives one of its arguments, at least both of them. *)
Lemma py_max_is_max (a b : float) :
  is_number a = true -> is_number b = true ->
  (py_max a b = a \/ py_max a b = b)
  /\ (a <=? py_max a b)%float = true /\ (b <=? py_max a b)%float = true.
Proof.
  intros Ha Hb. unfold py_max. destruct (a <? b)%float eqn:E.
  - split; [now right|]. split; [now apply ltb_leb | now apply leb_refl].
  - split; [now left|]. split; [now apply leb_refl | now apply not_ltb_leb].
Qed.

(** *** Text *)

Lemma eqb_space_other (c d : ascii) :
  is_space c = false -> is_space d = true -> Ascii.eqb c d = false.
Proof.
  intros Hc Hd. destruct (Ascii.eqb_spec c d); [subst; congruence | reflexivity].
Qed.

Lemma contains_lstrip (c : ascii) (s : string) :
  is_space c = false -> contains c (lstrip s) = contains c s.
Proof.
  intros Hc. induction s as [|d t IH]; simpl; [reflexivity|].
  destruct (is_space d) eqn:Hd; simpl; [|reflexivity].
  now rewrite (eqb_space_other _ _ Hc Hd).
Qed.

Lemma contains_rstrip (c : ascii) (s : string) :
  is_space c = false -> contains c (rstrip s) = contains c s.
Proof.
  intros Hc. induction s as [|d t IH]; simpl; [reflexivity|].
  destruct (rstrip t) as [|e u] eqn:R.
  - simpl in IH. rewrite <- IH.
    destruct (is_space d) eqn:Hd; simpl; [|reflexivity].
    now rewrite (eqb_space_other _ _ Hc Hd).
  - simpl. simpl in IH. now rewrite IH.
Qed.

Lemma contains_strip (c : ascii) (s : string) :
  is_space c = false -> contains c (strip s) = contains c s.
Proof.
  intros Hc. unfold strip. now rewrite contains_rstrip, contains_lstrip.
Qed.

Lemma digit_not_comma (c : ascii) (d : Z) :
  digit_of c = Some d -> Ascii.eqb "," c = false.
Proof.
  intros H. destruct (Ascii.eqb_spec "," c) as [<-|]; [discriminate|reflexivity].
Qed.

Lemma int_digits_comma (n : nat) :
  forall (s : string) (acc : Z),
    String.length s <= n -> contains "," s = true -> int_digits acc s = None.
Proof.
  induction n as [|n IH]; intros [|c t] acc Hn Hc;
    cbn [contains String.length int_digits] in *;
    try discriminate; try lia.
  destruct (digit_of c) as [d|] eqn:D.
  - rewrite (digit_not_comma _ D) in Hc. apply IH; [lia | exact Hc].
  - destruct (Ascii.eqb_spec c "_") as [->|]; [|reflexivity].
    change (Ascii.eqb "," "_") with false in Hc.
    destruct t as [|c' t']; [reflexivity|].
    cbn [contains String.length orb] in *.
    destruct (digit_of c') as [d'|] eqn:D'; [|reflexivity].
    rewrite (digit_not_comma _ D') in Hc. apply IH; [lia | exact Hc].
Qed.

Lemma int_unsigned_comma (s : string) :
  contains "," s = true -> int_unsigned s = None.
Proof.
  destruct s as [|c t]; [reflexivity|]. intros Hc.
  cbn [contains] in Hc. cbn [int_unsigned].
  destruct (digit_of c) as [d|] eqn:D; [|reflexivity].
  rewrite (digit_not_comma _ D) in Hc.
  now apply (int_digits_comma (n := String.length t)).
Qed.

(** [int] rejects text with a comma in it. *)
Lemma int_of_string_comma (s : string) :
  contains "," s = true -> int_of_string s = None.
Proof.
  intros Hc. unfold int_of_string.
  rewrite <- (@contains_strip "," s eq_refl) in Hc.
  destruct (strip s) as [|c t]; [reflexivity|].
  destruct (Ascii.eqb_spec c "+") as [->|].
  - apply int_unsigned_comma. exact Hc.
  - destruct (Ascii.eqb_spec c "-") as [->|].
    + rewrite int_unsigned_comma; [reflexivity | exact Hc].
    + now apply int_unsigned_comma.
Qed.

End PyFacts.

(* ================================================================== *)
(** ** The savings planner *)

Module SavingsFacts.
Import Py Registry Savings PyFacts Examples.

(** C1. Under fill-to-tier-1 the planner goes through the snapshots in
    order; for each one the deposit is
    [min(wallet_available, max(0, tier1_ceiling - product_holding))], and a
    subscription of exactly that amount is planned if and only if the
    deposit is at least 0.1. With every account selected and the plan
    confirmed, [step3_user_selection] returns that plan (no error for the
    skipped accounts). A deposit of 0.099999 is skipped and one of 0.1 is
    planned. *)
Theorem fill_to_tier1_plan (pid : option string) (a : apy) (rest : list apy)
  (account_status : dict status) :
  let tier1_ceiling := float_or_zero (maxStepVal a) in
  let deposit (st : status) :=
    py_min (wallet_available (wallet_result st))
      (py_max fzero
         (tier1_ceiling - personal_holding pid (savings_result st))%float) in
  let planned :=
    map (fun kv =>
           mk_operation (fst kv)
             (account_name (acc_type (account_info_of (snd kv))) (fst kv))
             subscribe (deposit (snd kv)))
      (filter (fun kv => (min_subscribe <=? deposit (snd kv))%float)
         account_status) in
  plan_operations "1" tier1_ceiling
    (map (overview pid tier1_ceiling) account_status) = planned
  /\ step3_user_selection (mk_product pid (a :: rest)) account_status
       (Some "0") (Some "1") (Some "y") = Some planned
  /\ step3_user_selection two_tiers
       [("1", mk_status sub1 (savings_ok fzero) (wallet_ok just_below))]
       (Some "0") (Some "1") (Some "y") = Some []
  /\ step3_user_selection two_tiers
       [("1", mk_status sub1 (savings_ok fzero) (wallet_ok one_tenth))]
       (Some "0") (Some "1") (Some "y")
     = Some [mk_operation "1" "子帳戶1" subscribe one_tenth].
Proof.
  intros tier1_ceiling deposit planned.
  assert (P : plan_operations "1" tier1_ceiling
                (map (overview pid tier1_ceiling) account_status) = planned).
  { subst planned. unfold plan_operations.
    induction account_status as [|kv t IH]; simpl; [reflexivity|].
    rewrite IH. unfold plan_account at 1. simpl.
    fold (deposit (snd kv)).
    destruct (min_subscribe <=? deposit (snd kv))%float; reflexivity. }
  split; [exact P|]. split.
  - unfold step3_user_selection. cbn [apyList productId tier1_limit_of].
    fold tier1_ceiling.
    change (select_accounts (map (overview pid tier1_ceiling) account_status)
              (Some "0"))
      with (Some (map (overview pid tier1_ceiling) account_status)).
    cbv beta iota.
    change (strip "1") with "1". cbn [String.eqb Ascii.eqb Bool.eqb orb negb].
    rewrite P.
    change (confirmed (Some "y")) with true.
    destruct planned; reflexivity.
  - split; vm_compute; reflexivity.
Qed.

(** With every account selected and the plan confirmed, the step returns
    the operations of the planning loop. *)
Lemma step3_all_confirmed (pid : option string) (a : apy) (rest : list apy)
  (account_status : dict status) (oc : string) :
  oc = "1" \/ oc = "2" \/ oc = "3" ->
  step3_user_selection (mk_product pid (a :: rest)) account_status
    (Some "0") (Some oc) (Some "y")
  = Some (plan_operations oc (float_or_zero (maxStepVal a))
            (map (overview pid (float_or_zero (maxStepVal a))) account_status)).
Proof.
  intros H. unfold step3_user_selection.
  cbn [apyList productId tier1_limit_of].
  change (select_accounts
            (map (overview pid (float_or_zero (maxStepVal a))) account_status)
            (Some "0"))
    with (Some (map (overview pid (float_or_zero (maxStepVal a))) account_status)).
  cbv beta iota.
  change (confirmed (Some "y")) with true.
  destruct H as [-> | [-> | ->]];
    match goal with
    | |- context [strip ?c] => change (strip c) with c
    end;
    cbn [String.eqb Ascii.eqb Bool.eqb orb negb];
    match goal with
    | |- context [plan_operations ?c ?l ?v] => destruct (plan_operations c l v)
    end; reflexivity.
Qed.

(** C6. Under drain-to-tier-1 a redemption of [product_holding -
    tier1_ceiling] is planned for exactly the snapshots whose holding is
    above the ceiling, and under drain-all a redemption of the whole holding
    for exactly those whose holding is above zero; in both cases in the
    order of the snapshots, and [step3_user_selection] returns that plan
    once confirmed. A holding equal to the ceiling gets no operation. *)
Theorem drain_plans (pid : option string) (a : apy) (rest : list apy)
  (account_status : dict status) :
  let tier1_ceiling := float_or_zero (maxStepVal a) in
  let product_holding (kv : string * status) :=
    personal_holding pid (savings_result (snd kv)) in
  let redeem_op (amount_of : string * status -> float) (kv : string * status) :=
    mk_operation (fst kv)
      (account_name (acc_type (account_info_of (snd kv))) (fst kv))
      redeem (amount_of kv) in
  let to_tier1 :=
    map (redeem_op (fun kv => (product_holding kv - tier1_ceiling)%float))
      (filter (fun kv => (tier1_ceiling <? product_holding kv)%float)
         account_status) in
  let all :=
    map (redeem_op product_holding)
      (filter (fun kv => (fzero <? product_holding kv)%float) account_status) in
  step3_user_selection (mk_product pid (a :: rest)) account_status
    (Some "0") (Some "2") (Some "y") = Some to_tier1
  /\ step3_user_selection (mk_product pid (a :: rest)) account_status
       (Some "0") (Some "3") (Some "y") = Some all
  /\ step3_user_selection two_tiers
       [("1", mk_status sub1 (savings_ok 300%float) (wallet_ok fzero));
        ("2", mk_status sub1 (savings_ok 500%float) (wallet_ok fzero))]
       (Some "0") (Some "2") (Some "y")
     = Some [mk_operation "2" "子帳戶2" redeem 200%float].
Proof.
  intros tier1_ceiling product_holding redeem_op to_tier1 all.
  rewrite !step3_all_confirmed by auto.
  fold tier1_ceiling.
  split; [|split].
  - f_equal. subst to_tier1. unfold plan_operations.
    induction account_status as [|kv t IH]; simpl; [reflexivity|].
    rewrite IH. unfold plan_account at 1. simpl.
    fold (product_holding kv).
    destruct (tier1_ceiling <? product_holding kv)%float; reflexivity.
  - f_equal. subst all. unfold plan_operations.
    induction account_status as [|kv t IH]; simpl; [reflexivity|].
    rewrite IH. unfold plan_account at 1. simpl.
    fold (product_holding kv).
    destruct (fzero <? product_holding kv)%float; reflexivity.
  - vm_compute. reflexivity.
Qed.

(** C8 (as stated, fails). An account whose savings query failed while its
    wallet query succeeded is planned with its real wallet balance and gets
    a subscription; one whose wallet query failed while its savings query
    succeeded is planned with its real holding and gets a redemption. *)
Lemma one_failed_query_still_plans :
  is_success (savings_code savings_failed) = false
  /\ step3_user_selection two_tiers
       [("1", mk_status sub1 savings_failed (wallet_ok 50%float))]
       (Some "0") (Some "1") (Some "y")
     = Some [mk_operation "1" "子帳戶1" subscribe 50%float]
  /\ is_success (wallet_code wallet_failed) = false
  /\ step3_user_selection two_tiers
       [("1", mk_status sub1 (savings_ok 500%float) wallet_failed)]
       (Some "0") (Some "3") (Some "y")
     = Some [mk_operation "1" "子帳戶1" redeem 500%float].
Proof.
  repeat split; vm_compute; reflexivity.
Qed.

Lemma fill_with_empty_wallet (x : float) :
  py_min fzero (py_max fzero x) = fzero.
Proof.
  unfold py_max, py_min.
  destruct (fzero <? x)%float eqn:E.
  - now rewrite (ltb_asym E).
  - reflexivity.
Qed.

(** C8 (amended). The two queries are read independently: a failed savings
    query makes the holding used for planning exactly zero, so that (the
    ceiling not being negative) the account gets no redemption under either
    drain strategy; a failed wallet query makes the wallet balance used
    exactly zero, so that the account gets no subscription. The report's
    [get_account_holding] and [get_account_wallet] read zero likewise. *)
Theorem failed_query_counts_as_zero (pid : option string) (tier1_ceiling : float)
  (account_id : string) (st : status) :
  (tier1_ceiling <? fzero)%float = false ->
  let account := overview pid tier1_ceiling (account_id, st) in
  (if is_success (savings_code (savings_result st)) then True
   else holding account = fzero
        /\ get_account_holding (Some st) pid = fzero
        /\ plan_account "2" tier1_ceiling account = []
        /\ plan_account "3" tier1_ceiling account = [])
  /\ (if is_success (wallet_code (wallet_result st)) then True
      else wallet account = fzero
           /\ get_account_wallet (Some st) = fzero
           /\ plan_account "1" tier1_ceiling account = []).
Proof.
  intros HL account. split.
  - destruct (is_success (savings_code (savings_result st))) eqn:E; [exact I|].
    assert (H0 : holding account = fzero).
    { subst account. unfold overview, personal_holding. simpl. now rewrite E. }
    split; [exact H0|]. split; [exact H0|].
    unfold plan_account. cbn [String.eqb Ascii.eqb Bool.eqb].
    rewrite H0, HL. split; reflexivity.
  - destruct (is_success (wallet_code (wallet_result st))) eqn:E; [exact I|].
    assert (W0 : wallet account = fzero).
    { subst account. unfold overview, wallet_available. simpl. now rewrite E. }
    split; [exact W0|]. split; [exact W0|].
    unfold plan_account. cbn [String.eqb Ascii.eqb Bool.eqb].
    rewrite W0. subst account. cbn [space_to_tier1 overview].
    rewrite fill_with_empty_wallet. reflexivity.
Qed.

Lemma failed_query_counts_as_zero_witness :
  (holding (overview (Some "P1") 300%float ("1", both_failed)) = fzero
   /\ get_account_holding (Some both_failed) (Some "P1") = fzero
   /\ plan_account "2" 300%float
        (overview (Some "P1") 300%float ("1", both_failed)) = []
   /\ plan_account "3" 300%float
        (overview (Some "P1") 300%float ("1", both_failed)) = [])
  /\ (wallet (overview (Some "P1") 300%float ("1", both_failed)) = fzero
      /\ get_account_wallet (Some both_failed) = fzero
      /\ plan_account "1" 300%float
           (overview (Some "P1") 300%float ("1", both_failed)) = []).
Proof.
  exact (@failed_query_counts_as_zero (Some "P1") 300%float "1" both_failed
           eq_refl).
Defined.

(** *** The tier analysis *)

Lemma eqb_zero_ltb (h x : float) :
  (h =? fzero)%float = true -> (x <? h)%float = (x <? fzero)%float.
Proof.
  rewrite eqb_spec, !ltb_spec.
  change (Prim2SF fzero) with (S754_zero false).
  unfold SFeqb, SFltb.
  destruct (Prim2SF h) as [s|s| |s m e]; simpl; try discriminate.
  - intros _. destruct (Prim2SF x); reflexivity.
  - destruct s; discriminate.
  - destruct s; discriminate.
Qed.

Section TierLines.
Variables (tier1_ceiling h : float) (rest : list apy).
Hypothesis ceiling_not_negative : (fzero <=? tier1_ceiling)%float = true.
Hypothesis holding_not_negative : (fzero <=? h)%float = true.

Let n_tiers : nat := S (List.length rest).

Lemma above_or_within :
  ((tier1_ceiling <? h)%float = true /\ (h <=? tier1_ceiling)%float = false)
  \/ ((tier1_ceiling <? h)%float = false /\ (h <=? tier1_ceiling)%float = true).
Proof.
  destruct (tier1_ceiling <? h)%float eqn:E.
  - left. split; [reflexivity|]. now apply ltb_not_leb.
  - right. split; [reflexivity|].
    apply not_ltb_leb; [| |exact E].
    + exact (proj2 (leb_is_number ceiling_not_negative)).
    + exact (proj2 (leb_is_number holding_not_negative)).
Qed.

Lemma tier_line_cases :
  match tier_line_of n_tiers tier1_ceiling h with
  | SecondTier =>
      (tier1_ceiling <? h)%float = true /\ (2 <=? n_tiers)%nat = true
  | OverFirstTier =>
      (tier1_ceiling <? h)%float = true /\ (n_tiers <? 2)%nat = true
  | FirstTier =>
      (fzero <? h)%float = true /\ (h <=? tier1_ceiling)%float = true
  | NotInvested => (h =? fzero)%float = true
  end.
Proof.
  unfold tier_line_of, n_tiers.
  destruct above_or_within as [[A B] | [A B]]; rewrite A; simpl.
  - destruct rest; simpl; auto.
  - destruct (fzero <? h)%float eqn:P.
    + auto.
    + now apply leb_not_ltb_eqb.
Qed.

Lemma not_invested_iff :
  tier_line_of n_tiers tier1_ceiling h = NotInvested
  <-> (h =? fzero)%float = true.
Proof.
  split.
  - intros E. pose proof tier_line_cases as C. now rewrite E in C.
  - intros E. unfold tier_line_of.
    rewrite (eqb_zero_ltb tier1_ceiling E).
    rewrite (leb_not_ltb ceiling_not_negative). simpl.
    now rewrite (proj1 (eqb_not_ltb E)).
Qed.

Lemma tier_line_counts :
  let tier1 :=
    (((fzero <? h) && (h <=? tier1_ceiling))
     || ((tier1_ceiling <? h) && (n_tiers <? 2)%nat))%float in
  let tier2 := ((tier1_ceiling <? h)%float && (2 <=? n_tiers)%nat) in
  match tier_line_of n_tiers tier1_ceiling h with
  | SecondTier => tier1 = false /\ tier2 = true
  | OverFirstTier | FirstTier => tier1 = true /\ tier2 = false
  | NotInvested => tier1 = false /\ tier2 = false
  end.
Proof.
  unfold tier_line_of, n_tiers.
  destruct above_or_within as [[A B] | [A B]]; rewrite A, B; simpl.
  - destruct rest; simpl; rewrite ?andb_false_r; auto.
  - destruct (fzero <? h)%float; auto.
Qed.

End TierLines.

(** The counting loop adds, to the counts it starts from, the number of
    accounts of each class. *)
Lemma tier_analysis_counts (pid : option string) (a : apy) (rest : list apy)
  (tier1_ceiling : float) (final : dict status) :
  (fzero <=? tier1_ceiling)%float = true ->
  Forall (fun kv =>
            (fzero <=? get_account_holding (Some (snd kv)) pid)%float = true)
    final ->
  forall c1 c2 : nat,
    tier_analysis pid (a :: rest) tier1_ceiling final (c1, c2)
    = Ret (c1 + List.length
                  (filter (fun kv =>
                             let h := get_account_holding (Some (snd kv)) pid in
                             (((fzero <? h) && (h <=? tier1_ceiling))
                              || ((tier1_ceiling <? h)
                                  && (S (List.length rest) <? 2)%nat))%float)
                     final),
           c2 + List.length
                  (filter (fun kv =>
                             let h := get_account_holding (Some (snd kv)) pid in
                             (tier1_ceiling <? h)%float
                             && (2 <=? S (List.length rest))%nat)
                     final))%nat.
Proof.
  intros HL HF. induction HF as [|kv t Hh _ IH]; intros c1 c2.
  - simpl. now rewrite !Nat.add_0_r.
  - cbn [tier_analysis filter].
    pose proof (tier_line_counts rest HL Hh) as C. cbv zeta in C.
    change (List.length (a :: rest)) with (S (List.length rest)).
    destruct (tier_line_of (S (List.length rest)) tier1_ceiling
                (get_account_holding (Some (snd kv)) pid));
      destruct C as [C1 C2]; cbv zeta; rewrite C1, C2;
      cbn [fst snd]; rewrite IH; cbn [List.length]; f_equal; f_equal; lia.
Qed.

(** C7 (as stated, fails). On a product with a single tier, an account
    holding 500 over a ceiling of 300 is counted as first tier, although its
    holding is not within [0 < holding <= tier1_ceiling]. *)
Lemma single_tier_over_ceiling_counts_as_tier1 :
  tier_summary one_tier
    [("1", mk_status sub1 (savings_ok 500%float) (wallet_ok fzero))]
  = Ret (1, 0)%nat
  /\ ((fzero <? 500) && (500 <=? 300))%float = false.
Proof.
  split; vm_compute; reflexivity.
Qed.

(** C7 (amended). For a ceiling and holdings that are not negative, the
    tier summary counts as first tier exactly the accounts with
    [0 < holding <= tier1_ceiling] and those above the ceiling when the
    product has fewer than 2 tiers, as second tier exactly the accounts
    above the ceiling when the product has at least 2 tiers, and an account
    is reported as not invested exactly when its holding equals 0. *)
Theorem tier_occupancy (pid : option string) (a : apy) (rest : list apy)
  (final : dict status) :
  let tier1_ceiling := float_or_zero (maxStepVal a) in
  let n_tiers := S (List.length rest) in
  let after_holding (kv : string * status) :=
    get_account_holding (Some (snd kv)) pid in
  (fzero <=? tier1_ceiling)%float = true ->
  Forall (fun kv => (fzero <=? after_holding kv)%float = true) final ->
  tier_summary (mk_product pid (a :: rest)) final
  = Ret (List.length
           (filter (fun kv =>
                      (((fzero <? after_holding kv)
                        && (after_holding kv <=? tier1_ceiling))
                       || ((tier1_ceiling <? after_holding kv)
                           && (n_tiers <? 2)%nat))%float)
              final),
         List.length
           (filter (fun kv =>
                      (tier1_ceiling <? after_holding kv)%float
                      && (2 <=? n_tiers)%nat)
              final))
  /\ Forall (fun kv =>
               tier_line_of n_tiers tier1_ceiling (after_holding kv) = NotInvested
               <-> (after_holding kv =? fzero)%float = true)
       final.
Proof.
  intros tier1_ceiling n_tiers after_holding HL HF. split.
  - unfold tier_summary. cbn [productId apyList tier1_limit_of].
    fold tier1_ceiling.
    rewrite (@tier_analysis_counts pid a rest tier1_ceiling final HL HF).
    reflexivity.
  - rewrite Forall_forall in *. intros kv Hkv.
    apply not_invested_iff; [exact HL|]. now apply HF.
Qed.

Lemma tier_occupancy_witness :
  tier_summary two_tiers three_accounts = Ret (1, 1)%nat.
Proof.
  refine (proj1 (@tier_occupancy (Some "P1")
                   (mk_apy (Some 300%float) (Some "10"))
                   [mk_apy (Some 120000000%float) (Some "3")]
                   three_accounts eq_refl _)).
  repeat constructor.
Defined.

End SavingsFacts.

(* ================================================================== *)
(** ** The transfer planner *)

Module TransferFacts.
Import Py Registry Savings Transfer PyFacts Examples.

(** C2. When the requested amount per account times the number of selected
    targets exceeds the balance of the main account, the planner computes
    [int(main_balance / amount)], the floor of the quotient. If it is at
    least 1 the reduced plan is offered: once accepted, the operations are
    those of the first that many selected targets, in the order selected,
    each for the unchanged amount. If it is 0 the planning fails with no
    operation. With 100 on the main account, 30 per account and 5 targets,
    the reduced plan is the first 3 targets. *)
Theorem transfer_overflow_truncation (account_balances : dict balance_info)
  (a : answers) (raw : string) (per_account : float)
  (selected : list sub_account) (max_affordable : Z) :
  direction_choice a = Some raw ->
  strip raw = "1" ->
  (main_balance_of account_balances <=? fzero)%float = false ->
  amount_text a = Amount per_account ->
  (per_account <=? fzero)%float = false ->
  parse_selection (sub_accounts_of account_balances) (target_choice a)
  = Some selected ->
  (main_balance_of account_balances
   <? per_account * float_of_nat (List.length selected))%float = true ->
  int_of_float (main_balance_of account_balances / per_account)%float
  = Ret max_affordable ->
  transfer_step2_user_selection account_balances a
  = (if (1 <=? max_affordable)%Z then
       if confirmed (auto_select a) then
         Ret (finish
                (map (to_sub per_account)
                   (firstn (Z.to_nat max_affordable) selected)) a)
       else Ret None
     else Ret None)
  /\ transfer_step2_user_selection main_and_five thirty_to_all
     = Ret (Some [mk_transfer main_to_sub "main" "1" (Some "101") 30%float;
                  mk_transfer main_to_sub "main" "2" (Some "102") 30%float;
                  mk_transfer main_to_sub "main" "3" (Some "103") 30%float]).
Proof.
  intros Hd Hs Hm Ha Hp Hsel Hover Hint. split.
  - unfold transfer_step2_user_selection. rewrite Hd, Hs.
    cbn [String.eqb Ascii.eqb Bool.eqb].
    unfold plan_main_to_sub. rewrite Hm, Ha, Hp, Hsel. cbv zeta.
    rewrite Hover. unfold reduce_targets. rewrite Hint.
    replace (0 <? max_affordable)%Z with (1 <=? max_affordable)%Z
      by (destruct (Z.leb_spec 1 max_affordable), (Z.ltb_spec 0 max_affordable);
          (reflexivity || lia)).
    destruct (1 <=? max_affordable)%Z; [|reflexivity].
    destruct (confirmed (auto_select a)); reflexivity.
  - vm_compute. reflexivity.
Qed.

Lemma transfer_overflow_truncation_witness :
  transfer_step2_user_selection main_and_five thirty_to_all
  = Ret (finish
           (map (to_sub 30%float)
              (firstn 3 (sub_accounts_of main_and_five))) thirty_to_all).
Proof.
  refine (proj1 (@transfer_overflow_truncation main_and_five thirty_to_all "1"
                   30%float (sub_accounts_of main_and_five) 3%Z
                   eq_refl eq_refl eq_refl eq_refl eq_refl eq_refl _ _));
    vm_compute; reflexivity.
Defined.

(** *** The selection of accounts *)

Lemma in_range_nth_error (A : Type) (l : list A) (n : Z) :
  in_range n (List.length l) = true ->
  exists c, nth_error l (Z.to_nat (n - 1)) = Some c.
Proof.
  unfold in_range. intros H. apply andb_prop in H as [H1 H2].
  apply Z.leb_le in H1, H2.
  destruct (nth_error l (Z.to_nat (n - 1))) as [c|] eqn:E; [now exists c|].
  apply nth_error_None in E. lia.
Qed.

Lemma pick_all_in_range (candidates : list sub_account) (nums : list Z) :
  Forall (fun n => in_range n (List.length candidates) = true) nums ->
  exists sel,
    pick_all candidates nums = Some sel
    /\ Forall2 (fun n c => nth_error candidates (Z.to_nat (n - 1)) = Some c)
         nums sel.
Proof.
  induction 1 as [|n t Hn _ [sel [IH1 IH2]]]; simpl.
  - exists []. split; [reflexivity | constructor].
  - rewrite Hn. destruct (in_range_nth_error _ _ Hn) as [c Hc].
    rewrite Hc, IH1. exists (c :: sel). split; [reflexivity|].
    now constructor.
Qed.

Lemma pick_all_out_of_range (candidates : list sub_account) (nums : list Z) :
  Exists (fun n => in_range n (List.length candidates) = false) nums ->
  pick_all candidates nums = None.
Proof.
  induction 1 as [n t Hn | n t _ IH]; simpl.
  - now rewrite Hn.
  - rewrite IH. destruct (in_range n (List.length candidates)); [|reflexivity].
    now destruct (nth_error candidates (Z.to_nat (n - 1))).
Qed.

Lemma comma_not_zero (s : string) :
  contains "," s = true -> String.eqb s "0" = false.
Proof.
  intros H. destruct (String.eqb_spec s "0") as [->|]; [discriminate|reflexivity].
Qed.

(** C9 (as stated, fails). With two accounts listed, the savings planner
    cancels on the text [1,2], which names two indices in range, while the
    transfer planner takes both targets. *)
Lemma savings_selection_rejects_a_list :
  step3_user_selection two_tiers two_statuses (Some "1,2") (Some "1") (Some "y")
  = None
  /\ step3_user_selection two_tiers two_statuses (Some "2") (Some "1") (Some "y")
     = Some [mk_operation "2" "子帳戶2" subscribe 50%float]
  /\ transfer_step2_user_selection main_and_five thirty_to_first_two
     = Ret (Some [mk_transfer main_to_sub "main" "1" (Some "101") 30%float;
                  mk_transfer main_to_sub "main" "2" (Some "102") 30%float]).
Proof.
  repeat split; vm_compute; reflexivity.
Qed.

(** C9 (amended). In the transfer planner the selection accepts [0] for all
    the candidates listed, a comma-separated list of 1-based indices, or a
    single 1-based index; as soon as one index is out of range, or one
    piece of the list is not a number, the whole selection fails, nothing
    being selected. In the savings planner the
    selection accepts only [0] for all the accounts or a single 1-based
    index; an index out of range fails it and so does any text with a
    comma. *)
Theorem selection_syntax (candidates : list sub_account)
  (valid_accounts : list valid_account) (raw : string) :
  (strip raw = "0" -> parse_selection candidates (Some raw) = Some candidates)
  /\ (forall nums : list Z,
        contains "," (strip raw) = true ->
        ints_of_strings (split "," (strip raw)) = Some nums ->
        (Forall (fun n => in_range n (List.length candidates) = true) nums ->
         exists sel,
           parse_selection candidates (Some raw) = Some sel
           /\ Forall2
                (fun n c => nth_error candidates (Z.to_nat (n - 1)) = Some c)
                nums sel)
        /\ (Exists (fun n => in_range n (List.length candidates) = false) nums ->
            parse_selection candidates (Some raw) = None))
  /\ (contains "," (strip raw) = true ->
      ints_of_strings (split "," (strip raw)) = None ->
      parse_selection candidates (Some raw) = None)
  /\ (forall n : Z,
        strip raw <> "0" ->
        contains "," (strip raw) = false ->
        int_of_string (strip raw) = Some n ->
        (in_range n (List.length candidates) = true ->
         exists c,
           nth_error candidates (Z.to_nat (n - 1)) = Some c
           /\ parse_selection candidates (Some raw) = Some [c])
        /\ (in_range n (List.length candidates) = false ->
            parse_selection candidates (Some raw) = None))
  /\ (forall n : Z,
        int_of_string (strip raw) = Some n ->
        (n = 0%Z -> select_accounts valid_accounts (Some raw) = Some valid_accounts)
        /\ (in_range n (List.length valid_accounts) = true ->
            exists acc,
              nth_error valid_accounts (Z.to_nat (n - 1)) = Some acc
              /\ select_accounts valid_accounts (Some raw) = Some [acc])
        /\ (n <> 0%Z -> in_range n (List.length valid_accounts) = false ->
            select_accounts valid_accounts (Some raw) = None))
  /\ (contains "," raw = true ->
      select_accounts valid_accounts (Some raw) = None).
Proof.
  repeat apply conj.
  - intros H. unfold parse_selection. now rewrite H.
  - intros nums Hc Hn. unfold parse_selection.
    rewrite (comma_not_zero _ Hc), Hc, Hn. split.
    + apply pick_all_in_range.
    + apply pick_all_out_of_range.
  - intros Hc Hn. unfold parse_selection.
    now rewrite (comma_not_zero _ Hc), Hc, Hn.
  - intros n H0 Hc Hn. unfold parse_selection.
    apply String.eqb_neq in H0. rewrite H0, Hc, Hn. split; intros Hr; rewrite Hr.
    + destruct (in_range_nth_error _ _ Hr) as [c E]. exists c. now rewrite E.
    + reflexivity.
  - intros n Hn. unfold select_accounts. rewrite Hn. repeat apply conj.
    + now intros ->.
    + intros Hr. destruct (in_range_nth_error _ _ Hr) as [acc E]. exists acc.
      split; [exact E|]. fold (in_range n (List.length valid_accounts)).
      rewrite Hr, E.
      destruct (Z.eqb_spec n 0) as [->|]; [discriminate Hr | reflexivity].
    + intros H0 Hr. fold (in_range n (List.length valid_accounts)). rewrite Hr.
      apply Z.eqb_neq in H0. now rewrite H0.
  - intros Hc. unfold select_accounts.
    rewrite int_of_string_comma; [reflexivity|].
    now rewrite contains_strip.
Qed.

Lemma selection_syntax_witness :
  parse_selection (sub_accounts_of main_and_five) (Some " 1, 7 ") = None
  /\ select_accounts (map (overview (Some "P1") 300%float) two_statuses)
       (Some "1,2") = None.
Proof.
  pose proof (@selection_syntax (sub_accounts_of main_and_five)
                (map (overview (Some "P1") 300%float) two_statuses) " 1, 7 ")
    as [_ [H _]].
  pose proof (@selection_syntax (sub_accounts_of main_and_five)
                (map (overview (Some "P1") 300%float) two_statuses) "1,2")
    as [_ [_ [_ [_ [_ K]]]]].
  split.
  - apply (proj2 (H [1; 7]%Z eq_refl eq_refl)).
    apply Exists_cons_tl, Exists_cons_hd. reflexivity.
  - apply K. reflexivity.
Defined.

(** *** Credentials *)

Lemma has_credentials_keys (i : account_info) :
  has_credentials i = true ->
  truthy (apikey i) = true /\ truthy (secret i) = true.
Proof.
  unfold has_credentials. intros H.
  apply andb_prop in H as [H Hs]. apply andb_prop in H as [_ Hk]. now split.
Qed.

Lemma queried_accounts_nil (cfg : config) :
  queried_accounts cfg = []
  <-> (forall id i, In (id, i) (config_accounts cfg) -> has_credentials i = false).
Proof.
  unfold queried_accounts. split.
  - intros E id i Hin.
    destruct (has_credentials i) eqn:C; [|reflexivity].
    assert (K : In (id, i) (filter (fun kv => has_credentials (snd kv))
                              (config_accounts cfg)))
      by (apply filter_In; split; [exact Hin | exact C]).
    rewrite E in K. destruct K.
  - intros H. induction (config_accounts cfg) as [|[id i] t IH]; [reflexivity|].
    simpl. rewrite (H id i) by (left; reflexivity).
    apply IH. intros id' i' Hin. apply (H id' i'). now right.
Qed.

Lemma queried_accounts_in (cfg : config) (id : string) (i : account_info) :
  In (id, i) (queried_accounts cfg) ->
  In (id, i) (config_accounts cfg)
  /\ truthy (apikey i) = true /\ truthy (secret i) = true.
Proof.
  unfold queried_accounts. intros H. apply filter_In in H as [H C].
  split; [exact H | now apply has_credentials_keys].
Qed.

Lemma select_accounts_incl (valid_accounts sel : list valid_account)
  (choice : option string) :
  select_accounts valid_accounts choice = Some sel -> incl sel valid_accounts.
Proof.
  unfold select_accounts. destruct choice as [raw|]; [|discriminate].
  destruct (int_of_string (strip raw)) as [n|]; [|discriminate].
  destruct (n =? 0)%Z.
  - intros [= <-]. apply incl_refl.
  - destruct ((1 <=? n)%Z && (n <=? Z.of_nat (List.length valid_accounts))%Z);
      [|discriminate].
    destruct (nth_error valid_accounts (Z.to_nat (n - 1))) as [acc|] eqn:E;
      [|discriminate].
    intros [= <-] x [<-|[]]. eapply nth_error_In. exact E.
Qed.

Lemma plan_operations_account (oc : string) (L : float)
  (sel : list valid_account) (op : operation) :
  In op (plan_operations oc L sel) ->
  exists acc, In acc sel /\ op_account_id op = va_id acc.
Proof.
  unfold plan_operations. intros H. apply in_flat_map in H as [acc [Hin Hop]].
  exists acc. split; [exact Hin|].
  unfold plan_account in Hop.
  repeat match type of Hop with
         | In _ (if ?b then _ else _) => destruct b
         end;
    simpl in Hop; try contradiction; destruct Hop as [<-|[]]; reflexivity.
Qed.

(** Every operation returned by the savings planner is for an account of
    the statuses it was given. *)
Lemma step3_operation_account (selected_product : product)
  (account_status : dict status) (choice op_choice confirm : option string)
  (ops : list operation) (op : operation) :
  step3_user_selection selected_product account_status choice op_choice confirm
  = Some ops ->
  In op ops ->
  exists st, In (op_account_id op, st) account_status.
Proof.
  unfold step3_user_selection.
  destruct (apyList selected_product) as [|a rest]; [discriminate|].
  set (L := tier1_limit_of (a :: rest)).
  destruct (select_accounts _ choice) as [sel|] eqn:S; [|discriminate].
  destruct op_choice as [raw|]; [|discriminate].
  destruct (negb _); [discriminate|].
  destruct (plan_operations (strip raw) L sel) as [|o os] eqn:P.
  - intros [= <-] [].
  - destruct (confirmed confirm); [|discriminate].
    intros [= <-] Hin. rewrite <- P in Hin.
    apply plan_operations_account in Hin as [acc [Hacc ->]].
    apply (select_accounts_incl _ _ S) in Hacc.
    apply in_map_iff in Hacc as [[id st] [<- Hkv]]. now exists st.
Qed.

Lemma pick_all_incl (candidates : list sub_account) (nums : list Z) :
  forall sel, pick_all candidates nums = Some sel -> incl sel candidates.
Proof.
  induction nums as [|n t IH]; simpl.
  - intros sel [= <-] x [].
  - intros sel. destruct (in_range n (List.length candidates)); [|discriminate].
    destruct (nth_error candidates (Z.to_nat (n - 1))) as [c|] eqn:E;
      [|discriminate].
    destruct (pick_all candidates t) as [cs|]; [|discriminate].
    intros [= <-] x [<-|Hx].
    + eapply nth_error_In. exact E.
    + now apply (IH cs).
Qed.

Lemma parse_selection_incl (candidates sel : list sub_account)
  (typed : option string) :
  parse_selection candidates typed = Some sel -> incl sel candidates.
Proof.
  unfold parse_selection. destruct typed as [raw|]; [|discriminate].
  destruct (String.eqb (strip raw) "0").
  - intros [= <-]. apply incl_refl.
  - destruct (contains "," (strip raw)).
    + destruct (ints_of_strings _) as [nums|]; [|discriminate].
      apply pick_all_incl.
    + destruct (int_of_string (strip raw)) as [n|]; [|discriminate].
      destruct (in_range n (List.length candidates)); [|discriminate].
      destruct (nth_error candidates (Z.to_nat (n - 1))) as [c|] eqn:E;
        [|discriminate].
      intros [= <-] x [<-|[]]. eapply nth_error_In. exact E.
Qed.

Lemma finish_in (operations ops : list transfer) (a : answers) (t : transfer) :
  finish operations a = Some ops -> In t ops -> In t operations.
Proof.
  unfold finish. destruct operations as [|o os].
  - now intros [= <-].
  - destruct (confirmed (confirm a)); [|discriminate]. now intros [= <-].
Qed.

Lemma firstn_incl (A : Type) (n : nat) (l : list A) : incl (firstn n l) l.
Proof.
  intros x H. rewrite <- (firstn_skipn n l). apply in_or_app. now left.
Qed.

Lemma sub_accounts_of_in (account_balances : dict balance_info)
  (sub : sub_account) :
  In sub (sub_accounts_of account_balances) ->
  exists b, In (sub_id sub, b) account_balances.
Proof.
  unfold sub_accounts_of. intros H.
  apply in_flat_map in H as [[id b] [Hin Hsub]]. simpl in Hsub.
  destruct (opt_string_eqb _ _); [destruct Hsub|].
  destruct Hsub as [<-|[]]. now exists b.
Qed.

Lemma main_balance_without_main (account_balances : dict balance_info) :
  (forall id b, In (id, b) account_balances ->
                opt_string_eqb (acc_type (balance_account_info b)) (Some "main")
                = false) ->
  forall acc, fold_left
                (fun acc kv =>
                   if opt_string_eqb
                        (acc_type (balance_account_info (snd kv))) (Some "main")
                   then available_of (snd kv) else acc)
                account_balances acc = acc.
Proof.
  induction account_balances as [|[id b] t IH]; intros H acc; simpl.
  - reflexivity.
  - rewrite (H id b) by (left; reflexivity).
    apply IH. intros id' b' Hin. apply (H id' b'). now right.
Qed.

Lemma main_entry_or_none (account_balances : dict balance_info) :
  (exists id b,
      In (id, b) account_balances
      /\ opt_string_eqb (acc_type (balance_account_info b)) (Some "main") = true)
  \/ (forall id b,
         In (id, b) account_balances ->
         opt_string_eqb (acc_type (balance_account_info b)) (Some "main") = false).
Proof.
  induction account_balances as [|[id b] t [[id' [b' [Hin E]]] | IH]].
  - right. intros id b [].
  - left. exists id', b'. split; [now right | exact E].
  - destruct (opt_string_eqb (acc_type (balance_account_info b)) (Some "main"))
      eqn:E.
    + left. exists id, b. split; [now left | exact E].
    + right. intros id' b' [[= <- <-] | Hin]; [exact E | now apply (IH id')].
Qed.

Ltac break_plan H :=
  repeat match type of H with
         | context [match ?x with _ => _ end] =>
             let E := fresh "E" in
             destruct x eqn:E; try discriminate H
         end.

(** Every transfer returned by the transfer planner is for a sub-account of
    the balances it was given, and a transfer from the main account needs a
    main account among them. *)
Lemma transfer_operation_account (account_balances : dict balance_info)
  (a : answers) (ops : list transfer) (t : transfer) :
  transfer_step2_user_selection account_balances a = Ret (Some ops) ->
  In t ops ->
  (exists b, In (sub_account_side t, b) account_balances)
  /\ (t_type t = main_to_sub ->
      exists id b,
        In (id, b) account_balances
        /\ opt_string_eqb (acc_type (balance_account_info b)) (Some "main")
           = true).
Proof.
  unfold transfer_step2_user_selection.
  destruct (direction_choice a) as [raw|]; [|discriminate].
  destruct (String.eqb (strip raw) "1").
  - unfold plan_main_to_sub.
    destruct (main_balance_of account_balances <=? fzero)%float eqn:M;
      [discriminate|].
    assert (Hmain : exists id b,
               In (id, b) account_balances
               /\ opt_string_eqb (acc_type (balance_account_info b))
                    (Some "main") = true).
    { destruct (main_entry_or_none account_balances) as [H|H]; [exact H|].
      unfold main_balance_of in M.
      rewrite (main_balance_without_main _ H) in M. discriminate M. }
    destruct (amount_text a) as [| |per]; try discriminate.
    destruct (per <=? fzero)%float; [discriminate|].
    destruct (parse_selection _ (target_choice a)) as [sel|] eqn:S;
      [|discriminate].
    assert (K : forall used : list sub_account,
               incl used sel ->
               finish (map (to_sub per) used) a = Some ops ->
               In t ops ->
               (exists b, In (sub_account_side t, b) account_balances)
               /\ (t_type t = main_to_sub ->
                   exists id b,
                     In (id, b) account_balances
                     /\ opt_string_eqb (acc_type (balance_account_info b))
                          (Some "main") = true)).
    { intros used Hu Hf Hin. split; [|intros _; exact Hmain].
      apply (@finish_in _ _ _ _ Hf) in Hin.
      apply in_map_iff in Hin as [sub [<- Hsub]].
      apply Hu, (@parse_selection_incl _ _ _ S), sub_accounts_of_in in Hsub.
      exact Hsub. }
    destruct (main_balance_of account_balances <? _)%float.
    + unfold reduce_targets.
      destruct (int_of_float _) as [k|e]; simpl.
      * destruct (0 <? k)%Z; [|discriminate].
        destruct (confirmed (auto_select a)); [|discriminate].
        simpl. intros [= Hf]. apply (K _ (@firstn_incl _ _ _) Hf).
      * destruct e; discriminate.
    + intros [= Hf]. apply (K _ (incl_refl _) Hf).
  - destruct (String.eqb (strip raw) "2"); [|discriminate].
    intros [= Hp] Hin. split.
    2:{ intros Ht. exfalso. unfold plan_sub_to_main in Hp.
        break_plan Hp;
          apply (@finish_in _ _ _ _ Hp) in Hin;
          apply in_map_iff in Hin as [sub [<- _]]; discriminate Ht. }
    unfold plan_sub_to_main in Hp.
    set (with_balance :=
           filter (fun sub => (fzero <? balance sub)%float)
             (sub_accounts_of account_balances)) in *.
    assert (W : incl with_balance (sub_accounts_of account_balances))
      by (intros x Hx; apply filter_In in Hx; tauto).
    destruct with_balance as [|w ws] eqn:EW; [discriminate|].
    rewrite <- EW in *. clear EW.
    destruct (transfer_mode a) as [mode|]; [|discriminate].
    destruct (String.eqb (strip mode) "1").
    + destruct (parse_selection with_balance (source_choice a)) as [sel|] eqn:S;
        [|discriminate].
      apply (@finish_in _ _ _ _ Hp) in Hin.
      apply in_map_iff in Hin as [sub [<- Hsub]].
      apply (@parse_selection_incl _ _ _ S), W, sub_accounts_of_in in Hsub.
      exact Hsub.
    + destruct (String.eqb (strip mode) "2"); [|discriminate].
      destruct (amount_text a) as [| |per]; try discriminate.
      destruct (per <=? fzero)%float; [discriminate|].
      set (eligible :=
             filter (fun sub => (per <=? balance sub)%float) with_balance) in *.
      assert (G : incl eligible with_balance)
        by (intros x Hx; apply filter_In in Hx; tauto).
      destruct eligible as [|g gs] eqn:EG; [discriminate|].
      rewrite <- EG in *. clear EG.
      destruct (parse_selection eligible (source_choice a)) as [sel|] eqn:S;
        [|discriminate].
      apply (@finish_in _ _ _ _ Hp) in Hin.
      apply in_map_iff in Hin as [sub [<- Hsub]].
      apply (@parse_selection_incl _ _ _ S), G, W, sub_accounts_of_in in Hsub.
      exact Hsub.
Qed.



End TransferFacts.

(* ================================================================== *)
(** ** The slot registry *)

Module RegistryFacts.
Import Py Registry Examples.

(** *** Dictionaries *)

Lemma dict_get_set (V : Type) (d : dict V) (k k' : string) (v : V) :
  dict_get (dict_set d k v) k'
  = if String.eqb k' k then Some v else dict_get d k'.
Proof.
  induction d as [|[k1 v1] t IH]; simpl.
  - reflexivity.
  - destruct (String.eqb_spec k k1) as [->|Hk]; simpl.
    + destruct (String.eqb k' k1); reflexivity.
    + rewrite IH. destruct (String.eqb_spec k' k1) as [->|]; [|reflexivity].
      apply String.eqb_neq in Hk. rewrite String.eqb_sym in Hk. now rewrite Hk.
Qed.

Lemma str_of_nat_inj (i j : nat) : str_of_nat i = str_of_nat j -> i = j.
Proof.
  unfold str_of_nat. intros H.
  apply (f_equal NilEmpty.uint_of_string) in H.
  rewrite !NilEmpty.usu in H. injection H as H.
  now apply Unsigned.to_uint_inj.
Qed.

(** *** Sorting *)

Section Sorting.
Variable A : Type.

Lemma insert_by_key_comm (x y : Z * A) (s : list (Z * A)) :
  fst x <> fst y ->
  insert_by_key x (insert_by_key y s) = insert_by_key y (insert_by_key x s).
Proof.
  intros N. induction s as [|h t IH]; simpl.
  - destruct (Z.leb_spec (fst x) (fst y)), (Z.leb_spec (fst y) (fst x));
      (reflexivity || lia).
  - destruct (Z.leb_spec (fst y) (fst h)), (Z.leb_spec (fst x) (fst h)); simpl;
      repeat match goal with
             | |- context [(?a <=? ?b)%Z] => destruct (Z.leb_spec a b)
             end;
      try reflexivity; try lia.
    now rewrite IH.
Qed.

Lemma sort_keyed_permutation (a b : list (Z * A)) :
  Permutation a b -> NoDup (map fst a) -> sort_keyed a = sort_keyed b.
Proof.
  induction 1 as [|x l l' P IH|x y l|l l' l'' P1 IH1 P2 IH2]; intros D.
  - reflexivity.
  - simpl. rewrite IH; [reflexivity|]. now inversion D.
  - simpl. apply insert_by_key_comm.
    simpl in D. inversion D as [|? ? Hy _]; subst.
    intros E. apply Hy. left. now symmetry.
  - rewrite IH1 by exact D. apply IH2.
    eapply Permutation_NoDup; [|exact D]. now apply Permutation_map.
Qed.

Lemma insert_by_key_perm (x : Z * A) (s : list (Z * A)) :
  Permutation (insert_by_key x s) (x :: s).
Proof.
  induction s as [|h t IH]; simpl; [reflexivity|].
  destruct (fst x <=? fst h)%Z; [reflexivity|].
  rewrite IH. apply perm_swap.
Qed.

Lemma sort_keyed_perm (l : list (Z * A)) : Permutation (sort_keyed l) l.
Proof.
  induction l as [|x t IH]; simpl; [reflexivity|].
  rewrite insert_by_key_perm. now constructor.
Qed.

End Sorting.

(** *** The sorted exchange list *)

Section SortedByUid.

(** The number [int] gives for the uid of a sub-account that has one. *)
Let number (x : subaccount) : Z :=
  match uid_key x with
  | Ret z => z
  | Raise _ => 0%Z
  end.

Let keyed (x : subaccount) : outcome (Z * subaccount) :=
  k <- uid_key x ;; Ret (k, x).

Lemma mapM_uid_key (l : list subaccount) (ks : list Z) :
  mapM uid_key l = Ret ks ->
  ks = map number l /\ Forall (fun x => uid_key x = Ret (number x)) l.
Proof.
  revert ks. induction l as [|x t IH]; simpl; intros ks.
  - intros [= <-]. split; [reflexivity | constructor].
  - destruct (uid_key x) as [k|e] eqn:E; simpl; [|discriminate].
    destruct (mapM uid_key t) as [ks'|e]; simpl; [|discriminate].
    intros [= <-]. destruct (IH ks' eq_refl) as [-> F].
    assert (N : number x = k) by (unfold number; now rewrite E).
    rewrite N. split; [reflexivity|].
    constructor; [now rewrite N | exact F].
Qed.

Lemma mapM_keyed (l : list subaccount) :
  Forall (fun x => uid_key x = Ret (number x)) l ->
  mapM keyed l = Ret (map (fun x => (number x, x)) l).
Proof.
  induction 1 as [|x t Hx _ IH]; simpl; [reflexivity|].
  unfold keyed at 1. rewrite Hx. simpl. now rewrite IH.
Qed.

Lemma sorted_is_permutation (l srt : list subaccount) :
  sorted uid_key l = Ret srt -> Permutation srt l.
Proof.
  unfold sorted. fold keyed.
  destruct (mapM keyed l) as [kl|e] eqn:E; simpl; [|discriminate].
  intros [= <-].
  assert (S : map snd kl = l).
  { revert kl E. induction l as [|x t IH]; simpl; intros kl.
    - now intros [= <-].
    - unfold keyed at 1. destruct (uid_key x) as [k|e]; simpl; [|discriminate].
      destruct (mapM keyed t) as [kl'|e]; simpl; [|discriminate].
      intros [= <-]. simpl. now rewrite (IH kl' eq_refl). }
  rewrite <- S. apply Permutation_map, sort_keyed_perm.
Qed.

Lemma sorted_defined (l : list subaccount) (ks : list Z) :
  mapM uid_key l = Ret ks -> exists srt, sorted uid_key l = Ret srt.
Proof.
  intros H. apply mapM_uid_key in H as [_ F].
  unfold sorted. fold keyed. rewrite (mapM_keyed F). simpl. eauto.
Qed.

(** Two orders of the same sub-accounts, with numeric and distinct uids,
    sort to the same list. *)
Lemma sorted_permutation (l1 l2 : list subaccount) (ks : list Z) :
  Permutation l1 l2 ->
  mapM uid_key l1 = Ret ks ->
  NoDup ks ->
  sorted uid_key l1 = sorted uid_key l2.
Proof.
  intros P H D. apply mapM_uid_key in H as [-> F1].
  assert (F2 : Forall (fun x => uid_key x = Ret (number x)) l2)
    by (eapply Permutation_Forall; eassumption).
  unfold sorted. fold keyed.
  rewrite (mapM_keyed F1), (mapM_keyed F2). simpl. do 2 f_equal.
  apply sort_keyed_permutation.
  - now apply Permutation_map.
  - now rewrite map_map, (map_ext _ number) by reflexivity.
Qed.

End SortedByUid.

(** C3 (as stated, fails). With five sub-accounts on the exchange, two
    orders of the same list give different answers: listed in ascending
    order the configuration with the uids 100 to 400 is up to date, listed
    in descending order it is not, and its slots are rebuilt from the uids
    200 to 500. *)
Lemma slots_depend_on_order_beyond_target :
  Permutation five_ascending five_descending
  /\ check_config_needs_update (Some four_slots) five_ascending = Ret false
  /\ check_config_needs_update (Some four_slots) five_descending = Ret true
  /\ update_config_with_subaccounts (Some four_slots) five_ascending
     = Ret (true, Some four_slots)
  /\ update_config_with_subaccounts (Some four_slots) five_descending
     = Ret (true,
            Some (mk_config
                    (Some [("main", info "main" "1000" "k0");
                           ("1", info "sub" "200" "keyB");
                           ("2", info "sub" "300" "keyC");
                           ("3", info "sub" "400" "keyD");
                           ("4", mk_account_info (Some "sub") (Some "500")
                                   (Some "") (Some "") (Some ""))])
                    [])).
Proof.
  split.
  - apply (Permutation_rev five_ascending).
  - repeat split; vm_compute; reflexivity.
Qed.

(** C3 (amended). For two exchange lists that are permutations of one
    another, hold at most the target count of sub-accounts and have numeric,
    pairwise distinct uids, the needs-update check and the slot rebuild give
    identical results: the slots do not depend on the order in which the
    exchange returned the sub-accounts. *)
Theorem slots_independent_of_order (loaded : option config)
  (l1 l2 : list subaccount) (ks : list Z) :
  Permutation l1 l2 ->
  List.length l1 <= TARGET_SUBACCOUNT_COUNT ->
  mapM uid_key l1 = Ret ks ->
  NoDup ks ->
  check_config_needs_update loaded l1 = check_config_needs_update loaded l2
  /\ update_config_with_subaccounts loaded l1
     = update_config_with_subaccounts loaded l2.
Proof.
  intros P Hlen Hk D.
  assert (S : subaccounts_sorted l1 = subaccounts_sorted l2).
  { unfold subaccounts_sorted.
    rewrite !firstn_all2
      by (try rewrite <- (Permutation_length P); exact Hlen).
    eapply sorted_permutation; eassumption. }
  unfold check_config_needs_update, update_config_with_subaccounts.
  now rewrite S.
Qed.

Lemma slots_independent_of_order_witness :
  check_config_needs_update (Some two_slots)
    [exchange_sub "200"; exchange_sub "100"; exchange_sub "300"]
  = check_config_needs_update (Some two_slots)
      [exchange_sub "300"; exchange_sub "100"; exchange_sub "200"]
  /\ update_config_with_subaccounts (Some two_slots)
       [exchange_sub "200"; exchange_sub "100"; exchange_sub "300"]
     = update_config_with_subaccounts (Some two_slots)
         [exchange_sub "300"; exchange_sub "100"; exchange_sub "200"].
Proof.
  refine (@slots_independent_of_order (Some two_slots)
            [exchange_sub "200"; exchange_sub "100"; exchange_sub "300"]
            [exchange_sub "300"; exchange_sub "100"; exchange_sub "200"]
            [200; 100; 300]%Z _ _ eq_refl _).
  - apply (Permutation_rev
             [exchange_sub "200"; exchange_sub "100"; exchange_sub "300"]).
  - simpl. unfold TARGET_SUBACCOUNT_COUNT. lia.
  - repeat constructor; simpl; intuition discriminate.
Defined.

(** *** The credentials remembered by uid *)

Lemma remember_other (m : dict credentials) (kv : string * account_info)
  (u : string) :
  ~ (is_sub (snd kv) = true /\ uuid (snd kv) = Some u) ->
  u <> "" ->
  dict_get (remember m kv) u = dict_get m u.
Proof.
  intros N Hu. unfold remember.
  destruct (is_sub (snd kv)) eqn:S; simpl; [|reflexivity].
  destruct (uuid (snd kv)) as [[|c t]|] eqn:U; simpl; try reflexivity.
  rewrite dict_get_set.
  destruct (String.eqb_spec u (String c t)) as [->|]; [|reflexivity].
  exfalso. apply N. now split.
Qed.

Lemma remember_same (m : dict credentials) (kv : string * account_info)
  (u : string) :
  is_sub (snd kv) = true -> uuid (snd kv) = Some u -> u <> "" ->
  dict_get (remember m kv) u = Some (credentials_of (snd kv)).
Proof.
  intros S U Hu. unfold remember. rewrite S, U. simpl.
  destruct u as [|c t]; [congruence|]. simpl.
  rewrite dict_get_set. now rewrite String.eqb_refl.
Qed.

Lemma sub_with_uid_dec (i : account_info) (u : string) :
  (is_sub i = true /\ uuid i = Some u)
  \/ ~ (is_sub i = true /\ uuid i = Some u).
Proof.
  destruct (is_sub i); [|right; intros [? _]; discriminate].
  destruct (uuid i) as [v|]; [|right; intros [_ ?]; discriminate].
  destruct (string_dec v u) as [->|N]; [left; auto|].
  right. intros [_ [= E]]. now apply N.
Qed.

(** A uid carried by some old sub entry, all such entries agreeing on the
    credentials [c], is remembered with [c]. *)
Lemma remembered_known (u : string) (c : credentials) :
  u <> "" ->
  forall (l : dict account_info) (m : dict credentials),
    (forall k i, In (k, i) l -> is_sub i = true -> uuid i = Some u ->
                 credentials_of i = c) ->
    (exists k i, In (k, i) l /\ is_sub i = true /\ uuid i = Some u)
    \/ dict_get m u = Some c ->
    dict_get (fold_left remember l m) u = Some c.
Proof.
  intros Hu. induction l as [|[k i] t IH]; intros m A H; simpl.
  - destruct H as [[k [i [[] _]]] | H]. exact H.
  - apply IH.
    + intros k' i' Hin. apply (A k' i'). now right.
    + destruct (sub_with_uid_dec i u) as [[S U] | N].
      * right. rewrite (@remember_same m (k, i) u S U Hu).
        f_equal. apply (A k i); auto. now left.
      * rewrite (@remember_other m (k, i) u N Hu).
        destruct H as [[k' [i' [[E | Hin] [S U]]]] | H].
        -- injection E as -> ->. exfalso. apply N. now split.
        -- left. now exists k', i'.
        -- now right.
Qed.

(** A uid carried by no old sub entry is not remembered. *)
Lemma remembered_unknown (u : string) :
  u <> "" ->
  forall (l : dict account_info) (m : dict credentials),
    (forall k i, In (k, i) l -> is_sub i = true -> uuid i <> Some u) ->
    dict_get m u = None ->
    dict_get (fold_left remember l m) u = None.
Proof.
  intros Hu. induction l as [|[k i] t IH]; intros m A H; simpl.
  - exact H.
  - apply IH.
    + intros k' i' Hin. apply (A k' i'). now right.
    + rewrite remember_other; [exact H | | exact Hu].
      simpl. intros [S U]. apply (A k i); auto. now left.
Qed.

(** *** The slots written *)

(** The second loop succeeds when the configuration has accounts; it writes
    the entry of the [j]-th sub-account under [str(i + j + 1)] and leaves
    every other key as it was. *)
Lemma record_slots_spec (m : dict credentials) (l : list subaccount) :
  forall (i : nat) (d : dict account_info),
  exists d',
    record_slots m i l (Some d) = Ret (Some d')
    /\ (forall j sub,
          nth_error l j = Some sub ->
          dict_get d' (str_of_nat (i + j + 1)) = Some (slot_entry m sub))
    /\ (forall k,
          (forall j, j < List.length l -> k <> str_of_nat (i + j + 1)) ->
          dict_get d' k = dict_get d k).
Proof.
  induction l as [|sub t IH]; intros i d; simpl.
  - exists d. repeat split; try reflexivity. intros [|j] sub'; discriminate.
  - destruct (IH (S i) (dict_set d (str_of_nat (i + 1)) (slot_entry m sub)))
      as [d' [R [W K]]].
    exists d'. split; [exact R|]. split.
    + intros [|j] sub' Hj; simpl in Hj.
      * injection Hj as <-. rewrite K.
        -- rewrite dict_get_set, Nat.add_0_r. now rewrite String.eqb_refl.
        -- intros j _ E. apply str_of_nat_inj in E. lia.
      * replace (i + S j + 1) with (S i + j + 1) by lia. now apply W.
    + intros k Hk. rewrite K.
      * rewrite dict_get_set.
        destruct (String.eqb_spec k (str_of_nat (i + 1))) as [E|]; [|reflexivity].
        exfalso. apply (Hk 0); [lia|]. now rewrite Nat.add_0_r.
      * intros j Hj. replace (S i + j + 1) with (i + S j + 1) by lia.
        apply Hk. lia.
Qed.

Lemma mapM_in (A B : Type) (f : A -> outcome B) (l : list A) (ys : list B)
  (x : A) :
  mapM f l = Ret ys -> In x l -> exists y, f x = Ret y.
Proof.
  revert ys. induction l as [|h t IH]; simpl; intros ys H []; subst.
  - destruct (f x) as [y|]; [now exists y | discriminate].
  - destruct (f h); simpl in H; [|discriminate].
    destruct (mapM f t) as [ys'|]; [|discriminate]. now apply (IH ys').
Qed.

Lemma uid_key_not_empty (sub : subaccount) (u : string) (k : Z) :
  uid_key sub = Ret k -> subAccountUid sub = Some u -> u <> "".
Proof.
  unfold uid_key. intros H U E. rewrite U, E in H. discriminate H.
Qed.



(** The rebuild writes the slots [1..N] only: every other key of the old
    accounts keeps its entry. *)
Lemma rebuild_keeps_other_slots (d : dict account_info) (others : list string)
  (subaccounts : list subaccount) (ks : list Z) :
  mapM uid_key (firstn TARGET_SUBACCOUNT_COUNT subaccounts) = Ret ks ->
  exists d',
    update_config_with_subaccounts (Some (mk_config (Some d) others))
      subaccounts
    = Ret (true, Some (mk_config (Some d') others))
    /\ forall k,
        (forall j,
            j < List.length (firstn TARGET_SUBACCOUNT_COUNT subaccounts) ->
            k <> str_of_nat (j + 1)) ->
        dict_get d' k = dict_get d k.
Proof.
  intros Hk. destruct (sorted_defined _ Hk) as [srt Hs].
  unfold update_config_with_subaccounts, subaccounts_sorted.
  cbn [config_truthy accounts other_keys negb].
  rewrite Hs. cbn [bind].
  set (m := existing_uuid_to_config (mk_config (Some d) others)).
  destruct (record_slots_spec m srt 0 d) as [d' [R [_ K]]].
  rewrite R. cbn [bind]. exists d'. split; [reflexivity|].
  intros k Hk'. apply K. intros j Hj. apply Hk'.
  now rewrite <- (Permutation_length (sorted_is_permutation _ Hs)).
Qed.

(** C5 (the code departs from it). With the slots 1 to 4 configured and
    two sub-accounts left on the exchange, the rebuild rewrites the slots 1
    and 2 and keeps the stale slots 3 and 4: the sub-account slot ids are
    still 1 to 4, not 1 to 2, and the needs-update check, which compares
    the number of sub slots with the number of exchange sub-accounts, still
    asks for an update of the configuration just written. *)
Theorem stale_slots_survive_rebuild :
  update_config_with_subaccounts (Some four_slots)
    [exchange_sub "100"; exchange_sub "200"]
  = Ret (true, Some four_slots)
  /\ sub_slot_ids four_slots = ["1"; "2"; "3"; "4"]
  /\ check_config_needs_update (Some four_slots)
       [exchange_sub "100"; exchange_sub "200"]
     = Ret true.
Proof.
  repeat split; vm_compute; reflexivity.
Qed.

End RegistryFacts.

(* ================================================================== *)
(** ** More about the slot registry *)

Module RegistryMore.
Import Py Registry Examples RegistryFacts.

(** *** Keys of a dictionary *)

Lemma dict_set_keys (V : Type) (d : dict V) (k : string) (v : V) :
  forall k', In k' (map fst (dict_set d k v)) <-> k' = k \/ In k' (map fst d).
Proof.
  induction d as [|[k1 v1] t IH]; simpl; intros k'.
  - intuition.
  - destruct (String.eqb_spec k k1) as [->|N]; simpl.
    + intuition.
    + rewrite IH. intuition.
Qed.

Lemma dict_set_nodup (V : Type) (d : dict V) (k : string) (v : V) :
  NoDup (map fst d) -> NoDup (map fst (dict_set d k v)).
Proof.
  induction d as [|[k1 v1] t IH]; simpl; intros D.
  - constructor; [intros [] | constructor].
  - inversion D as [|? ? Hn Ht]; subst.
    destruct (String.eqb_spec k k1) as [->|N]; simpl.
    + now constructor.
    + constructor; [|now apply IH].
      rewrite dict_set_keys. intros [E|H]; [now apply N | now apply Hn].
Qed.

Lemma dict_get_in (V : Type) (d : dict V) (k : string) (v : V) :
  NoDup (map fst d) -> (dict_get d k = Some v <-> In (k, v) d).
Proof.
  induction d as [|[k1 v1] t IH]; simpl; intros D.
  - split; [discriminate | intros []].
  - inversion D as [|? ? Hn Ht]; subst.
    destruct (String.eqb_spec k k1) as [->|N].
    + split.
      * intros [= ->]. now left.
      * intros [[= ->]|H]; [reflexivity|].
        exfalso. apply Hn. now apply (in_map fst) in H.
    + rewrite (IH Ht). split; [now right|].
      intros [[= E _]|H]; [now symmetry in E | exact H].
Qed.

Lemma filter_keys_nodup (V : Type) (f : string * V -> bool) (d : dict V) :
  NoDup (map fst d) -> NoDup (map fst (filter f d)).
Proof.
  induction d as [|kv t IH]; simpl; intros D; [constructor|].
  inversion D as [|? ? Hn Ht]; subst.
  destruct (f kv); simpl; [|now apply IH].
  constructor; [|now apply IH].
  intros H. apply Hn. apply in_map_iff in H as [kv' [E H]].
  apply filter_In in H as [H _]. rewrite <- E. now apply in_map.
Qed.

Lemma record_slots_nodup (m : dict credentials) (l : list subaccount) :
  forall (i : nat) (d d' : dict account_info),
    record_slots m i l (Some d) = Ret (Some d') ->
    NoDup (map fst d) -> NoDup (map fst d').
Proof.
  induction l as [|sub t IH]; simpl; intros i d d' H D.
  - now injection H as <-.
  - eapply IH; [exact H|]. now apply dict_set_nodup.
Qed.

(** The keys after the second loop are the old keys and [str(i + j + 1)]
    for the sub-accounts written. *)
Lemma record_slots_keys (m : dict credentials) (l : list subaccount) :
  forall (i : nat) (d d' : dict account_info),
    record_slots m i l (Some d) = Ret (Some d') ->
    forall k,
      In k (map fst d')
      <-> In k (map fst d)
          \/ exists j, j < List.length l /\ k = str_of_nat (i + j + 1).
Proof.
  induction l as [|sub t IH]; simpl; intros i d d' H k.
  - injection H as <-. split; [now left|].
    intros [H|[j [Hj _]]]; [exact H | lia].
  - rewrite (IH _ _ _ H k), dict_set_keys. split.
    + intros [[->|Hk]|[j [Hj ->]]].
      * right. exists 0. split; [lia|]. now rewrite Nat.add_0_r.
      * now left.
      * right. exists (S j). split; [lia|]. f_equal. lia.
    + intros [Hk|[[|j] [Hj ->]]].
      * left. now right.
      * left. left. now rewrite Nat.add_0_r.
      * right. exists j. split; [lia|]. f_equal. lia.
Qed.

Lemma opt_string_eqb_refl (o : option string) : opt_string_eqb o o = true.
Proof. destruct o; simpl; [apply String.eqb_refl | reflexivity]. Qed.

Lemma slot_entry_is_sub (m : dict credentials) (sub : subaccount) :
  is_sub (slot_entry m sub) = true /\ uuid (slot_entry m sub) = subAccountUid sub.
Proof. unfold slot_entry. now destruct (dict_get m _). Qed.

Lemma uuid_order_agrees (existing : dict account_info) (l : list subaccount) :
  forall i : nat,
    (forall j sub,
        nth_error l j = Some sub ->
        exists e,
          dict_get existing (str_of_nat (i + j + 1)) = Some e
          /\ uuid e = subAccountUid sub) ->
    uuid_order_differs existing i l = false.
Proof.
  induction l as [|sub t IH]; intros i H; simpl; [reflexivity|].
  destruct (H 0 sub eq_refl) as [e [G U]].
  rewrite Nat.add_0_r in G. rewrite G, U, opt_string_eqb_refl. simpl.
  apply IH. intros j sub' Hj.
  replace (S i + j + 1) with (i + S j + 1) by lia. now apply H.
Qed.

Lemma slot_names_nodup (n : nat) :
  NoDup (map (fun j => str_of_nat (j + 1)) (seq 0 n)).
Proof.
  assert (G : forall l, NoDup l ->
                        NoDup (map (fun j => str_of_nat (j + 1)) l)).
  { induction 1 as [|x l Hx _ IH]; simpl; constructor; [|exact IH].
    intros H. apply in_map_iff in H as [y [E Hy]].
    apply str_of_nat_inj in E. replace x with y in Hx by lia. now apply Hx. }
  apply G, seq_NoDup.
Qed.

(** The slots just recorded are found up to date by the needs-update
    check, when the keys of the old accounts are distinct and every old sub
    entry sits in one of the slots [1..N]. *)
Lemma recorded_slots_are_up_to_date (d d' : dict account_info)
  (others : list string) (subaccounts srt : list subaccount) :
  NoDup (map fst d) ->
  sorted uid_key (firstn TARGET_SUBACCOUNT_COUNT subaccounts) = Ret srt ->
  (forall k i,
      In (k, i) d -> is_sub i = true ->
      exists j,
        j < List.length (firstn TARGET_SUBACCOUNT_COUNT subaccounts)
        /\ k = str_of_nat (j + 1)) ->
  record_slots (existing_uuid_to_config (mk_config (Some d) others)) 0 srt
    (Some d)
  = Ret (Some d') ->
  check_config_needs_update (Some (mk_config (Some d') others)) subaccounts
  = Ret false.
Proof.
  intros D Hs Hstale R0.
  pose proof (Permutation_length (sorted_is_permutation _ Hs)) as Hlen.
  unfold check_config_needs_update, subaccounts_sorted.
  cbn [config_truthy accounts other_keys negb].
  rewrite Hs. cbn [bind].
  set (m := existing_uuid_to_config (mk_config (Some d) others)) in *.
  destruct (record_slots_spec m srt 0 d) as [d'' [R [W K]]].
  rewrite R0 in R. injection R as <-. rename R0 into R.
  unfold existing_sub_accounts, config_accounts. cbn [accounts].
  set (existing := filter (fun kv => is_sub (snd kv)) d').
  pose proof (@record_slots_nodup _ _ _ _ _ R D) as D'.
  pose proof (@filter_keys_nodup _ (fun kv => is_sub (snd kv)) d' D') as DE.
  fold existing in DE.
  assert (A : forall j sub,
             nth_error srt j = Some sub ->
             dict_get existing (str_of_nat (j + 1)) = Some (slot_entry m sub)).
  { intros j sub Hj. apply (@dict_get_in _ _ _ _ DE).
    apply filter_In. split; [|apply slot_entry_is_sub].
    apply (@dict_get_in _ _ _ _ D'). exact (W j sub Hj). }
  assert (C : List.length existing = List.length srt).
  { transitivity
      (List.length
         (map (fun j => str_of_nat (j + 1)) (seq 0 (List.length srt))));
      [|now rewrite length_map, length_seq].
    rewrite <- (length_map fst existing).
    apply Permutation_length, NoDup_Permutation;
      [exact DE | apply slot_names_nodup |].
    intros k. split.
    - intros Hin.
      destruct (in_dec string_dec k
                  (map (fun j => str_of_nat (j + 1)) (seq 0 (List.length srt))))
        as [Y|N]; [exact Y|].
      exfalso. apply in_map_iff in Hin as [[k' e] [E Hin]].
      simpl in E. subst k'.
      apply filter_In in Hin as [Hin Hsub]. simpl in Hsub.
      apply (@dict_get_in _ _ _ _ D') in Hin.
      rewrite K in Hin.
      + apply (@dict_get_in _ _ _ _ D) in Hin.
        destruct (Hstale k e Hin Hsub) as [j [Hj ->]].
        apply N. apply in_map_iff. exists j. split; [reflexivity|].
        apply in_seq. lia.
      + intros j Hj E. apply N. apply in_map_iff. exists j.
        split; [now rewrite E|]. apply in_seq. lia.
    - intros Hin. apply in_map_iff in Hin as [j [<- Hj]].
      apply in_seq in Hj.
      destruct (nth_error srt j) as [sub|] eqn:Hn.
      + apply (in_map fst) with (x := (str_of_nat (j + 1), slot_entry m sub)).
        apply (@dict_get_in _ _ _ _ DE). now apply A.
      + apply nth_error_None in Hn. lia. }
  rewrite C, Nat.eqb_refl. cbn [negb]. f_equal.
  apply uuid_order_agrees. intros j sub Hj.
  exists (slot_entry m sub). split; [now apply A | apply slot_entry_is_sub].
Qed.

(** X1. Rebuilding brings the configuration up to date: when the keys of
    the old accounts are distinct, the uids of the exchange sub-accounts are
    numeric and every old sub entry sits in one of the slots [1..N], the
    needs-update check run on the configuration just saved, with the same
    exchange list, answers that no update is needed. *)
Theorem rebuild_brings_up_to_date (d : dict account_info)
  (others : list string) (subaccounts : list subaccount) (ks : list Z) :
  NoDup (map fst d) ->
  mapM uid_key (firstn TARGET_SUBACCOUNT_COUNT subaccounts) = Ret ks ->
  (forall k i,
      In (k, i) d -> is_sub i = true ->
      exists j,
        j < List.length (firstn TARGET_SUBACCOUNT_COUNT subaccounts)
        /\ k = str_of_nat (j + 1)) ->
  exists saved,
    update_config_with_subaccounts (Some (mk_config (Some d) others))
      subaccounts
    = Ret (true, Some saved)
    /\ check_config_needs_update (Some saved) subaccounts = Ret false.
Proof.
  intros D Hk Hstale.
  destruct (sorted_defined _ Hk) as [srt Hs].
  unfold update_config_with_subaccounts, subaccounts_sorted.
  cbn [config_truthy accounts other_keys negb].
  rewrite Hs. cbn [bind].
  destruct (record_slots_spec
              (existing_uuid_to_config (mk_config (Some d) others)) srt 0 d)
    as [d' [R _]].
  rewrite R. cbn [bind].
  exists (mk_config (Some d') others). split; [reflexivity|].
  exact (@recorded_slots_are_up_to_date d d' others subaccounts srt D Hs
           Hstale R).
Qed.

Lemma rebuild_brings_up_to_date_witness :
  exists saved,
    update_config_with_subaccounts (Some two_slots)
      [exchange_sub "200"; exchange_sub "100"; exchange_sub "300"]
    = Ret (true, Some saved)
    /\ check_config_needs_update (Some saved)
         [exchange_sub "200"; exchange_sub "100"; exchange_sub "300"]
       = Ret false.
Proof.
  refine (@rebuild_brings_up_to_date
            [("main", info "main" "1000" "k0");
             ("1", info "sub" "100" "keyA");
             ("2", info "sub" "200" "keyB")]
            []
            [exchange_sub "200"; exchange_sub "100"; exchange_sub "300"]
            [200; 100; 300]%Z _ eq_refl _).
  - repeat constructor; simpl; intuition discriminate.
  - intros k i [E|[E|[E|[]]]] S; injection E as <- <-.
    + discriminate S.
    + exists 0. split; [simpl; lia | reflexivity].
    + exists 1. split; [simpl; lia | reflexivity].
Defined.

(** *** The order of the slots *)

Section Ascending.
Variable A : Type.

Let by_key (p q : Z * A) : Prop := (fst p <= fst q)%Z.

Lemma insert_by_key_sorted (x : Z * A) (s : list (Z * A)) :
  StronglySorted by_key s -> StronglySorted by_key (insert_by_key x s).
Proof.
  induction 1 as [|h t St IH Fh]; simpl.
  - constructor; constructor.
  - destruct (Z.leb_spec (fst x) (fst h)).
    + constructor; [now constructor|].
      constructor; [exact H|].
      eapply Forall_impl; [|exact Fh]. unfold by_key. intros q Hq. lia.
    + constructor; [exact IH|].
      eapply Permutation_Forall.
      * symmetry. apply insert_by_key_perm.
      * constructor; [unfold by_key; lia | exact Fh].
Qed.

Lemma sort_keyed_sorted (l : list (Z * A)) :
  StronglySorted by_key (sort_keyed l).
Proof.
  induction l as [|x t IH]; simpl; [constructor|].
  now apply insert_by_key_sorted.
Qed.

Lemma sorted_positions (l : list (Z * A)) :
  StronglySorted by_key l ->
  forall i j p q,
    i < j -> nth_error l i = Some p -> nth_error l j = Some q ->
    (fst p <= fst q)%Z.
Proof.
  induction 1 as [|h t St IH Fh]; intros i j p q Hij Hi Hj.
  - destruct i; discriminate.
  - destruct j as [|j]; [lia|]. simpl in Hj. destruct i as [|i]; simpl in Hi.
    + injection Hi as <-. apply nth_error_In in Hj.
      rewrite Forall_forall in Fh. now apply Fh.
    + apply (IH i j); [lia | exact Hi | exact Hj].
Qed.

End Ascending.

Lemma keyed_elements (l : list subaccount) :
  forall kl,
    mapM (fun x => k <- uid_key x ;; Ret (k, x)) l = Ret kl ->
    Forall (fun p => uid_key (snd p) = Ret (fst p)) kl.
Proof.
  induction l as [|x t IH]; simpl; intros kl.
  - intros [= <-]. constructor.
  - destruct (uid_key x) as [k|e] eqn:E; simpl; [|discriminate].
    destruct (mapM _ t) as [kl'|e]; simpl; [|discriminate].
    intros [= <-]. constructor; [exact E | now apply IH].
Qed.

(** The sorted exchange list ascends by the number of the uid. *)
Lemma sorted_ascends (l srt : list subaccount) :
  sorted uid_key l = Ret srt ->
  forall i j a b za zb,
    i < j -> nth_error srt i = Some a -> nth_error srt j = Some b ->
    uid_key a = Ret za -> uid_key b = Ret zb -> (za <= zb)%Z.
Proof.
  unfold sorted.
  destruct (mapM _ l) as [kl|e] eqn:E; simpl; [|discriminate].
  intros [= <-] i j a b za zb Hij Hi Hj Ha Hb.
  apply keyed_elements in E.
  assert (F : Forall (fun p => uid_key (snd p) = Ret (fst p)) (sort_keyed kl))
    by (eapply Permutation_Forall; [symmetry; apply sort_keyed_perm | exact E]).
  rewrite Forall_forall in F.
  rewrite nth_error_map in Hi, Hj.
  destruct (nth_error (sort_keyed kl) i) as [p|] eqn:Pi; [|discriminate].
  destruct (nth_error (sort_keyed kl) j) as [q|] eqn:Pj; [|discriminate].
  injection Hi as <-. injection Hj as <-.
  pose proof (F p (nth_error_In _ _ Pi)) as Fp.
  pose proof (F q (nth_error_In _ _ Pj)) as Fq.
  rewrite Fp in Ha. rewrite Fq in Hb. injection Ha as <-. injection Hb as <-.
  exact (sorted_positions (sort_keyed_sorted kl) Hij Pi Pj).
Qed.

(** X2. The slots follow the numbers of the uids, not their text: after a
    rebuild, whenever slot [i + 1] comes before slot [j + 1] among the [N]
    slots written, the uid of the first, read as a number, is at most the
    uid of the second. *)
Theorem slots_ascend_by_numeric_uid (d : dict account_info)
  (others : list string) (subaccounts : list subaccount) (ks : list Z) :
  mapM uid_key (firstn TARGET_SUBACCOUNT_COUNT subaccounts) = Ret ks ->
  exists d',
    update_config_with_subaccounts (Some (mk_config (Some d) others))
      subaccounts
    = Ret (true, Some (mk_config (Some d') others))
    /\ forall i j e1 e2 u1 u2 z1 z2,
        i < j ->
        j < List.length (firstn TARGET_SUBACCOUNT_COUNT subaccounts) ->
        dict_get d' (str_of_nat (i + 1)) = Some e1 ->
        dict_get d' (str_of_nat (j + 1)) = Some e2 ->
        uuid e1 = Some u1 -> uuid e2 = Some u2 ->
        int_of_string u1 = Some z1 -> int_of_string u2 = Some z2 ->
        (z1 <= z2)%Z.
Proof.
  intros Hk. destruct (sorted_defined _ Hk) as [srt Hs].
  pose proof (Permutation_length (sorted_is_permutation _ Hs)) as Hlen.
  unfold update_config_with_subaccounts, subaccounts_sorted.
  cbn [config_truthy accounts other_keys negb].
  rewrite Hs. cbn [bind].
  set (m := existing_uuid_to_config (mk_config (Some d) others)).
  destruct (record_slots_spec m srt 0 d) as [d' [R [W _]]].
  rewrite R. cbn [bind]. exists d'. split; [reflexivity|].
  intros i j e1 e2 u1 u2 z1 z2 Hij Hj G1 G2 U1 U2 Z1 Z2.
  destruct (nth_error srt i) as [a|] eqn:Na;
    [|apply nth_error_None in Na; lia].
  destruct (nth_error srt j) as [b|] eqn:Nb;
    [|apply nth_error_None in Nb; lia].
  pose proof (W i a Na) as Wi. pose proof (W j b Nb) as Wj.
  cbn [Nat.add] in Wi, Wj. rewrite Wi in G1. rewrite Wj in G2.
  injection G1 as <-. injection G2 as <-.
  rewrite (proj2 (slot_entry_is_sub m a)) in U1.
  rewrite (proj2 (slot_entry_is_sub m b)) in U2.
  apply (sorted_ascends _ Hs Hij Na Nb); unfold uid_key.
  - now rewrite U1, Z1.
  - now rewrite U2, Z2.
Qed.

Lemma slots_ascend_by_numeric_uid_witness :
  exists d',
    update_config_with_subaccounts (Some two_slots)
      [exchange_sub "90"; exchange_sub "1000"; exchange_sub "200"]
    = Ret (true, Some (mk_config (Some d') [])).
Proof.
  destruct (@slots_ascend_by_numeric_uid
              [("main", info "main" "1000" "k0");
               ("1", info "sub" "100" "keyA");
               ("2", info "sub" "200" "keyB")]
              []
              [exchange_sub "90"; exchange_sub "1000"; exchange_sub "200"]
              [90; 1000; 200]%Z eq_refl)
    as [d' [E _]].
  exists d'. exact E.
Defined.

Lemma str_of_nat_not_main (n : nat) : str_of_nat n <> "main".
Proof.
  unfold str_of_nat. intros E.
  apply (f_equal NilEmpty.uint_of_string) in E.
  rewrite NilEmpty.usu in E. discriminate E.
Qed.

(** X3. A rebuild never touches the main account: the entry under ['main'],
    like the entry under any key that is not the decimal text of a number,
    and the other top-level keys of the configuration are saved as they
    were loaded. *)
Theorem rebuild_keeps_main_account (d : dict account_info)
  (others : list string) (subaccounts : list subaccount) (ks : list Z) :
  mapM uid_key (firstn TARGET_SUBACCOUNT_COUNT subaccounts) = Ret ks ->
  exists saved,
    update_config_with_subaccounts (Some (mk_config (Some d) others))
      subaccounts
    = Ret (true, Some saved)
    /\ other_keys saved = others
    /\ dict_get (config_accounts saved) "main" = dict_get d "main"
    /\ forall k,
        (forall n, k <> str_of_nat n) ->
        dict_get (config_accounts saved) k = dict_get d k.
Proof.
  intros Hk.
  destruct (rebuild_keeps_other_slots d others subaccounts Hk) as [d' [E K]].
  exists (mk_config (Some d') others). split; [exact E|].
  split; [reflexivity|]. cbn [config_accounts accounts]. split.
  - apply K. intros j _ H. now apply (str_of_nat_not_main (j + 1)).
  - intros k Hn. apply K. intros j _. apply Hn.
Qed.

Lemma rebuild_keeps_main_account_witness :
  exists saved,
    update_config_with_subaccounts (Some two_slots)
      [exchange_sub "200"; exchange_sub "100"; exchange_sub "300"]
    = Ret (true, Some saved)
    /\ dict_get (config_accounts saved) "main"
       = Some (info "main" "1000" "k0").
Proof.
  destruct (@rebuild_keeps_main_account
              [("main", info "main" "1000" "k0");
               ("1", info "sub" "100" "keyA");
               ("2", info "sub" "200" "keyB")]
              []
              [exchange_sub "200"; exchange_sub "100"; exchange_sub "300"]
              [200; 100; 300]%Z eq_refl)
    as [saved [E [_ [M _]]]].
  exists saved. split; [exact E | exact M].
Defined.

End RegistryMore.

(* ================================================================== *)
(** ** More about the two planners *)

Module PlannerMore.
Import Py Registry Savings Transfer PyFacts Examples MoreExamples TransferFacts.

Lemma tenth_is_positive (w : float) :
  (min_subscribe <=? w)%float = true -> (fzero <? w)%float = true.
Proof.
  rewrite leb_spec, ltb_spec.
  change (Prim2SF fzero) with (S754_zero false).
  set (t := Prim2SF min_subscribe). vm_compute in t. subst t.
  unfold SFleb, SFltb.
  destruct (Prim2SF w) as [s|s| |s m e]; simpl; try discriminate;
    destruct s; simpl; congruence.
Qed.

Lemma plan_operations_in (oc : string) (L : float) (sel : list valid_account)
  (op : operation) :
  In op (plan_operations oc L sel) ->
  exists acc, In acc sel /\ In op (plan_account oc L acc).
Proof.
  unfold plan_operations. intros H. apply in_flat_map in H as [acc [H1 H2]].
  now exists acc.
Qed.

(** The bounds of a deposit that is planned. *)
Lemma planned_deposit_bounds (w x : float) :
  (min_subscribe <=? py_min w (py_max fzero x))%float = true ->
  (py_min w (py_max fzero x) <=? w)%float = true
  /\ (py_min w (py_max fzero x) <=? x)%float = true.
Proof.
  unfold py_min, py_max. intros H.
  destruct (fzero <? x)%float eqn:X.
  - destruct (x <? w)%float eqn:C.
    + split; [now apply ltb_leb|].
      apply leb_refl. exact (proj1 (ltb_is_number C)).
    + pose proof (proj2 (leb_is_number H)) as Nw.
      split; [now apply leb_refl|].
      apply not_ltb_leb; [exact (proj2 (ltb_is_number X)) | exact Nw | exact C].
  - destruct (fzero <? w)%float eqn:C.
    + discriminate H.
    + apply tenth_is_positive in H. congruence.
Qed.

(** X4. A planned subscription never exceeds what the account can give or
    take: every operation returned under fill-to-tier-1 is a subscription
    for one of the accounts queried, of at least 0.1, at most the wallet
    balance read for that account and at most the room left under the
    ceiling of the first tier ([tier1_limit - holding]). *)
Theorem fill_amount_bound (selected_product : product)
  (account_status : dict status) (choice confirm : option string)
  (raw : string) (ops : list operation) (op : operation) :
  strip raw = "1" ->
  step3_user_selection selected_product account_status choice (Some raw) confirm
  = Some ops ->
  In op ops ->
  exists st,
    In (op_account_id op, st) account_status
    /\ op_action op = subscribe
    /\ (min_subscribe <=? amount op)%float = true
    /\ (amount op <=? wallet_available (wallet_result st))%float = true
    /\ (amount op
        <=? tier1_limit_of (apyList selected_product)
            - personal_holding (productId selected_product) (savings_result st))%float
       = true.
Proof.
  intros Hraw. unfold step3_user_selection.
  destruct (apyList selected_product) as [|a rest] eqn:EA; [discriminate|].
  set (L := tier1_limit_of (a :: rest)).
  destruct (select_accounts _ choice) as [sel|] eqn:S; [|discriminate].
  rewrite Hraw. cbn [String.eqb Ascii.eqb Bool.eqb orb negb].
  destruct (plan_operations "1" L sel) as [|o os] eqn:P.
  - intros [= <-] [].
  - destruct (confirmed confirm); [|discriminate].
    intros [= <-] Hin. rewrite <- P in Hin.
    apply plan_operations_in in Hin as [acc [Hacc Hop]].
    apply (select_accounts_incl _ _ S) in Hacc.
    apply in_map_iff in Hacc as [[id st] [<- Hkv]].
    exists st. unfold plan_account in Hop.
    cbn [String.eqb Ascii.eqb Bool.eqb overview fst snd wallet space_to_tier1
           va_id va_name] in Hop.
    destruct (min_subscribe <=? _)%float eqn:M in Hop; [|destruct Hop].
    destruct Hop as [<-|[]]. cbn [op_account_id op_action amount].
    destruct (planned_deposit_bounds _ _ M) as [B1 B2].
    repeat split; assumption.
Qed.

Lemma fill_amount_bound_witness :
  exists st,
    In ("2", st) two_statuses
    /\ (50 <=? wallet_available (wallet_result st))%float = true.
Proof.
  destruct (@fill_amount_bound two_tiers two_statuses (Some "2") (Some "y")
              "1" [mk_operation "2" "子帳戶2" subscribe 50%float]
              (mk_operation "2" "子帳戶2" subscribe 50%float)
              eq_refl eq_refl (or_introl eq_refl))
    as [st [H1 [_ [_ [H2 _]]]]].
  exists st. split; [exact H1 | exact H2].
Defined.

(** X5. Nothing is handed to the executor without the user's consent: a
    plan that [step3_user_selection] returns with at least one operation
    was confirmed with [y] (in either case, spaces around it ignored), on a
    product with tiers and for one of the three strategies. *)
Theorem savings_plan_needs_confirmation (selected_product : product)
  (account_status : dict status) (choice op_choice confirm : option string)
  (ops : list operation) :
  step3_user_selection selected_product account_status choice op_choice confirm
  = Some ops ->
  ops <> [] ->
  confirmed confirm = true
  /\ apyList selected_product <> []
  /\ exists raw,
      op_choice = Some raw
      /\ (strip raw = "1" \/ strip raw = "2" \/ strip raw = "3").
Proof.
  unfold step3_user_selection.
  destruct (apyList selected_product) as [|a rest]; [discriminate|].
  destruct (select_accounts _ choice) as [sel|]; [|discriminate].
  destruct op_choice as [raw|]; [|discriminate].
  destruct (String.eqb_spec (strip raw) "1") as [E1|_];
    [|destruct (String.eqb_spec (strip raw) "2") as [E2|_];
      [|destruct (String.eqb_spec (strip raw) "3") as [E3|_]]];
    cbn [orb negb]; try discriminate;
    (destruct (plan_operations _ _ sel) as [|o os];
     [intros [= <-] N; now elim N|]);
    (destruct (confirmed confirm); [|discriminate]);
    intros _ _; (split; [reflexivity|]); (split; [discriminate|]);
    exists raw; auto.
Qed.

Lemma savings_plan_needs_confirmation_witness :
  confirmed (Some " Y ") = true.
Proof.
  exact (proj1 (@savings_plan_needs_confirmation two_tiers two_statuses
                  (Some "2") (Some "1") (Some " Y ")
                  [mk_operation "2" "子帳戶2" subscribe 50%float]
                  eq_refl ltac:(discriminate))).
Defined.

Lemma finish_some (operations ops : list transfer) (a : answers) :
  finish operations a = Some ops ->
  ops = operations /\ (ops <> [] -> confirmed (confirm a) = true).
Proof.
  unfold finish. destruct operations as [|o os].
  - intros [= <-]. split; [reflexivity | intros N; now elim N].
  - destruct (confirmed (confirm a)); [|discriminate].
    intros [= <-]. split; reflexivity.
Qed.

(** X6. A transfer plan out of the main account keeps the amount typed and
    the order of the selection: the operations returned are transfers of
    exactly the amount per account, positive, to the first so many of the
    selected targets. The plan is shorter than the selection only when the
    total exceeded the main balance and the reduced plan was accepted with
    [y]; and a plan with at least one transfer was confirmed with [y]. *)
Theorem main_to_sub_plan_shape (account_balances : dict balance_info)
  (a : answers) (raw : string) (ops : list transfer) :
  direction_choice a = Some raw ->
  strip raw = "1" ->
  transfer_step2_user_selection account_balances a = Ret (Some ops) ->
  exists per_account selected n,
    amount_text a = Amount per_account
    /\ (per_account <=? fzero)%float = false
    /\ parse_selection (sub_accounts_of account_balances) (target_choice a)
       = Some selected
    /\ ops = map (to_sub per_account) (firstn n selected)
    /\ ((main_balance_of account_balances
         <? per_account * float_of_nat (List.length selected))%float = false ->
        ops = map (to_sub per_account) selected)
    /\ ((main_balance_of account_balances
         <? per_account * float_of_nat (List.length selected))%float = true ->
        confirmed (auto_select a) = true)
    /\ (ops <> [] -> confirmed (confirm a) = true).
Proof.
  intros Hd Hs. unfold transfer_step2_user_selection. rewrite Hd, Hs.
  cbn [String.eqb Ascii.eqb Bool.eqb].
  unfold plan_main_to_sub.
  destruct (main_balance_of account_balances <=? fzero)%float; [discriminate|].
  destruct (amount_text a) as [| |per]; try discriminate.
  destruct (per <=? fzero)%float eqn:P; [discriminate|].
  destruct (parse_selection _ (target_choice a)) as [sel|] eqn:S;
    [|discriminate].
  destruct (main_balance_of account_balances <? _)%float eqn:O.
  - unfold reduce_targets.
    destruct (int_of_float _) as [k|e]; cbn [bind];
      [|destruct e; discriminate].
    destruct (0 <? k)%Z; [|discriminate].
    destruct (confirmed (auto_select a)) eqn:C; [|discriminate].
    cbn [bind]. intros [= F]. apply finish_some in F as [-> F].
    exists per, sel, (Z.to_nat k).
    repeat split; try reflexivity; try assumption; intros H; congruence.
  - intros [= F]. apply finish_some in F as [-> F].
    exists per, sel, (List.length sel).
    rewrite firstn_all.
    repeat split; try reflexivity; try assumption; intros H; congruence.
Qed.

Lemma main_to_sub_plan_shape_witness :
  exists per_account selected n,
    amount_text thirty_to_all = Amount per_account
    /\ parse_selection (sub_accounts_of main_and_five) (Some "0") = Some selected
    /\ [mk_transfer main_to_sub "main" "1" (Some "101") 30%float;
        mk_transfer main_to_sub "main" "2" (Some "102") 30%float;
        mk_transfer main_to_sub "main" "3" (Some "103") 30%float]
       = map (to_sub per_account) (firstn n selected).
Proof.
  destruct (@main_to_sub_plan_shape main_and_five thirty_to_all "1"
              [mk_transfer main_to_sub "main" "1" (Some "101") 30%float;
               mk_transfer main_to_sub "main" "2" (Some "102") 30%float;
               mk_transfer main_to_sub "main" "3" (Some "103") 30%float]
              eq_refl eq_refl ltac:(vm_compute; reflexivity))
    as [per [sel [n [H1 [_ [H2 [H3 _]]]]]]].
  exists per, sel, n. repeat split; assumption.
Defined.

(** X7. A transfer back to the main account never asks a sub-account for
    more than it holds: every such transfer returned comes from one of the
    sub-accounts queried, whose balance is above zero and at least the
    amount of the transfer, and goes to ['main']. *)
Theorem transfer_back_within_balance (account_balances : dict balance_info)
  (a : answers) (ops : list transfer) (t : transfer) :
  transfer_step2_user_selection account_balances a = Ret (Some ops) ->
  In t ops ->
  t_type t = sub_to_main ->
  exists sub,
    In sub (sub_accounts_of account_balances)
    /\ t = to_main (t_amount t) sub
    /\ (fzero <? balance sub)%float = true
    /\ (t_amount t <=? balance sub)%float = true.
Proof.
  unfold transfer_step2_user_selection.
  destruct (direction_choice a) as [raw|]; [|discriminate].
  destruct (String.eqb (strip raw) "1") eqn:D1.
  - intros H Hin Ht. exfalso.
    apply String.eqb_eq in D1.
    assert (Hd : direction_choice a = direction_choice a) by reflexivity.
    unfold plan_main_to_sub in H.
    destruct (main_balance_of account_balances <=? fzero)%float;
      [discriminate|].
    destruct (amount_text a) as [| |per]; try discriminate.
    destruct (per <=? fzero)%float; [discriminate|].
    destruct (parse_selection _ (target_choice a)) as [sel|]; [|discriminate].
    destruct (main_balance_of account_balances <? _)%float.
    + unfold reduce_targets in H.
      destruct (int_of_float _) as [k|e]; cbn [bind] in H;
        [|destruct e; discriminate].
      destruct (0 <? k)%Z; [|discriminate].
      destruct (confirmed (auto_select a)); [|discriminate].
      cbn [bind] in H. injection H as F. apply finish_some in F as [-> _].
      apply in_map_iff in Hin as [sub [<- _]]. discriminate Ht.
    + injection H as F. apply finish_some in F as [-> _].
      apply in_map_iff in Hin as [sub [<- _]]. discriminate Ht.
  - destruct (String.eqb (strip raw) "2"); [|discriminate].
    intros [= Hp] Hin _. unfold plan_sub_to_main in Hp.
    set (with_balance :=
           filter (fun sub => (fzero <? balance sub)%float)
             (sub_accounts_of account_balances)) in *.
    assert (W : forall x, In x with_balance ->
                          In x (sub_accounts_of account_balances)
                          /\ (fzero <? balance x)%float = true)
      by (intros x Hx; apply filter_In in Hx; exact Hx).
    destruct with_balance as [|w ws] eqn:EW; [discriminate|].
    rewrite <- EW in *. clear EW.
    destruct (transfer_mode a) as [mode|]; [|discriminate].
    destruct (String.eqb (strip mode) "1").
    + destruct (parse_selection with_balance (source_choice a)) as [sel|] eqn:S;
        [|discriminate].
      apply finish_some in Hp as [-> _].
      apply in_map_iff in Hin as [sub [<- Hsub]].
      apply (@parse_selection_incl _ _ _ S), W in Hsub as [Hsub Hpos].
      exists sub. repeat split; try assumption.
      cbn [t_amount to_main]. apply leb_refl.
      exact (proj2 (ltb_is_number Hpos)).
    + destruct (String.eqb (strip mode) "2"); [|discriminate].
      destruct (amount_text a) as [| |per]; try discriminate.
      destruct (per <=? fzero)%float; [discriminate|].
      set (eligible :=
             filter (fun sub => (per <=? balance sub)%float) with_balance) in *.
      assert (G : forall x, In x eligible ->
                            In x with_balance
                            /\ (per <=? balance x)%float = true)
        by (intros x Hx; apply filter_In in Hx; exact Hx).
      destruct eligible as [|g gs] eqn:EG; [discriminate|].
      rewrite <- EG in *. clear EG.
      destruct (parse_selection eligible (source_choice a)) as [sel|] eqn:S;
        [|discriminate].
      apply finish_some in Hp as [-> _].
      apply in_map_iff in Hin as [sub [<- Hsub]].
      apply (@parse_selection_incl _ _ _ S), G in Hsub as [Hsub Hge].
      apply W in Hsub as [Hsub Hpos].
      exists sub. repeat split; assumption.
Qed.

Lemma transfer_back_within_balance_witness :
  exists sub,
    In sub (sub_accounts_of subs_with_funds)
    /\ mk_transfer sub_to_main "1" "main" (Some "101") 50%float
       = to_main 50%float sub
    /\ (50 <=? balance sub)%float = true.
Proof.
  destruct (@transfer_back_within_balance subs_with_funds fifty_back_from_all
              [mk_transfer sub_to_main "1" "main" (Some "101") 50%float]
              (mk_transfer sub_to_main "1" "main" (Some "101") 50%float)
              ltac:(vm_compute; reflexivity) (or_introl eq_refl) eq_refl)
    as [sub [H1 [H2 [_ H3]]]].
  exists sub. repeat split; assumption.
Defined.

End PlannerMore.

(* ================================================================== *)
(** ** Requests to the exchange: what is sent and what is saved *)

Module GatewayFacts.
Import Py Registry Savings Transfer Gateway PyFacts RegistryFacts RegistryMore
  Examples MoreExamples.

(** *** The uid of the main account *)

Section MainUidFacts.
Variable W : Type.
Variable exchange : W -> account_info -> unit -> W * attempt info_response.

(** X8. When [ensure_main_account_uid] returns [True], the uid of the main
    account can be read afterwards: [get_main_account_uid], run on the
    configuration saved (or on the one loaded when nothing was saved),
    gives a non-empty uid. When the uid was already recorded, the exchange
    is not asked and nothing is saved. *)
Theorem ensured_uid_is_readable (loaded : option config) (w w' : W)
  (log : list (account_info * unit)) (saved : option config) :
  ensure_main_account_uid exchange loaded w = (w', log, (true, saved)) ->
  truthy (get_main_account_uid
            (match saved with
             | Some c => Some c
             | None => loaded
             end)) = true
  /\ (truthy (get_main_account_uid loaded) = true ->
      w' = w /\ log = [] /\ saved = None).
Proof.
  unfold ensure_main_account_uid, get_main_account_uid.
  destruct loaded as [cfg|]; [|discriminate].
  destruct (config_truthy cfg) eqn:T; cbn [negb]; [|discriminate].
  destruct (truthy
              match dict_get (config_accounts cfg) "main" with
              | Some i => uuid i
              | None => None
              end) eqn:U.
  - intros [= <- <- <-]. rewrite T, U. auto.
  - intros [= <- <- E]. split; [|discriminate].
    destruct (snd (make_bitget_request _ _ _ _ _ _)) as [r|x]; [|discriminate].
    destruct (is_success (info_code r)); [|discriminate].
    destruct (truthy (userId r)) eqn:V; [|discriminate].
    destruct (accounts cfg) as [d|]; [|discriminate].
    destruct (dict_get (config_accounts cfg) "main") as [i|]; [|discriminate].
    injection E as <-.
    cbn [config_truthy accounts config_accounts]. rewrite dict_get_set.
    cbn [String.eqb Ascii.eqb Bool.eqb uuid with_uuid]. exact V.
Qed.


End MainUidFacts.

Lemma ensured_uid_is_readable_witness :
  truthy (get_main_account_uid
            (Some (mk_config
                     (Some [("main", with_uuid main_without_uid (Some "1000"));
                            ("1", sub1)])
                     ["note"]))) = true.
Proof.
  exact (proj1 (@ensured_uid_is_readable unit tells_uid (Some uid_not_recorded)
                  tt tt [(main_without_uid, tt)]
                  (Some (mk_config
                           (Some [("main",
                                   with_uuid main_without_uid (Some "1000"));
                                  ("1", sub1)])
                           ["note"]))
                  eq_refl)).
Defined.


(** *** The execution of transfers *)

Section TransferExecution.
Variable W : Type.
Variable exchange :
  W -> account_info -> transfer_request -> W * attempt (option string).

(** X10. Without a recorded uid of the main account the executor sends
    nothing: whatever the plan, no request reaches the exchange and no
    operation is counted as a success. *)
Theorem no_transfer_without_main_uid (loaded : option config) (coin : string) :
  truthy (get_main_account_uid loaded) = false ->
  forall (operations : list transfer) (w : W)
         (log : list (account_info * transfer_request)) (success_count : nat),
    transfer_step3_execute_operations exchange loaded coin operations w log
      success_count
    = (w, log, success_count).
Proof.
  intros U. induction operations as [|op t IH]; intros w log sc; simpl.
  - reflexivity.
  - assert (E : execute_transfer exchange loaded coin w op
                = (w, [], Returned (Some "ERROR"))).
    { unfold execute_transfer, transfer_to_subaccount.
      destruct (get_main_account_uid loaded) as [[|c u]|];
        try discriminate U; now destruct (t_type op). }
    rewrite E. cbn [fst snd succeeded]. rewrite app_nil_r.
    change (is_success (Some "ERROR")) with false. apply IH.
Qed.


End TransferExecution.

Lemma no_transfer_without_main_uid_witness :
  transfer_step3_execute_operations fails_once (Some uid_not_recorded) "USDT"
    out_and_back 0 [] 0
  = (0, [], 0).
Proof.
  exact (@no_transfer_without_main_uid nat fails_once (Some uid_not_recorded)
           "USDT" eq_refl out_and_back 0 [] 0).
Defined.


(** *** The execution of subscriptions and redemptions *)

Lemma Forall2_with_left (A B : Type) (P : A -> Prop) (R : A -> B -> Prop)
  (l : list A) (l' : list B) :
  Forall P l -> Forall2 R l l' -> Forall2 (fun a b => P a /\ R a b) l l'.
Proof.
  intros F H. induction H as [|a b l l' Hab _ IH]; [constructor|].
  inversion F; subst. constructor; [now split | now apply IH].
Qed.

Section SavingsExecution.
Variable W : Type.
Variable exchange :
  W -> account_info -> savings_request -> W * attempt (option string).

(** When the account of each operation is configured with its three
    credential keys, the executor sends one request per operation, in
    order, each signed by the account of its operation. *)
Lemma step4_sends_each (loaded : option config)
  (product_id period_type : option string) (operations : list operation) :
  Forall (fun op =>
            op_account_id op <> ""
            /\ exists i,
                get_account_config loaded (op_account_id op) = Some i
                /\ secret i <> None /\ apikey i <> None
                /\ passphrase i <> None)
    operations ->
  forall (w w' : W) (log log' : list (account_info * savings_request))
         (success_count success_count' : nat),
    step4_execute_operations exchange loaded product_id period_type operations
      w log success_count
    = (w', log', success_count') ->
    exists new,
      log' = log ++ new
      /\ Forall2
           (fun op e =>
              get_account_config loaded (op_account_id op) = Some (fst e)
              /\ snd e
                 = mk_savings_request (op_action op) (py_str product_id)
                     period_type (amount op))
           operations new
      /\ success_count' <= success_count + List.length operations.
Proof.
  induction 1 as [|op t [Hid [i [G [Hs [Hk Hp]]]]] _ IH];
    intros w w' log log' sc sc'; simpl.
  - intros [= <- <- <-]. exists []. rewrite app_nil_r.
    split; [reflexivity|]. split; [constructor | lia].
  - set (request := mk_savings_request (op_action op) (py_str product_id)
                      period_type (amount op)).
    assert (E : execute_operation exchange loaded product_id period_type w op
                = (fst (exchange w i request), [(i, request)],
                   snd (exchange w i request))).
    { unfold execute_operation, make_bitget_request.
      destruct (op_account_id op) as [|c k] eqn:K; [now elim Hid|].
      rewrite G.
      assert (N : account_is_empty i = false).
      { unfold account_is_empty.
        destruct (acc_type i), (uuid i), (apikey i); try reflexivity.
        now elim Hk. }
      rewrite N.
      destruct (secret i), (apikey i), (passphrase i); try congruence.
      reflexivity. }
    rewrite E. cbn [fst snd]. intros H.
    apply IH in H as [new [-> [F B]]].
    exists ((i, request) :: new). rewrite <- app_assoc.
    split; [reflexivity|]. split.
    + constructor; [now split | exact F].
    + destruct (succeeded _); lia.
Qed.


End SavingsExecution.


(** *** API keys for the sub-accounts *)

(** The accounts to do are the sub entries that lack a key, in the order of
    the configuration, each with its uid. *)
Lemma subaccounts_to_create_spec (d : dict account_info)
  (todo : list (string * string)) :
  subaccounts_to_create d = Ret todo ->
  map (fun p => (fst p, Some (snd p))) todo
  = map (fun p => (fst p, uuid (snd p)))
      (filter (fun p => lacks_apikey (snd p)) d).
Proof.
  revert todo.
  induction d as [|[k e] t IH]; cbn [subaccounts_to_create filter snd];
    intros todo.
  - intros [= <-]. reflexivity.
  - destruct (lacks_apikey e); [|apply IH].
    destruct (uuid e) as [u|] eqn:U; [|discriminate].
    destruct (subaccounts_to_create t) as [rest|x]; [|discriminate].
    cbn [bind]. intros [= <-]. cbn [map fst snd]. rewrite U.
    f_equal. now apply IH.
Qed.

Lemma todo_in_config (d : dict account_info) (todo : list (string * string))
  (k u : string) :
  subaccounts_to_create d = Ret todo -> In (k, u) todo ->
  exists e, In (k, e) d /\ lacks_apikey e = true /\ uuid e = Some u.
Proof.
  intros S I. apply subaccounts_to_create_spec in S.
  apply (in_map (fun p => (fst p, Some (snd p)))) in I.
  rewrite S in I. cbn [fst snd] in I.
  apply in_map_iff in I as [[k' e] [E F]].
  apply filter_In in F as [F L]. cbn [fst snd] in *.
  injection E as -> U. exists e. auto.
Qed.

Lemma config_in_todo (d : dict account_info) (todo : list (string * string))
  (k : string) (e : account_info) :
  subaccounts_to_create d = Ret todo -> In (k, e) d ->
  lacks_apikey e = true -> In k (map fst todo).
Proof.
  intros S I L. apply subaccounts_to_create_spec in S.
  assert (F : In (k, uuid e)
                (map (fun p => (fst p, uuid (snd p)))
                   (filter (fun p => lacks_apikey (snd p)) d))).
  { apply in_map_iff. exists (k, e). split; [reflexivity|].
    apply filter_In. auto. }
  rewrite <- S in F. apply in_map_iff in F as [[k' u] [E F]].
  cbn [fst snd] in E. injection E as -> _.
  apply in_map_iff. exists (k, u). auto.
Qed.

Lemma nothing_to_create (d : dict account_info) :
  Forall (fun p => lacks_apikey (snd p) = false) d ->
  subaccounts_to_create d = Ret [].
Proof.
  induction 1 as [|[k e] t L _ IH]; cbn [subaccounts_to_create]; [reflexivity|].
  cbn [snd] in L. now rewrite L.
Qed.

(** Replacing the value of a key leaves the other entries where they are. *)
Lemma dict_set_in (V : Type) (d : dict V) (k : string) (v : V) :
  NoDup (map fst d) ->
  forall k' v', In (k', v') (dict_set d k v) ->
                (k' = k /\ v' = v) \/ (k' <> k /\ In (k', v') d).
Proof.
  induction d as [|[k1 v1] t IH]; cbn [dict_set map fst]; intros D k' v'.
  - intros [[= <- <-]|[]]. now left.
  - inversion D as [|? ? Hn Ht]; subst.
    destruct (String.eqb_spec k k1) as [->|N].
    + intros [[= <- <-]|I]; [now left|].
      right. split; [|now right].
      intros ->. apply Hn. apply in_map_iff. exists (k1, v'). auto.
    + intros [[= <- <-]|I].
      * right. split; [congruence | now left].
      * destruct (IH Ht _ _ I) as [E|[E I']]; [now left|].
        right. split; [exact E | now right].
Qed.

(** A text that starts with a visible character is not blank. *)
Lemma strip_not_blank (c : ascii) (s : string) :
  is_space c = false -> strip (String c s) <> ""%string.
Proof.
  intros C. unfold strip. cbn [lstrip]. rewrite C. cbn [rstrip].
  destruct (rstrip s); [rewrite C|]; discriminate.
Qed.

Section KeyCreation.
Variable W : Type.
Variable exchange :
  W -> account_info -> apikey_request -> W * attempt apikey_response.
Variable generate_api_passphrase : nat -> string.

(** A request for a key is signed by the main account and sent, or it is
    not sent because the main account lacks a credential. *)
Lemma key_request_cases (loaded : option config) (w : W) (q : apikey_request) :
  ((make_bitget_request exchange loaded None apikey_error w q
    = (w, [], Returned apikey_error)
    \/ make_bitget_request exchange loaded None apikey_error w q
       = (w, [], Thrown (Python KeyError)))
   /\ forall m, get_current_account_config loaded = Some m ->
                secret m = None \/ apikey m = None \/ passphrase m = None)
  \/ exists m,
      get_current_account_config loaded = Some m
      /\ make_bitget_request exchange loaded None apikey_error w q
         = (fst (exchange w m q), [(m, q)], snd (exchange w m q)).
Proof.
  unfold make_bitget_request.
  destruct (get_current_account_config loaded) as [m|];
    [|left; split; [now left | discriminate]].
  destruct (account_is_empty m) eqn:E.
  - left. split; [now left|]. intros ? [= <-]. left.
    unfold account_is_empty in E.
    destruct (acc_type m), (uuid m), (apikey m), (secret m), (passphrase m);
      (reflexivity || discriminate E).
  - destruct (secret m) eqn:S1;
      [|left; split; [now right | intros ? [= <-]; auto]].
    destruct (apikey m) eqn:S2;
      [|left; split; [now right | intros ? [= <-]; auto]].
    destruct (passphrase m) eqn:S3;
      [|left; split; [now right | intros ? [= <-]; auto]].
    right. exists m. split; reflexivity.
Qed.

(** One round of the creation loop: it stops on an exception, or stores the
    keys of a successful response and goes on, or goes on with the accounts
    as they were. *)
Lemma create_loop_step (loaded : option config) (ip : list string)
  (k u : string) (t : list (string * string)) (n : nat) (w : W)
  (log : list (account_info * apikey_request)) (d : dict account_info)
  (c : nat) :
  exists w1 sent,
    ((sent = []
      /\ forall m, get_current_account_config loaded = Some m ->
                   secret m = None \/ apikey m = None \/ passphrase m = None)
     \/ exists m,
         get_current_account_config loaded = Some m
         /\ sent = [(m, mk_apikey_request u (generate_api_passphrase n)
                          ("auto_sub" ++ k)%string key_permissions ip)])
    /\ ((exists x,
          create_loop exchange generate_api_passphrase loaded ip
            ((k, u) :: t) n w log d c
          = (w1, log ++ sent, Thrown x))
        \/ (exists m r e,
             sent = [(m, mk_apikey_request u (generate_api_passphrase n)
                           ("auto_sub" ++ k)%string key_permissions ip)]
             /\ snd (exchange w m
                        (mk_apikey_request u (generate_api_passphrase n)
                           ("auto_sub" ++ k)%string key_permissions ip))
                = Returned r
             /\ is_success (apikey_code r) = true
             /\ dict_get d k = Some e
             /\ create_loop exchange generate_api_passphrase loaded ip
                  ((k, u) :: t) n w log d c
                = create_loop exchange generate_api_passphrase loaded ip
                    t (S n) w1 (log ++ sent)
                    (dict_set d k
                       (with_keys e (subAccountApiKey r) (secretKey r)
                          (generate_api_passphrase n)))
                    (S c))
        \/ (create_loop exchange generate_api_passphrase loaded ip
              ((k, u) :: t) n w log d c
            = create_loop exchange generate_api_passphrase loaded ip
                t (S n) w1 (log ++ sent) d c
            /\ (sent = []
                \/ exists m r,
                    snd (exchange w m
                           (mk_apikey_request u (generate_api_passphrase n)
                              ("auto_sub" ++ k)%string key_permissions ip))
                    = Returned r
                    /\ get_current_account_config loaded = Some m
                    /\ is_success (apikey_code r) = false))).
Proof.
  cbn [create_loop].
  set (q := mk_apikey_request u (generate_api_passphrase n)
              ("auto_sub" ++ k)%string key_permissions ip).
  destruct (key_request_cases loaded w q) as [[[E|E] U]|[m [M E]]];
    rewrite E; cbn [fst snd].
  - exists w, []. split; [left; auto|].
    right; right. split; [reflexivity | now left].
  - exists w, []. split; [left; auto|].
    left. exists (Python KeyError). reflexivity.
  - exists (fst (exchange w m q)), [(m, q)]. split; [right; eauto|].
    destruct (snd (exchange w m q)) as [r|x] eqn:R.
    + destruct (is_success (apikey_code r)) eqn:S.
      * unfold store_keys. destruct (dict_get d k) as [e|] eqn:G.
        -- right; left. exists m, r, e. auto 6.
        -- left. exists (Python KeyError). reflexivity.
      * right; right. split; [reflexivity|]. right. exists m, r. auto.
    + left. exists x. reflexivity.
Qed.

(** Every request of the loop is signed by the main account and asks a key
    for one of the accounts to do, under the label of its account. *)
Lemma create_loop_log (loaded : option config) (ip : list string)
  (todo : list (string * string)) :
  forall n w log d c,
  exists extra,
    snd (fst (create_loop exchange generate_api_passphrase loaded ip todo
                n w log d c))
    = log ++ extra
    /\ Forall
         (fun e =>
            get_current_account_config loaded = Some (fst e)
            /\ exists k u m,
                In (k, u) todo
                /\ snd e = mk_apikey_request u (generate_api_passphrase m)
                             ("auto_sub" ++ k)%string key_permissions ip)
         extra.
Proof.
  induction todo as [|[k u] t IH]; intros n w log d c.
  - exists []. cbn [create_loop fst snd]. rewrite app_nil_r.
    split; [reflexivity | constructor].
  - assert (Widen :
      forall extra,
        Forall
          (fun e =>
             get_current_account_config loaded = Some (fst e)
             /\ exists k' u' m,
                 In (k', u') t
                 /\ snd e = mk_apikey_request u' (generate_api_passphrase m)
                              ("auto_sub" ++ k')%string key_permissions ip)
          extra ->
        Forall
          (fun e =>
             get_current_account_config loaded = Some (fst e)
             /\ exists k' u' m,
                 In (k', u') ((k, u) :: t)
                 /\ snd e = mk_apikey_request u' (generate_api_passphrase m)
                              ("auto_sub" ++ k')%string key_permissions ip)
          extra).
    { intros extra F. eapply Forall_impl; [|exact F].
      intros e [A [k' [u' [m [I B]]]]]. split; [exact A|].
      exists k', u', m. split; [now right | exact B]. }
    assert (Sent :
      forall sent,
        (sent = []
         /\ (forall m, get_current_account_config loaded = Some m ->
                       secret m = None \/ apikey m = None
                       \/ passphrase m = None))
        \/ (exists m,
             get_current_account_config loaded = Some m
             /\ sent = [(m, mk_apikey_request u (generate_api_passphrase n)
                              ("auto_sub" ++ k)%string key_permissions ip)]) ->
        Forall
          (fun e =>
             get_current_account_config loaded = Some (fst e)
             /\ exists k' u' m,
                 In (k', u') ((k, u) :: t)
                 /\ snd e = mk_apikey_request u' (generate_api_passphrase m)
                              ("auto_sub" ++ k')%string key_permissions ip)
          sent).
    { intros sent [[-> _]|[m [M ->]]]; constructor; [|constructor].
      split; [exact M|]. exists k, u, n. split; [now left | reflexivity]. }
    destruct (create_loop_step loaded ip k u t n w log d c)
      as [w1 [sent [A [[x E]|[[m [r [e [_ [_ [_ [_ E]]]]]]]|[E _]]]]]];
      rewrite E.
    + exists sent. split; [reflexivity | now apply Sent].
    + destruct (IH (S n) w1 (log ++ sent)
                  (dict_set d k
                     (with_keys e (subAccountApiKey r) (secretKey r)
                        (generate_api_passphrase n))) (S c))
        as [extra [L F]].
      exists (sent ++ extra). rewrite L, app_assoc. split; [reflexivity|].
      apply Forall_app. split; [now apply Sent | now apply Widen].
    + destruct (IH (S n) w1 (log ++ sent) d c) as [extra [L F]].
      exists (sent ++ extra). rewrite L, app_assoc. split; [reflexivity|].
      apply Forall_app. split; [now apply Sent | now apply Widen].
Qed.

(** What the loop does to the accounts: an entry is as it was, or it is an
    account to do that got the keys of a response and the passphrase of the
    request sent for it. Without a success the accounts are as they were. *)
Lemma create_loop_entries (loaded : option config) (ip : list string)
  (todo : list (string * string)) :
  forall n w log d c w' log' d' c',
  create_loop exchange generate_api_passphrase loaded ip todo n w log d c
  = (w', log', Returned (d', c')) ->
  (c <= c')%nat
  /\ (c' = c -> d' = d)
  /\ forall k,
      dict_get d' k = dict_get d k
      \/ exists e signer req key s,
          dict_get d k = Some e
          /\ In (k, req_subAccountUid req) todo
          /\ In (signer, req) log'
          /\ req_label req = ("auto_sub" ++ k)%string
          /\ dict_get d' k = Some (with_keys e key s (req_passphrase req)).
Proof.
  induction todo as [|[k u] t IH]; intros n w log d c w' log' d' c'.
  - cbn [create_loop]. intros [= <- <- <- <-]. repeat split; auto.
  - destruct (create_loop_step loaded ip k u t n w log d c)
      as [w1 [sent [_ [[x E]|[[m [r [e [Sn [_ [_ [G E]]]]]]]|[E _]]]]]];
      rewrite E; [discriminate| |].
    + intros L.
      destruct (create_loop_log loaded ip t (S n) w1 (log ++ sent)
                  (dict_set d k
                     (with_keys e (subAccountApiKey r) (secretKey r)
                        (generate_api_passphrase n))) (S c))
        as [extra Hlog].
      rewrite L in Hlog. cbn [fst snd] in Hlog. destruct Hlog as [Hlog _].
      destruct (IH _ _ _ _ _ _ _ _ _ L) as [Le [_ Ent]].
      split; [lia|]. split; [lia|].
      intros k'. destruct (Ent k') as [Same|[e1 [sg [rq [ky [sc H]]]]]].
      * rewrite dict_get_set in Same.
        destruct (String.eqb k' k) eqn:Q; [|now left].
        apply String.eqb_eq in Q. subst k'. right.
        exists e, m,
          (mk_apikey_request u (generate_api_passphrase n)
             ("auto_sub" ++ k)%string key_permissions ip),
          (subAccountApiKey r), (secretKey r).
        repeat split; try assumption; try reflexivity.
        -- now left.
        -- rewrite Hlog, Sn. apply in_or_app. left. apply in_or_app. right.
           now left.
      * destruct H as [G1 [I [Il [Lb G2]]]]. rewrite dict_get_set in G1.
        right. destruct (String.eqb k' k) eqn:Q.
        -- apply String.eqb_eq in Q. subst k'. injection G1 as <-.
           exists e, sg, rq, ky, sc.
           repeat split; try assumption. now right.
        -- exists e1, sg, rq, ky, sc. repeat split; try assumption. now right.
    + intros L. destruct (IH _ _ _ _ _ _ _ _ _ L) as [Le [Eq Ent]].
      split; [exact Le|]. split; [exact Eq|].
      intros k'. destruct (Ent k') as [Same|[e1 [sg [rq [ky [sc H]]]]]];
        [now left|].
      destruct H as [G1 [I [Il [Lb G2]]]].
      right. exists e1, sg, rq, ky, sc. repeat split; try assumption.
      now right.
Qed.

(** With a main account that can sign, a loop that returns has asked for
    every account to do, once and in order, each request with the
    passphrase of a call of its own. *)
Lemma create_loop_asks_each (loaded : option config) (ip : list string)
  (main : account_info) (todo : list (string * string)) :
  get_current_account_config loaded = Some main ->
  secret main <> None -> apikey main <> None -> passphrase main <> None ->
  forall n w log d c w' log' res,
  create_loop exchange generate_api_passphrase loaded ip todo n w log d c
  = (w', log', Returned res) ->
  exists extra,
    log' = log ++ extra
    /\ Forall (fun e => fst e = main) extra
    /\ map (fun e => req_subAccountUid (snd e)) extra = map snd todo
    /\ map (fun e => req_passphrase (snd e)) extra
       = map generate_api_passphrase (seq n (List.length todo)).
Proof.
  intros M S1 S2 S3.
  induction todo as [|[k u] t IH]; intros n w log d c w' log' res.
  - cbn [create_loop]. intros [= <- <- <-]. exists [].
    rewrite app_nil_r. repeat split; constructor.
  - destruct (create_loop_step loaded ip k u t n w log d c)
      as [w1 [sent [A B]]].
    assert (Sn : sent = [(main,
                          mk_apikey_request u (generate_api_passphrase n)
                            ("auto_sub" ++ k)%string key_permissions ip)]).
    { destruct A as [[_ U]|[m [M' ->]]].
      - destruct (U main M) as [N|[N|N]]; contradiction.
      - rewrite M in M'. now injection M' as <-. }
    assert (Go :
      forall d1 c1,
        create_loop exchange generate_api_passphrase loaded ip t (S n) w1
          (log ++ sent) d1 c1
        = (w', log', Returned res) ->
        exists extra,
          log' = log ++ extra
          /\ Forall (fun e => fst e = main) extra
          /\ map (fun e => req_subAccountUid (snd e)) extra
             = map snd ((k, u) :: t)
          /\ map (fun e => req_passphrase (snd e)) extra
             = map generate_api_passphrase
                 (seq n (List.length ((k, u) :: t)))).
    { intros d1 c1 L.
      destruct (IH _ _ _ _ _ _ _ _ L) as [extra [E1 [E2 [E3 E4]]]].
      exists (sent ++ extra). rewrite E1, app_assoc, Sn.
      split; [reflexivity|]. split; [now constructor|].
      cbn [app map snd fst req_subAccountUid req_passphrase List.length seq].
      now rewrite E3, E4. }
    destruct B as [[x E]|[[m [r [e [_ [_ [_ [_ E]]]]]]]|[E _]]]; rewrite E;
      [discriminate| |]; apply Go.
Qed.

(** With an exchange that issues a usable key at every request, a loop that
    returns leaves no account to do without a key. *)
Lemma create_loop_all_issued (loaded : option config) (ip : list string)
  (todo : list (string * string)) :
  (forall w i q,
     exists r, snd (exchange w i q) = Returned r
               /\ is_success (apikey_code r) = true
               /\ strip (subAccountApiKey r) <> ""%string) ->
  (exists main,
     get_current_account_config loaded = Some main
     /\ secret main <> None /\ apikey main <> None
     /\ passphrase main <> None) ->
  forall n w log d c w' log' d' c',
  NoDup (map fst d) ->
  create_loop exchange generate_api_passphrase loaded ip todo n w log d c
  = (w', log', Returned (d', c')) ->
  NoDup (map fst d')
  /\ forall k e, In (k, e) d' -> lacks_apikey e = true ->
                 In (k, e) d /\ ~ In k (map fst todo).
Proof.
  intros Issues [main [M [S1 [S2 S3]]]].
  induction todo as [|[k u] t IH]; intros n w log d c w' log' d' c' D.
  - cbn [create_loop]. intros [= <- <- <- <-]. split; [exact D|].
    intros k e I _. split; [exact I | intros []].
  - destruct (create_loop_step loaded ip k u t n w log d c)
      as [w1 [sent [A [[x E]|[[m [r [e [Sn [R [Ok [G E]]]]]]]|[E R]]]]]];
      rewrite E; [discriminate| |].
    + intros L.
      assert (Key : strip (subAccountApiKey r) <> ""%string).
      { destruct (Issues w m
                    (mk_apikey_request u (generate_api_passphrase n)
                       ("auto_sub" ++ k)%string key_permissions ip))
          as [r2 [R2 [_ K2]]].
        rewrite R in R2. now injection R2 as <-. }
      destruct (IH _ _ _ _ _ _ _ _ _ (dict_set_nodup _ _ _ D) L)
        as [D' Inv].
      split; [exact D'|]. intros k' e' I Lk.
      destruct (Inv _ _ I Lk) as [I1 Nt].
      destruct (@dict_set_in _ _ _ _ D _ _ I1) as [[-> ->]|[Nk I0]].
      * exfalso. unfold lacks_apikey in Lk. cbn [with_keys apikey] in Lk.
        apply andb_prop in Lk as [_ Lk]. apply String.eqb_eq in Lk.
        cbn [get_or_empty] in Lk. contradiction.
      * split; [exact I0|]. cbn [map fst]. intros [->|I']; contradiction.
    + exfalso. destruct R as [->|[m [r [R [_ Ok]]]]].
      * destruct A as [[_ U]|[m' [_ N]]]; [|discriminate N].
        destruct (U main M) as [N|[N|N]]; contradiction.
      * destruct (Issues w m
                    (mk_apikey_request u (generate_api_passphrase n)
                       ("auto_sub" ++ k)%string key_permissions ip))
          as [r2 [R2 [Ok2 _]]].
        rewrite R in R2. injection R2 as <-. congruence.
Qed.

(** The ways [create_apikeys_for_subaccounts] ends on a configuration that
    was loaded: before the loop, with nothing sent, or with what the loop
    gives. *)
Lemma create_apikeys_cases (cfg : config) (bind_answer my_ip : option string)
  (w : W) :
  (config_truthy cfg = false
   /\ create_apikeys_for_subaccounts exchange generate_api_passphrase
        (Some cfg) bind_answer my_ip w
      = (w, [], Returned (false, None)))
  \/ (config_truthy cfg = true
      /\ ((exists x,
            create_apikeys_for_subaccounts exchange generate_api_passphrase
              (Some cfg) bind_answer my_ip w
            = (w, [], Thrown x))
          \/ (subaccounts_to_create (config_accounts cfg) = Ret []
              /\ create_apikeys_for_subaccounts exchange
                   generate_api_passphrase (Some cfg) bind_answer my_ip w
                 = (w, [], Returned (true, None)))
          \/ exists todo raw ip d,
              subaccounts_to_create (config_accounts cfg) = Ret todo
              /\ accounts cfg = Some d
              /\ bind_answer = Some raw
              /\ (forall a, In a ip ->
                            my_ip = Some a
                            /\ lower (strip raw) <> "n"%string)
              /\ create_apikeys_for_subaccounts exchange
                   generate_api_passphrase (Some cfg) bind_answer my_ip w
                 = (fst (fst (create_loop exchange generate_api_passphrase
                                (Some cfg) ip todo 0 w [] d 0)),
                    snd (fst (create_loop exchange generate_api_passphrase
                                (Some cfg) ip todo 0 w [] d 0)),
                    match snd (create_loop exchange generate_api_passphrase
                                 (Some cfg) ip todo 0 w [] d 0) with
                    | Returned (d', n) =>
                        Returned ((0 <? n)%nat,
                                  Some (mk_config (Some d') (other_keys cfg)))
                    | Thrown x => Thrown x
                    end))).
Proof.
  unfold create_apikeys_for_subaccounts.
  destruct (config_truthy cfg) eqn:T; cbn [negb]; [right|left; auto].
  split; [reflexivity|].
  destruct (subaccounts_to_create (config_accounts cfg)) as [todo|e] eqn:S;
    [|left; eauto].
  destruct todo as [|p todo]; [right; left; auto|].
  destruct bind_answer as [raw|]; [|left; eauto].
  right; right.
  destruct (accounts cfg) as [d|] eqn:A;
    [|unfold config_accounts in S; rewrite A in S; discriminate S].
  exists (p :: todo), raw,
    (if negb (String.eqb (lower (strip raw)) "n")
     then match my_ip with
          | Some (String c ip) => [String c ip]
          | _ => []
          end
     else []), d.
  split; [reflexivity|]. split; [reflexivity|]. split; [reflexivity|].
  split.
  - intros a. destruct (String.eqb_spec (lower (strip raw)) "n") as [E|N];
      cbn [negb]; [intros []|].
    destruct my_ip as [[|c ip]|]; [intros []| |intros []].
    intros [<-|[]]. auto.
  - unfold config_accounts. rewrite A. reflexivity.
Qed.

(** X13. Every request for a key that [create_apikeys_for_subaccounts]
    sends, however the run ends, is signed by the main account, names the
    uid of a sub entry of the configuration that lacks a key, carries the
    label of that entry and the three permissions, and is bound to no other
    address than the one detected, and to none after the answer [n]. *)
Theorem key_requests_follow_the_config (loaded : option config)
  (bind_answer my_ip : option string) (w : W) (signer : account_info)
  (req : apikey_request) :
  In (signer, req)
    (snd (fst (create_apikeys_for_subaccounts exchange generate_api_passphrase
                 loaded bind_answer my_ip w))) ->
  get_current_account_config loaded = Some signer
  /\ (exists cfg k e,
        loaded = Some cfg
        /\ In (k, e) (config_accounts cfg)
        /\ lacks_apikey e = true
        /\ uuid e = Some (req_subAccountUid req)
        /\ req_label req = ("auto_sub" ++ k)%string)
  /\ req_permList req = key_permissions
  /\ forall a, In a (req_ipList req) ->
               my_ip = Some a
               /\ exists raw, bind_answer = Some raw
                              /\ lower (strip raw) <> "n"%string.
Proof.
  destruct loaded as [cfg|]; [|intros []].
  destruct (create_apikeys_cases cfg bind_answer my_ip w)
    as [[_ E]|[_ [[x E]|[[_ E]|[todo [raw [ip [d [S [A [B [I E]]]]]]]]]]]];
    rewrite E; cbn [fst snd]; try (intros []).
  destruct (create_loop_log (Some cfg) ip todo 0 w [] d 0)
    as [extra [L F]].
  rewrite L. cbn [app]. intros Hin.
  rewrite Forall_forall in F.
  destruct (F _ Hin) as [M [k [u [m [It Q]]]]]. cbn [fst snd] in M, Q.
  subst req. cbn [req_subAccountUid req_label req_permList req_ipList].
  destruct (@todo_in_config _ _ _ _ S It) as [e [Ie [Le Ue]]].
  split; [exact M|]. split.
  - exists cfg, k, e. auto.
  - split; [reflexivity|]. intros a Ia. destruct (I a Ia) as [I1 I2].
    split; [exact I1|]. exists raw. auto.
Qed.

(** X14. With a main account that holds its three credentials, a run of
    [create_apikeys_for_subaccounts] that returns has asked a key for every
    sub entry that lacks one, once each and in the order of the
    configuration, whatever the exchange answered to the earlier requests;
    every request is signed by the main account and carries the passphrase
    of a call of its own to the generator. *)
Theorem every_keyless_sub_is_asked_once (cfg : config) (main : account_info)
  (bind_answer my_ip : option string) (w w' : W)
  (log : list (account_info * apikey_request))
  (res : bool * option config) :
  get_current_account_config (Some cfg) = Some main ->
  secret main <> None -> apikey main <> None -> passphrase main <> None ->
  create_apikeys_for_subaccounts exchange generate_api_passphrase (Some cfg)
    bind_answer my_ip w
  = (w', log, Returned res) ->
  Forall (fun e => fst e = main) log
  /\ map (fun e => Some (req_subAccountUid (snd e))) log
     = map (fun p => uuid (snd p))
         (filter (fun p => lacks_apikey (snd p)) (config_accounts cfg))
  /\ map (fun e => req_passphrase (snd e)) log
     = map generate_api_passphrase (seq 0 (List.length log)).
Proof.
  intros M S1 S2 S3.
  destruct (create_apikeys_cases cfg bind_answer my_ip w)
    as [[T E]|[_ [[x E]|[[S E]|[todo [raw [ip [d [S [A [B [I E]]]]]]]]]]]];
    rewrite E.
  - unfold get_current_account_config, get_account_config in M.
    rewrite T in M. discriminate M.
  - discriminate.
  - intros [= <- <- <-]. apply subaccounts_to_create_spec in S.
    cbn [map] in S. symmetry in S. apply map_eq_nil in S. rewrite S.
    repeat split; constructor.
  - destruct (create_loop exchange generate_api_passphrase (Some cfg) ip todo
                0 w [] d 0) as [[w1 log1] [[d' n]|x]] eqn:L;
      cbn [fst snd]; [|discriminate].
    intros [= <- <- <-].
    destruct (@create_loop_asks_each _ ip _ todo M S1 S2 S3 _ _ _ _ _ _ _ _ L)
      as [extra [-> [F [U P]]]].
    cbn [app]. split; [exact F|]. split.
    + apply subaccounts_to_create_spec in S.
      apply (f_equal (map snd)) in S. rewrite !map_map in S.
      cbn [snd] in S. rewrite <- S, <- (map_map snd Some todo), <- U, map_map.
      reflexivity.
    + rewrite P. f_equal. f_equal.
      apply (f_equal (@List.length _)) in U.
      rewrite !length_map in U. now rewrite U.
Qed.


(** X16. When [create_apikeys_for_subaccounts] returns [False] after it
    saved a configuration, no key was stored and what it saved is the
    configuration it loaded. *)
Theorem refused_keys_change_nothing (cfg : config)
  (bind_answer my_ip : option string) (w w' : W)
  (log : list (account_info * apikey_request)) (saved : config) :
  create_apikeys_for_subaccounts exchange generate_api_passphrase (Some cfg)
    bind_answer my_ip w
  = (w', log, Returned (false, Some saved)) ->
  saved = cfg.
Proof.
  destruct (create_apikeys_cases cfg bind_answer my_ip w)
    as [[T E]|[_ [[x E]|[[S E]|[todo [raw [ip [d [S [A [B [I E]]]]]]]]]]]];
    rewrite E; try discriminate.
  destruct (create_loop exchange generate_api_passphrase (Some cfg) ip todo
              0 w [] d 0) as [[w1 log1] [[d' n]|x]] eqn:L;
    cbn [fst snd]; [|discriminate].
  intros [= <- <- N <-].
  destruct (@create_loop_entries _ _ _ _ _ _ _ _ _ _ _ _ L) as [_ [Z _]].
  apply Nat.ltb_ge in N. rewrite Z by lia.
  destruct cfg as [a o]. cbn [accounts other_keys] in *. now rewrite A.
Qed.

(** X17. Keys are created once: after a run of
    [create_apikeys_for_subaccounts] on a configuration of distinct keys,
    signed by a main account with its three credentials, against an
    exchange that answers every request with a key that is not blank, a
    second run on the configuration saved finds every sub-account with a
    key: it asks no question, sends nothing, saves nothing and returns
    [True]. *)
Theorem keys_are_created_once (cfg : config) (main : account_info)
  (bind_answer my_ip : option string) (w w' : W)
  (log : list (account_info * apikey_request)) (ok : bool) (saved : config) :
  NoDup (map fst (config_accounts cfg)) ->
  get_current_account_config (Some cfg) = Some main ->
  secret main <> None -> apikey main <> None -> passphrase main <> None ->
  (forall w0 i q,
     exists r, snd (exchange w0 i q) = Returned r
               /\ is_success (apikey_code r) = true
               /\ strip (subAccountApiKey r) <> ""%string) ->
  create_apikeys_for_subaccounts exchange generate_api_passphrase (Some cfg)
    bind_answer my_ip w
  = (w', log, Returned (ok, Some saved)) ->
  forall (bind_answer2 my_ip2 : option string) (w2 : W),
    create_apikeys_for_subaccounts exchange generate_api_passphrase
      (Some saved) bind_answer2 my_ip2 w2
    = (w2, [], Returned (true, None)).
Proof.
  intros D M S1 S2 S3 Issues.
  destruct (create_apikeys_cases cfg bind_answer my_ip w)
    as [[T E]|[_ [[x E]|[[S E]|[todo [raw [ip [d [S [A [B [I E]]]]]]]]]]]];
    rewrite E; try discriminate.
  destruct (create_loop exchange generate_api_passphrase (Some cfg) ip todo
              0 w [] d 0) as [[w1 log1] [[d' n]|x]] eqn:L;
    cbn [fst snd]; [|discriminate].
  intros [= <- <- <- <-] bind_answer2 my_ip2 w2.
  assert (Dd : config_accounts cfg = d)
    by (unfold config_accounts; now rewrite A).
  rewrite Dd in *.
  assert (R : exists m,
             get_current_account_config (Some cfg) = Some m
             /\ secret m <> None /\ apikey m <> None
             /\ passphrase m <> None) by eauto.
  destruct (@create_loop_all_issued _ ip todo Issues R _ _ _ _ _ _ _ _ _ D L)
    as [_ Inv].
  unfold create_apikeys_for_subaccounts.
  cbn [config_truthy accounts negb config_accounts].
  rewrite nothing_to_create; [reflexivity|].
  apply Forall_forall. intros [k e] Ie. cbn [snd].
  destruct (lacks_apikey e) eqn:Le; [|reflexivity].
  destruct (Inv _ _ Ie Le) as [I0 Nt]. exfalso. apply Nt.
  exact (@config_in_todo _ _ _ _ S I0 Le).
Qed.

End KeyCreation.

Lemma key_requests_follow_the_config_witness :
  get_current_account_config (Some two_without_keys)
  = Some (info "main" "1000" "k0")
  /\ (exists cfg k e,
        Some two_without_keys = Some cfg
        /\ In (k, e) (config_accounts cfg)
        /\ lacks_apikey e = true
        /\ uuid e = Some "1003"%string
        /\ "auto_sub3"%string = ("auto_sub" ++ k)%string)
  /\ forall a, In a ["10.0.0.1"%string] -> Some "10.0.0.1"%string = Some a.
Proof.
  destruct (@key_requests_follow_the_config nat issues_keys
              numbered_passphrase (Some two_without_keys) (Some "y"%string)
              (Some "10.0.0.1"%string) 0 (info "main" "1000" "k0")
              (mk_apikey_request "1003" "pass1" "auto_sub3" key_permissions
                 ["10.0.0.1"%string]))
    as [M [C [_ I]]].
  - vm_compute. right. left. reflexivity.
  - split; [exact M|]. split; [exact C|].
    intros a Ia. exact (proj1 (I a Ia)).
Defined.

Lemma every_keyless_sub_is_asked_once_witness :
  Forall (fun e => fst e = info "main" "1000" "k0") (two_key_requests [])
  /\ map (fun e => Some (req_subAccountUid (snd e))) (two_key_requests [])
     = map (fun p => uuid (snd p))
         (filter (fun p => lacks_apikey (snd p))
            (config_accounts two_without_keys))
  /\ map (fun e => req_passphrase (snd e)) (two_key_requests [])
     = map numbered_passphrase (seq 0 (List.length (two_key_requests []))).
Proof.
  refine (@every_keyless_sub_is_asked_once nat refuses_keys
            numbered_passphrase two_without_keys (info "main" "1000" "k0")
            (Some "n"%string) (Some "10.0.0.1"%string) 0 2
            (two_key_requests []) (false, Some two_without_keys)
            eq_refl _ _ _ _).
  - intros H; discriminate H.
  - intros H; discriminate H.
  - intros H; discriminate H.
  - vm_compute. reflexivity.
Defined.


Lemma refused_keys_change_nothing_witness :
  create_apikeys_for_subaccounts refuses_keys numbered_passphrase
    (Some two_without_keys) (Some "n"%string) None 0
  = (2, two_key_requests [], Returned (false, Some two_without_keys))
  /\ two_without_keys = two_without_keys.
Proof.
  assert (H : create_apikeys_for_subaccounts refuses_keys numbered_passphrase
                (Some two_without_keys) (Some "n"%string) None 0
              = (2, two_key_requests [],
                 Returned (false, Some two_without_keys)))
    by (vm_compute; reflexivity).
  split; [exact H|].
  exact (@refused_keys_change_nothing nat refuses_keys numbered_passphrase
           two_without_keys (Some "n"%string) None 0 2 (two_key_requests [])
           two_without_keys H).
Defined.

Lemma keys_are_created_once_witness :
  create_apikeys_for_subaccounts issues_keys numbered_passphrase
    (Some two_keys_issued) None None 7
  = (7, [], Returned (true, None)).
Proof.
  refine (@keys_are_created_once nat issues_keys numbered_passphrase
            two_without_keys (info "main" "1000" "k0") (Some "y"%string)
            (Some "10.0.0.1"%string) 0 2
            (two_key_requests ["10.0.0.1"%string]) true two_keys_issued
            _ eq_refl _ _ _ _ _ None None 7).
  - repeat constructor; simpl; intuition discriminate.
  - intros H; discriminate H.
  - intros H; discriminate H.
  - intros H; discriminate H.
  - intros w0 i q. eexists. split; [reflexivity|]. split; [reflexivity|].
    apply strip_not_blank. reflexivity.
  - vm_compute. reflexivity.
Defined.

(** *** From the list of sub-accounts to their keys *)

Lemma dict_get_some_in (V : Type) (d : dict V) (k : string) (v : V) :
  dict_get d k = Some v -> In (k, v) d.
Proof.
  induction d as [|[k1 v1] t IH]; cbn [dict_get]; [discriminate|].
  destruct (String.eqb_spec k k1) as [->|N].
  - intros [= ->]. now left.
  - intros G. right. now apply IH.
Qed.

Lemma config_in_todo_uid (d : dict account_info)
  (todo : list (string * string)) (k u : string) (e : account_info) :
  subaccounts_to_create d = Ret todo -> In (k, e) d ->
  lacks_apikey e = true -> uuid e = Some u -> In (k, u) todo.
Proof.
  intros S I L U. apply subaccounts_to_create_spec in S.
  assert (F : In (k, Some u)
                (map (fun p => (fst p, uuid (snd p)))
                   (filter (fun p => lacks_apikey (snd p)) d))).
  { apply in_map_iff. exists (k, e). cbn [fst snd]. rewrite U.
    split; [reflexivity|]. apply filter_In. auto. }
  rewrite <- S in F. apply in_map_iff in F as [[k' u'] [E F]].
  cbn [fst snd] in E. now injection E as -> ->.
Qed.

Lemma sorted_keys_defined (l srt : list subaccount) (x : subaccount) :
  sorted uid_key l = Ret srt -> In x l -> exists z, uid_key x = Ret z.
Proof.
  unfold sorted. intros S I.
  destruct (mapM (fun x => k <- uid_key x ;; Ret (k, x)) l) as [kl|e] eqn:M;
    [|discriminate].
  destruct (mapM_in _ _ x M I) as [y Y].
  destruct (uid_key x) as [z|e]; [eauto | discriminate].
Qed.

Section Initialisation.
Variable W : Type.
Variable exchange :
  W -> account_info -> apikey_request -> W * attempt apikey_response.
Variable generate_api_passphrase : nat -> string.

(** X18. The two steps of the initialisation together: a sub-account whose
    uid no sub entry of the configuration held is recorded by
    [update_config_with_subaccounts] with blank credentials, so that
    [create_apikeys_for_subaccounts], run on the configuration saved with
    a main account that holds its three credentials, asks a key for that
    uid whenever it returns. *)
Theorem new_subaccounts_are_asked_a_key (d : dict account_info)
  (others : list string) (subaccounts : list subaccount) (saved : config)
  (main : account_info) (bind_answer my_ip : option string) (w w' : W)
  (log : list (account_info * apikey_request)) (res : bool * option config)
  (sub : subaccount) (u : string) :
  update_config_with_subaccounts (Some (mk_config (Some d) others)) subaccounts
  = Ret (true, Some saved) ->
  dict_get d "main" = Some main ->
  secret main <> None -> apikey main <> None -> passphrase main <> None ->
  In sub (firstn TARGET_SUBACCOUNT_COUNT subaccounts) ->
  subAccountUid sub = Some u ->
  (forall k old, In (k, old) d -> is_sub old = true -> uuid old <> Some u) ->
  create_apikeys_for_subaccounts exchange generate_api_passphrase (Some saved)
    bind_answer my_ip w
  = (w', log, Returned res) ->
  exists req, In (main, req) log /\ req_subAccountUid req = u.
Proof.
  intros Up Gm S1 S2 S3 Isub Usub New Run.
  unfold update_config_with_subaccounts, subaccounts_sorted in Up.
  cbn [config_truthy accounts negb other_keys] in Up.
  destruct (sorted uid_key (firstn TARGET_SUBACCOUNT_COUNT subaccounts))
    as [srt|x] eqn:Srt; [|discriminate].
  cbn [bind] in Up.
  destruct (record_slots_spec
              (existing_uuid_to_config (mk_config (Some d) others)) srt 0 d)
    as [d' [R [Slots Others]]].
  rewrite R in Up. cbn [bind] in Up. injection Up as <-.
  (* the slot of the new sub-account *)
  destruct (@sorted_keys_defined _ _ _ Srt Isub) as [z Z].
  pose proof (@uid_key_not_empty _ _ _ Z Usub) as Ne.
  assert (Is : In sub srt).
  { apply (Permutation_in _ (Permutation_sym (@sorted_is_permutation _ _ Srt))).
    exact Isub. }
  apply In_nth_error in Is as [j J].
  pose proof (Slots _ _ J) as G. cbn [Nat.add] in G.
  assert (E : slot_entry (existing_uuid_to_config (mk_config (Some d) others))
                sub
              = mk_account_info (Some "sub") (Some u) (Some "") (Some "")
                  (Some "")).
  { unfold slot_entry. rewrite Usub. cbn [get_or_empty].
    unfold existing_uuid_to_config. cbn [config_accounts accounts].
    rewrite (@remembered_unknown u Ne d [] New eq_refl). reflexivity. }
  rewrite E in G. apply dict_get_some_in in G.
  (* the main account of the configuration saved *)
  assert (M : get_current_account_config
                (Some (mk_config (Some d') others)) = Some main).
  { unfold get_current_account_config, get_account_config.
    cbn [config_truthy accounts config_accounts].
    rewrite Others; [exact Gm|].
    intros i _. apply not_eq_sym, str_of_nat_not_main. }
  (* the run *)
  destruct (create_apikeys_cases exchange generate_api_passphrase
              (mk_config (Some d') others) bind_answer my_ip w)
    as [[T _]|[_ [[x E1]|[[S _]|[todo [raw [ip [d0 [S [A [B [I E1]]]]]]]]]]]].
  - discriminate T.
  - rewrite E1 in Run. discriminate Run.
  - exfalso. cbn [config_accounts accounts] in S.
    pose proof (@config_in_todo_uid _ _ _ u _ S G eq_refl eq_refl) as F.
    exact F.
  - rewrite E1 in Run. cbn [config_accounts accounts] in S.
    destruct (create_loop exchange generate_api_passphrase
                (Some (mk_config (Some d') others)) ip todo 0 w [] d0 0)
      as [[w1 log1] [r|x]] eqn:L; cbn [fst snd] in Run;
      [|destruct x; discriminate Run].
    assert (Hl : log1 = log) by (destruct r; now injection Run).
    subst log1.
    destruct (@create_loop_asks_each _ exchange generate_api_passphrase _ ip
                _ todo M S1 S2 S3 _ _ _ _ _ _ _ _ L)
      as [extra [-> [F [U _]]]].
    cbn [app].
    pose proof (@config_in_todo_uid _ _ _ u _ S G eq_refl eq_refl) as It.
    apply (in_map snd) in It. cbn [snd] in It. rewrite <- U in It.
    apply in_map_iff in It as [[sg rq] [Q Ie]]. cbn [snd] in Q.
    rewrite Forall_forall in F. pose proof (F _ Ie) as Fm. cbn [fst] in Fm.
    subst sg. exists rq. auto.
Qed.

End Initialisation.

Lemma new_subaccounts_are_asked_a_key_witness :
  exists req,
    In (info "main" "1000" "k0", req)
      [(info "main" "1000" "k0",
        mk_apikey_request "1001" "pass0" "auto_sub1" key_permissions []);
       (info "main" "1000" "k0",
        mk_apikey_request "1003" "pass1" "auto_sub2" key_permissions [])]
    /\ req_subAccountUid req = "1003"%string.
Proof.
  refine (@new_subaccounts_are_asked_a_key nat issues_keys numbered_passphrase
            [("main", info "main" "1000" "k0")] ["note"%string]
            [mk_subaccount (Some "1003"%string) (Some "b"%string);
             mk_subaccount (Some "1001"%string) (Some "a"%string)]
            (mk_config
               (Some [("main", info "main" "1000" "k0");
                      ("1", mk_account_info (Some "sub"%string)
                              (Some "1001"%string) (Some ""%string)
                              (Some ""%string) (Some ""%string));
                      ("2", mk_account_info (Some "sub"%string)
                              (Some "1003"%string) (Some ""%string)
                              (Some ""%string) (Some ""%string))])
               ["note"%string])
            (info "main" "1000" "k0") (Some "n"%string) None 0 2 _
            (true,
             Some (mk_config
                     (Some [("main", info "main" "1000" "k0");
                            ("1", mk_account_info (Some "sub"%string)
                                    (Some "1001"%string)
                                    (Some "key1001"%string)
                                    (Some "secret1001"%string)
                                    (Some "pass0"%string));
                            ("2", mk_account_info (Some "sub"%string)
                                    (Some "1003"%string)
                                    (Some "key1003"%string)
                                    (Some "secret1003"%string)
                                    (Some "pass1"%string))])
                     ["note"%string]))
            (mk_subaccount (Some "1003"%string) (Some "b"%string))
            "1003"%string _ eq_refl _ _ _ _ eq_refl _ _).
  - vm_compute. reflexivity.
  - intros H; discriminate H.
  - intros H; discriminate H.
  - intros H; discriminate H.
  - left. reflexivity.
  - intros k old [E|[]] Sub. injection E as <- <-. discriminate Sub.
  - vm_compute. reflexivity.
Defined.

(** *** The sub-accounts of the exchange *)

Section SubaccountFacts.
Variable W : Type.
Variable exchange :
  W -> account_info -> subaccount_request -> W * attempt subaccount_response.
Variable generate_subaccount_name : nat -> string.

(** A request without an account key is signed by the main account and
    sent once, or it is not sent and ends in the error response or in a
    [KeyError]. *)
Lemma subaccount_request_cases (loaded : option config) (w : W)
  (q : subaccount_request) :
  (make_bitget_request exchange loaded None subaccount_error w q
   = (w, [], Returned subaccount_error)
   \/ make_bitget_request exchange loaded None subaccount_error w q
      = (w, [], Thrown (Python KeyError)))
  \/ exists m,
      get_current_account_config loaded = Some m
      /\ make_bitget_request exchange loaded None subaccount_error w q
         = (fst (exchange w m q), [(m, q)], snd (exchange w m q)).
Proof.
  unfold make_bitget_request.
  destruct (get_current_account_config loaded) as [m|]; [|now left; left].
  destruct (account_is_empty m); [now left; left|].
  destruct (secret m), (apikey m), (passphrase m);
    try (left; right; reflexivity).
  right. exists m. split; reflexivity.
Qed.

Lemma subaccount_request_signed (loaded : option config)
  (main : account_info) (w : W) (q : subaccount_request) :
  get_current_account_config loaded = Some main ->
  secret main <> None -> apikey main <> None -> passphrase main <> None ->
  make_bitget_request exchange loaded None subaccount_error w q
  = (fst (exchange w main q), [(main, q)], snd (exchange w main q)).
Proof.
  intros M S1 S2 S3. unfold make_bitget_request. rewrite M.
  unfold account_is_empty.
  destruct (secret main); [|contradiction].
  destruct (apikey main); [|contradiction].
  destruct (passphrase main); [|contradiction].
  destruct (acc_type main), (uuid main); reflexivity.
Qed.

(** X19. [ensure_target_subaccounts] asks the exchange for what is missing
    and no more: a creation request of a run follows a successful listing,
    signed by the same main account, of fewer sub-accounts than the target;
    the names it asks for are the results of as many calls of the name
    generator, and with the sub-accounts listed they make the target
    exactly. A run sends at most one creation request and at most three
    requests. *)
Theorem creation_fills_the_gap (loaded : option config) (w : W)
  (signer : account_info) (names : list string) :
  In (signer, CreateSubaccounts names)
    (snd (fst (ensure_target_subaccounts exchange generate_subaccount_name
                 loaded w))) ->
  get_current_account_config loaded = Some signer
  /\ (exists result,
        snd (exchange w signer ListSubaccounts) = Returned result
        /\ is_success (sub_code result) = true
        /\ List.length names + List.length (listed result)
           = TARGET_SUBACCOUNT_COUNT)
  /\ 0 < List.length names
  /\ names = map generate_subaccount_name (seq 0 (List.length names))
  /\ List.length
       (filter (fun e => match snd e with
                         | CreateSubaccounts _ => true
                         | ListSubaccounts => false
                         end)
          (snd (fst (ensure_target_subaccounts exchange
                       generate_subaccount_name loaded w)))) = 1
  /\ List.length
       (snd (fst (ensure_target_subaccounts exchange generate_subaccount_name
                    loaded w))) <= 3.
Proof.
  unfold ensure_target_subaccounts.
  destruct (subaccount_request_cases loaded w ListSubaccounts)
    as [[E1|E1]|[m [M E1]]]; rewrite E1; cbn [fst snd negb];
    try (intros []).
  destruct (snd (exchange w m ListSubaccounts)) as [r1|x] eqn:R1;
    [|intros [E|[]]; discriminate E].
  destruct (is_success (sub_code r1)) eqn:S1; cbn [negb];
    [|intros [E|[]]; discriminate E].
  destruct (List.length (listed r1) <? TARGET_SUBACCOUNT_COUNT)%nat eqn:Lt;
    [|intros [E|[]]; discriminate E].
  apply Nat.ltb_lt in Lt.
  set (names0 := map generate_subaccount_name
                   (seq 0 (TARGET_SUBACCOUNT_COUNT - List.length (listed r1)))).
  assert (Ln : List.length names0
               = TARGET_SUBACCOUNT_COUNT - List.length (listed r1))
    by (unfold names0; now rewrite length_map, length_seq).
  assert (Main :
    forall rest,
      (forall e, In e rest -> snd e = ListSubaccounts) ->
      List.length rest <= 1 ->
      In (signer, CreateSubaccounts names)
        ([(m, ListSubaccounts)] ++ [(m, CreateSubaccounts names0)] ++ rest) ->
      get_current_account_config loaded = Some signer
      /\ (exists result,
            snd (exchange w signer ListSubaccounts) = Returned result
            /\ is_success (sub_code result) = true
            /\ List.length names + List.length (listed result)
               = TARGET_SUBACCOUNT_COUNT)
      /\ 0 < List.length names
      /\ names = map generate_subaccount_name (seq 0 (List.length names))
      /\ List.length
           (filter (fun e => match snd e with
                             | CreateSubaccounts _ => true
                             | ListSubaccounts => false
                             end)
              ([(m, ListSubaccounts)] ++ [(m, CreateSubaccounts names0)]
               ++ rest)) = 1
      /\ List.length
           ([(m, ListSubaccounts)] ++ [(m, CreateSubaccounts names0)] ++ rest)
         <= 3).
  { intros rest Hr Hl Hin. cbn [app] in Hin.
    assert (Eq : (signer, CreateSubaccounts names)
                 = (m, CreateSubaccounts names0)).
    { destruct Hin as [E|[E|I]]; [discriminate E | now symmetry |].
      apply Hr in I. discriminate I. }
    injection Eq as -> ->.
    split; [exact M|]. split; [exists r1; repeat split; auto; lia|].
    split; [lia|]. split; [unfold names0 at 1; now rewrite Ln|].
    split.
    - cbn [app filter snd List.length]. f_equal.
      apply length_zero_iff_nil.
      destruct (filter _ rest) as [|e t] eqn:F; [reflexivity|].
      assert (I : In e (filter
                          (fun e => match snd e with
                                    | CreateSubaccounts _ => true
                                    | ListSubaccounts => false
                                    end) rest))
        by (rewrite F; now left).
      apply filter_In in I as [I C]. rewrite (Hr _ I) in C. discriminate C.
    - cbn [app List.length]. lia. }
  destruct (subaccount_request_cases loaded (fst (exchange w m ListSubaccounts))
              (CreateSubaccounts names0))
    as [[E2|E2]|[m2 [M2 E2]]]; fold names0; rewrite E2; cbn [fst snd app].
  - change (is_success (sub_code subaccount_error)) with false. cbn iota.
    intros [E|[]]; discriminate E.
  - intros [E|[]]; discriminate E.
  - rewrite M in M2. injection M2 as <-.
    destruct (snd (exchange (fst (exchange w m ListSubaccounts)) m
                     (CreateSubaccounts names0))) as [r2|x] eqn:R2.
    + destruct (is_success (sub_code r2)) eqn:S2.
      * destruct (subaccount_request_cases loaded
                    (fst (exchange (fst (exchange w m ListSubaccounts)) m
                            (CreateSubaccounts names0))) ListSubaccounts)
          as [[E3|E3]|[m3 [M3 E3]]]; rewrite E3; cbn [fst snd].
        -- apply (Main []); [intros e [] | cbn; lia].
        -- apply (Main []); [intros e [] | cbn; lia].
        -- apply (Main [(m3, ListSubaccounts)]);
             [intros e [<-|[]]; reflexivity | cbn; lia].
      * apply (Main []); [intros e [] | cbn; lia].
    + apply (Main []); [intros e [] | cbn; lia].
Qed.

(** X20. The first step of the initialisation settles: against an exchange
    that answers every listing with the same sub-accounts, at least as many
    as the target and with numeric uids, and for a configuration of
    distinct keys whose main account holds its three credentials and whose
    sub entries sit in the slots [1..N], [ensure_target_subaccounts] sends
    the listing alone and returns [True]; run again on what it saved (or on
    the same configuration when it saved nothing), it again sends the
    listing alone, creates nothing, saves nothing and returns [True]. *)
Theorem ensure_subaccounts_settles (d : dict account_info)
  (others : list string) (main : account_info) (subs : list subaccount)
  (ks : list Z) (w w2 : W) :
  NoDup (map fst d) ->
  dict_get d "main" = Some main ->
  secret main <> None -> apikey main <> None -> passphrase main <> None ->
  (forall w0 i,
     exists r, snd (exchange w0 i ListSubaccounts) = Returned r
               /\ is_success (sub_code r) = true
               /\ listed r = subs) ->
  TARGET_SUBACCOUNT_COUNT <= List.length subs ->
  mapM uid_key (firstn TARGET_SUBACCOUNT_COUNT subs) = Ret ks ->
  (forall k i,
      In (k, i) d -> is_sub i = true ->
      exists j, j < TARGET_SUBACCOUNT_COUNT /\ k = str_of_nat (j + 1)) ->
  exists saved,
    ensure_target_subaccounts exchange generate_subaccount_name
      (Some (mk_config (Some d) others)) w
    = (fst (exchange w main ListSubaccounts), [(main, ListSubaccounts)],
       Returned (true, saved))
    /\ ensure_target_subaccounts exchange generate_subaccount_name
         (Some (match saved with
                | Some c => c
                | None => mk_config (Some d) others
                end)) w2
       = (fst (exchange w2 main ListSubaccounts), [(main, ListSubaccounts)],
          Returned (true, None)).
Proof.
  intros D Gm S1 S2 S3 Lists Enough Hk Slots.
  destruct (sorted_defined _ Hk) as [srt Hs].
  assert (Len : List.length (firstn TARGET_SUBACCOUNT_COUNT subs)
                = TARGET_SUBACCOUNT_COUNT)
    by (rewrite length_firstn; lia).
  assert (Slots' : forall k i,
             In (k, i) d -> is_sub i = true ->
             exists j,
               j < List.length (firstn TARGET_SUBACCOUNT_COUNT subs)
               /\ k = str_of_nat (j + 1))
    by (rewrite Len; exact Slots).
  (* a run on a configuration whose main account is [main] *)
  assert (Run :
    forall cfg w0,
      get_current_account_config (Some cfg) = Some main ->
      ensure_target_subaccounts exchange generate_subaccount_name (Some cfg) w0
      = (fst (exchange w0 main ListSubaccounts), [(main, ListSubaccounts)],
         record_if_needed (Some cfg) subs)).
  { intros cfg w0 M. unfold ensure_target_subaccounts.
    rewrite (@subaccount_request_signed (Some cfg) main w0 ListSubaccounts M S1
               S2 S3).
    cbn [fst snd].
    destruct (Lists w0 main) as [r [R [Ok L]]]. rewrite R, Ok, L.
    cbn [negb].
    destruct (Nat.ltb_spec (List.length subs) TARGET_SUBACCOUNT_COUNT);
      [lia | reflexivity]. }
  assert (M0 : get_current_account_config (Some (mk_config (Some d) others))
               = Some main) by exact Gm.
  destruct (record_slots_spec
              (existing_uuid_to_config (mk_config (Some d) others)) srt 0 d)
    as [d' [R [_ Others]]].
  assert (M1 : get_current_account_config (Some (mk_config (Some d') others))
               = Some main).
  { unfold get_current_account_config, get_account_config.
    cbn [config_truthy accounts config_accounts].
    rewrite Others; [exact Gm|].
    intros i _. apply not_eq_sym, str_of_nat_not_main. }
  assert (Up : update_config_with_subaccounts
                 (Some (mk_config (Some d) others)) subs
               = Ret (true, Some (mk_config (Some d') others))).
  { unfold update_config_with_subaccounts, subaccounts_sorted.
    cbn [config_truthy accounts other_keys negb].
    rewrite Hs. cbn [bind]. rewrite R. reflexivity. }
  pose proof (@recorded_slots_are_up_to_date d d' others subs srt D Hs Slots' R)
    as Fresh.
  assert (Chk : exists b,
             check_config_needs_update (Some (mk_config (Some d) others)) subs
             = Ret b).
  { unfold check_config_needs_update, subaccounts_sorted.
    cbn [config_truthy accounts negb]. rewrite Hs. cbn [bind].
    destruct (negb _); eauto. }
  destruct Chk as [b Chk].
  rewrite (Run _ w M0). unfold record_if_needed at 1. rewrite Chk.
  destruct b.
  - rewrite Up. exists (Some (mk_config (Some d') others)).
    split; [reflexivity|].
    rewrite (Run _ w2 M1). unfold record_if_needed. now rewrite Fresh.
  - exists None. split; [reflexivity|].
    rewrite (Run _ w2 M0). unfold record_if_needed. now rewrite Chk.
Qed.

End SubaccountFacts.

Lemma creation_fills_the_gap_witness :
  get_current_account_config (Some main_alone) = Some (info "main" "1000" "k0")
  /\ (exists result,
        snd (lists_one 0 (info "main" "1000" "k0") ListSubaccounts)
        = Returned result
        /\ is_success (sub_code result) = true
        /\ List.length ["name0"%string; "name1"%string; "name2"%string]
           + List.length (listed result)
           = TARGET_SUBACCOUNT_COUNT)
  /\ 0 < List.length ["name0"%string; "name1"%string; "name2"%string].
Proof.
  destruct (@creation_fills_the_gap nat lists_one numbered_name
              (Some main_alone) 0 (info "main" "1000" "k0")
              ["name0"%string; "name1"%string; "name2"%string])
    as [M [C [P _]]].
  - vm_compute. right. left. reflexivity.
  - split; [exact M|]. split; [exact C | exact P].
Defined.

Lemma ensure_subaccounts_settles_witness :
  exists saved,
    ensure_target_subaccounts lists_four numbered_name (Some main_alone) tt
    = (tt, [(info "main" "1000" "k0", ListSubaccounts)], Returned (true, saved))
    /\ ensure_target_subaccounts lists_four numbered_name
         (Some (match saved with
                | Some c => c
                | None => main_alone
                end)) tt
       = (tt, [(info "main" "1000" "k0", ListSubaccounts)],
          Returned (true, None)).
Proof.
  refine (@ensure_subaccounts_settles unit lists_four numbered_name
            [("main", info "main" "1000" "k0")] ["note"%string]
            (info "main" "1000" "k0") four_listed
            [1004%Z; 1002%Z; 1003%Z; 1001%Z] tt tt _ eq_refl _ _ _ _ _ _ _).
  - repeat constructor; simpl; intuition discriminate.
  - intros H; discriminate H.
  - intros H; discriminate H.
  - intros H; discriminate H.
  - intros w0 i. eexists. repeat split; reflexivity.
  - vm_compute. lia.
  - vm_compute. reflexivity.
  - intros k i [E|[]] Sub. injection E as <- <-. discriminate Sub.
Defined.

End GatewayFacts.
